(** * Availability and booking consistency of the barber booking site

    A shallow embedding of the booking logic found in
    - [src/js/script.js]   (class [BookingSystem], the customer side),
    - [src/js/admin.js]    (class [AdminPanel], the admin side),
    - [src/server/services/smsService.js] (the Express handlers over Supabase),
    together with the properties the specification states about them.

    JavaScript objects used as dictionaries ([this.availability]) are finite
    maps keyed by the date string; arrays are lists; a field that may be
    [undefined] is an [option]; the Supabase tables are explicit state that the
    handlers thread through. *)

From Stdlib Require Import ZArith String Ascii List Bool Lia Sorted.
From stdpp Require Import gmap strings list fin_maps pretty.

Local Open Scope string_scope.
Local Open Scope Z_scope.

(** ** JavaScript primitives used by the source *)

Module Js.

(** [s.split(c)] for a one-character separator. *)
Fixpoint split (c : ascii) (s : string) : list string :=
  match s with
  | EmptyString => [EmptyString]
  | String a r =>
      if Ascii.eqb a c then EmptyString :: split c r
      else match split c r with
           | [] => [String a EmptyString]
           | h :: t => String a h :: t
           end
  end.

Definition digit_of (a : ascii) : option Z :=
  let n := Z.of_nat (nat_of_ascii a) in
  if (48 <=? n) && (n <=? 57) then Some (n - 48) else None.

Fixpoint digits_value (acc : Z) (s : string) : option Z :=
  match s with
  | EmptyString => Some acc
  | String a r =>
      match digit_of a with
      | Some d => digits_value (10 * acc + d) r
      | None => None
      end
  end.

(** [Number(s)] on the strings the stores hold: a run of decimal digits is its
    value and the empty string is 0; [None] is NaN.  (Signs, fractions,
    exponents and surrounding blanks, which [Number] also reads, do not occur
    in [YYYY-MM-DD] and [HH:MM] pieces and are read as NaN here.) *)
Definition Number (s : string) : option Z := digits_value 0 s.

(** [const [a, b, c] = arr.map(Number)]: a missing element is [undefined],
    which every later arithmetic turns into NaN. *)
Definition nth_number (l : list string) (i : nat) : option Z :=
  match l !! i with
  | Some s => Number s
  | None => None
  end.

Definition msPerDay : Z := 86400000.

(** Days from 1970-01-01 to the first day of month [m] (0-indexed) of [y]. *)
Definition days_from_civil (y m : Z) : Z :=
  let m1 := m + 1 in
  let y' := if m1 <=? 2 then y - 1 else y in
  let era := y' / 400 in
  let yoe := y' - era * 400 in
  let mp := if m1 <=? 2 then m1 + 9 else m1 - 3 in
  let doy := (153 * mp + 2) / 5 in
  let doe := yoe * 365 + yoe / 4 - yoe / 100 + doy in
  era * 146097 + doe - 719468.

(** ECMAScript MakeDay, MakeTime, MakeDate and TimeClip.  Months outside
    0..11 carry into the year. *)
Definition MakeDay (year month date : Z) : Z :=
  let ym := year + month / 12 in
  let mn := month mod 12 in
  days_from_civil ym mn + date - 1.

Definition MakeTime (hour min sec ms : Z) : Z :=
  hour * 3600000 + min * 60000 + sec * 1000 + ms.

Definition MakeDate (day time : Z) : Z := day * msPerDay + time.

Definition TimeClip (t : Z) : option Z :=
  if Z.abs t <=? 8640000000000000 then Some t else None.

(** A [Date] is its time value, [None] for an Invalid Date.  Time values are
    kept on the local wall clock (the stored dates and times carry no offset
    and the source only ever compares local dates with each other). *)
Definition Date := option Z.

(** [new Date(year, monthIndex, day, hours, minutes)]; a year 0..99 means
    1900 + year. *)
Definition new_Date (year month day hours minutes : option Z) : Date :=
  match year, month, day, hours, minutes with
  | Some y, Some m, Some d, Some h, Some mi =>
      let yr := if (0 <=? y) && (y <=? 99) then 1900 + y else y in
      TimeClip (MakeDate (MakeDay yr m d) (MakeTime h mi 0 0))
  | _, _, _, _, _ => None
  end.

(** [d.setHours(0, 0, 0, 0)]: midnight of the same local day. *)
Definition setHours0 (d : Date) : Date :=
  match d with
  | Some t => TimeClip (MakeDate (t / msPerDay) (MakeTime 0 0 0 0))
  | None => None
  end.

(** [d.setDate(d.getDate() + 1)]: the same time of day one day later. *)
Definition setDate_next (d : Date) : Date :=
  match d with
  | Some t => TimeClip (t + msPerDay)
  | None => None
  end.

(** [a < b] on dates: false as soon as one side is NaN. *)
Definition date_lt (a b : Date) : bool :=
  match a, b with
  | Some x, Some y => x <? y
  | _, _ => false
  end.

(** Truthiness of a string and of a number. *)
Definition truthy_str (s : string) : bool := negb (String.eqb s "").
Definition truthy_num (z : Z) : bool := negb (z =? 0).

(** [a || b] on strings and numbers. *)
Definition or_str (a b : string) : string := if truthy_str a then a else b.
Definition or_num (a b : Z) : Z := if truthy_num a then a else b.

(** *** Numbers and their text

    A number is an exact integer, [None] for NaN; this agrees with the
    doubles of JavaScript below 2^53. *)
Definition num := option Z.

Definition num_add (a b : num) : num :=
  match a, b with
  | Some x, Some y => Some (x + y)
  | _, _ => None
  end.

Definition num_mul (a b : num) : num :=
  match a, b with
  | Some x, Some y => Some (x * y)
  | _, _ => None
  end.

(** [a % b]: the remainder has the sign of the dividend. *)
Definition num_rem (a : num) (b : Z) : num :=
  match a with
  | Some x => if b =? 0 then None else Some (Z.rem x b)
  | None => None
  end.

(** [Math.floor(a / b)] for a positive [b]. *)
Definition num_floor_div (a : num) (b : Z) : num :=
  match a with
  | Some x => Some (x / b)
  | None => None
  end.

(** Comparisons are false as soon as one side is NaN. *)
Definition num_lt (a b : num) : bool :=
  match a, b with
  | Some x, Some y => x <? y
  | _, _ => false
  end.

Definition num_ge (a b : num) : bool :=
  match a, b with
  | Some x, Some y => y <=? x
  | _, _ => false
  end.

Definition num_gt (a b : num) : bool := num_lt b a.

(** [a === b] on numbers. *)
Definition num_eq (a b : num) : bool :=
  match a, b with
  | Some x, Some y => x =? y
  | _, _ => false
  end.

(** [a || b] where [a] is a number: 0 and NaN are falsy. *)
Definition num_or (a : num) (b : Z) : Z :=
  match a with
  | Some x => if x =? 0 then b else x
  | None => b
  end.

(** [String(n)], [n.toString()] and a number inside a template. *)
Definition num_to_string (a : num) : string :=
  match a with
  | Some x => pretty x
  | None => "NaN"
  end.

(** [s.padStart(n, c)] for a one-character pad. *)
Fixpoint replicate_char (n : nat) (c : ascii) : string :=
  match n with
  | O => EmptyString
  | S k => String c (replicate_char k c)
  end.

Definition padStart (n : nat) (c : ascii) (s : string) : string :=
  replicate_char (n - String.length s) c +:+ s.

(** White space as [parseInt] and [\s] see it, among the characters a
    string of bytes can hold. *)
Definition is_space (a : ascii) : bool :=
  let n := Z.of_nat (nat_of_ascii a) in
  ((9 <=? n) && (n <=? 13)) || (n =? 32) || (n =? 160).

Fixpoint trim_start (s : string) : string :=
  match s with
  | EmptyString => EmptyString
  | String a r => if is_space a then trim_start r else s
  end.

Definition hex_digit_of (a : ascii) : option Z :=
  let n := Z.of_nat (nat_of_ascii a) in
  if (48 <=? n) && (n <=? 57) then Some (n - 48)
  else if (65 <=? n) && (n <=? 70) then Some (n - 55)
  else if (97 <=? n) && (n <=? 102) then Some (n - 87)
  else None.

(** The value of the longest prefix of digits, NaN when there is none. *)
Fixpoint leading_digits (digit : ascii -> option Z) (radix : Z) (acc : num)
    (s : string) : num :=
  match s with
  | EmptyString => acc
  | String a r =>
      match digit a with
      | Some d =>
          leading_digits digit radix
            (Some (radix * match acc with Some x => x | None => 0 end + d)) r
      | None => acc
      end
  end.

Definition unsigned_int (s : string) : num :=
  match s with
  | String "0" (String "x" r) => leading_digits hex_digit_of 16 None r
  | String "0" (String "X" r) => leading_digits hex_digit_of 16 None r
  | _ => leading_digits digit_of 10 None s
  end.

(** [parseInt(s)] without a radix. *)
Definition parseInt (s : string) : num :=
  match trim_start s with
  | String "-" r =>
      match unsigned_int r with
      | Some x => Some (- x)
      | None => None
      end
  | String "+" r => unsigned_int r
  | t => unsigned_int t
  end.

(** [s.toUpperCase()] on the letters a to z. *)
Definition upper_char (a : ascii) : ascii :=
  let n := nat_of_ascii a in
  if (97 <=? n)%nat && (n <=? 122)%nat then ascii_of_nat (n - 32) else a.

(** A value inside a template: [undefined] prints as its name. *)
Definition template (s : option string) : string :=
  match s with
  | Some x => x
  | None => "undefined"
  end.



(** The longest run of decimal digits at the head of [s], with the rest. *)
Fixpoint span_digits (s : string) : string * string :=
  match s with
  | EmptyString => (EmptyString, EmptyString)
  | String a r =>
      match digit_of a with
      | Some _ => let '(d, rest) := span_digits r in (String a d, rest)
      | None => (EmptyString, s)
      end
  end.

(** [s.replace(/\D/g, '')]: the decimal digits of [s]. *)
Fixpoint only_digits (s : string) : string :=
  match s with
  | EmptyString => EmptyString
  | String a r =>
      match digit_of a with
      | Some _ => String a (only_digits r)
      | None => only_digits r
      end
  end.

(** [array.sort()] on strings: ascending by code units.  The order is total
    and equal strings are the same string, so the sorted array does not depend
    on the sorting method. *)
Fixpoint sort_insert (x : string) (l : list string) : list string :=
  match l with
  | [] => [x]
  | y :: r => if String.leb x y then x :: l else y :: sort_insert x r
  end.

Definition sort (l : list string) : list string := foldr sort_insert [] l.

End Js.

(** ** Phone numbers for the SMS service ([smsService.js]) *)

Module Sms.

(** [formatPhoneNumber(phone)] *)
Definition formatPhoneNumber (phone : string) : string :=
  let cleaned := Js.only_digits phone in
  if (String.length cleaned =? 11)%nat
     && bool_decide (String.get 0 cleaned = Some "1"%char)
  then "+" +:+ cleaned
  else if (String.length cleaned =? 10)%nat then "+1" +:+ cleaned
  else if negb (String.prefix "+" cleaned) then "+" +:+ cleaned
  else cleaned.

End Sms.

(** ** Data exchanged between the pages and the server (frontend format) *)

(** One date of [this.availability]:
    [{ available, timeSlots: [...], closed }].  The admin editor writes
    records without [closed]; the server always sends all three fields. *)
Record DayInfo := {
  available : option bool;
  timeSlots : option (list string);
  closed : option bool
}.

Record Customer := {
  name : string;
  email : string;
  phone : string
}.

(** An appointment as the API returns it and as the pages keep it. *)
Record Appointment := {
  id : Z;
  customer : Customer;
  service : string;
  price : string;
  duration : Z;
  date : string;
  time : string;
  status : string;
  includeInAnalytics : bool;
  created_at : string;
  updated_at : string
}.

(** [status === 'pending' || status === 'accepted']. *)
Definition occupies (st : string) : bool :=
  String.eqb st "pending" || String.eqb st "accepted".

(** ** The Supabase tables *)

Module Supabase.

(** The result pair [{ data, error }] of a query. *)
Record Result (A : Type) := { data : option A; error : option string }.
Arguments data {A} _.
Arguments error {A} _.

Definition ok {A} (x : A) : Result A := {| data := Some x; error := None |}.
Definition failed {A} (msg : string) : Result A :=
  {| data := None; error := Some msg |}.
Definition no_data {A} : Result A := {| data := None; error := None |}.

(** Table [availability], primary key [date]. *)
Module Availability.
Record row := {
  time_ranges : option (list string);
  is_closed : option bool;
  updated_at : string
}.
End Availability.

(** Table [appointments], primary key [id]. *)
Module Appointments.
Record row := {
  customer_name : string;
  customer_email : string;
  customer_phone : string;
  service : string;
  price : string;
  duration : Z;
  date : string;
  time : string;
  status : string;
  include_in_analytics : option bool;
  created_at : string;
  updated_at : string
}.
End Appointments.

Record DB := {
  availability : gmap string Availability.row;
  appointments : gmap Z Appointments.row
}.

(** What the database layer may do beyond the tables' contents: each query can
    fail with a message, and [.single()] on an empty selection either reports
    [single_no_row] or, when that is [None], answers with no data and no
    error. *)
Record Driver := {
  availability_select_error : option string;
  single_no_row : option string;
  appointments_select_error : option string;
  appointments_insert_error : option string;
  appointments_update_error : option string;
  availability_upsert_error : string -> option string
}.

Definition single {A} (drv : Driver) (found : option A) : Result A :=
  match found with
  | Some x => ok x
  | None =>
      match single_no_row drv with
      | Some msg => failed msg
      | None => no_data
      end
  end.

(** [from('availability').select('*').eq('date', date).single()] *)
Definition select_availability (drv : Driver) (db : DB) (date : string)
  : Result Availability.row :=
  match availability_select_error drv with
  | Some msg => failed msg
  | None => single drv (availability db !! date)
  end.

(** [from('appointments').select('id').eq('date', date).eq('time', time)
      .in('status', ['pending', 'accepted'])] *)
Definition booked_at (date time : string) (r : Appointments.row) : bool :=
  String.eqb (Appointments.date r) date
  && String.eqb (Appointments.time r) time
  && occupies (Appointments.status r).

Definition select_bookings (drv : Driver) (db : DB) (date time : string)
  : Result (list Z) :=
  match appointments_select_error drv with
  | Some msg => failed msg
  | None =>
      ok (map fst (List.filter (fun p => booked_at date time (snd p))
                     (map_to_list (appointments db))))
  end.

(** [from('appointments').insert(row).select().single()]: the table assigns
    the id. *)
Definition insert_appointment (drv : Driver) (db : DB) (r : Appointments.row)
  : Result (Z * Appointments.row) * DB :=
  match appointments_insert_error drv with
  | Some msg => (failed msg, db)
  | None =>
      let i := fresh (dom (appointments db)) in
      (ok (i, r),
       {| availability := availability db;
          appointments := <[i := r]> (appointments db) |})
  end.

(** The body of an update: the columns it sets, among those the pages write.
    (The handler hands the whole request body to [update]; a body naming
    [id] or [created_at] is not among the bodies described here.) *)
Module Patch.
Record t := {
  customer_name : option string;
  customer_email : option string;
  customer_phone : option string;
  service : option string;
  price : option string;
  duration : option Z;
  date : option string;
  time : option string;
  status : option string;
  include_in_analytics : option bool;
  updated_at : option string
}.
End Patch.

Definition apply_patch (p : Patch.t) (r : Appointments.row) : Appointments.row :=
  {| Appointments.customer_name :=
       default (Appointments.customer_name r) (Patch.customer_name p);
     Appointments.customer_email :=
       default (Appointments.customer_email r) (Patch.customer_email p);
     Appointments.customer_phone :=
       default (Appointments.customer_phone r) (Patch.customer_phone p);
     Appointments.service := default (Appointments.service r) (Patch.service p);
     Appointments.price := default (Appointments.price r) (Patch.price p);
     Appointments.duration := default (Appointments.duration r) (Patch.duration p);
     Appointments.date := default (Appointments.date r) (Patch.date p);
     Appointments.time := default (Appointments.time r) (Patch.time p);
     Appointments.status := default (Appointments.status r) (Patch.status p);
     Appointments.include_in_analytics :=
       match Patch.include_in_analytics p with
       | Some b => Some b
       | None => Appointments.include_in_analytics r
       end;
     Appointments.created_at := Appointments.created_at r;
     Appointments.updated_at :=
       default (Appointments.updated_at r) (Patch.updated_at p) |}.

(** [from('appointments').update(p).eq('id', i).select().single()] *)
Definition update_appointment (drv : Driver) (db : DB) (i : Z) (p : Patch.t)
  : Result (Z * Appointments.row) * DB :=
  match appointments_update_error drv with
  | Some msg => (failed msg, db)
  | None =>
      match appointments db !! i with
      | Some r =>
          let r' := apply_patch p r in
          (single drv (Some (i, r')),
           {| availability := availability db;
              appointments := <[i := r']> (appointments db) |})
      | None => (single drv None, db)
      end
  end.

(** [from('availability').upsert(row, { onConflict: 'date' }).select()
      .single()] *)
Definition upsert_availability (drv : Driver) (db : DB) (date : string)
    (r : Availability.row) : Result (string * Availability.row) * DB :=
  match availability_upsert_error drv date with
  | Some msg => (failed msg, db)
  | None =>
      (ok (date, r),
       {| availability := <[date := r]> (availability db);
          appointments := appointments db |})
  end.

End Supabase.

(** ** The Express handlers ([smsService.js]) *)

Module Server.

Inductive Json :=
| ErrorJson (error : string) (details : option string)
| SaveErrorJson (error : string) (details : list (string * string))
| AppointmentJson (a : Appointment)
| AvailabilityJson (availability : gmap string DayInfo)
                   (errors : list (string * string)).

(** [res.status(code).json(body)] *)
Record Response := { code : Z; json : Json }.

Definition respond (c : Z) (j : Json) : Response := {| code := c; json := j |}.

(** Database row to frontend format (the same conversion in every appointment
    handler). *)
Definition to_frontend (d : Z * Supabase.Appointments.row) : Appointment :=
  let r := snd d in
  {| id := fst d;
     customer := {| name := Supabase.Appointments.customer_name r;
                    email := Supabase.Appointments.customer_email r;
                    phone := Supabase.Appointments.customer_phone r |};
     service := Supabase.Appointments.service r;
     price := Supabase.Appointments.price r;
     duration := Supabase.Appointments.duration r;
     date := Supabase.Appointments.date r;
     time := Supabase.Appointments.time r;
     status := Supabase.Appointments.status r;
     includeInAnalytics :=
       match Supabase.Appointments.include_in_analytics r with
       | Some false => false
       | _ => true
       end;
     created_at := Supabase.Appointments.created_at r;
     updated_at := Supabase.Appointments.updated_at r |}.

(** The body of [POST /api/appointments].  The booking page also sends
    [status]; the handler does not read it. *)
Module Body.
Record t := {
  customer : option Customer;
  service : string;
  price : string;
  duration : Z;
  date : string;
  time : string;
  includeInAnalytics : option bool;
  status : option string
}.
End Body.

(** [!customer || !customer.name || !customer.email || !customer.phone] *)
Definition customer_missing (c : option Customer) : bool :=
  match c with
  | None => true
  | Some c =>
      negb (Js.truthy_str (name c)) || negb (Js.truthy_str (email c))
      || negb (Js.truthy_str (phone c))
  end.

(** [app.post('/api/appointments', ...)].  [now] is the timestamp the table
    stamps on the new row.  Sending the confirmation SMS is fire-and-forget and
    does not touch the response. *)
Definition post_appointments (drv : Supabase.Driver) (now : string)
    (db : Supabase.DB) (body : Body.t) : Response * Supabase.DB :=
  match Body.customer body with
  | None =>
      (respond 400 (ErrorJson "Customer information is required" None), db)
  | Some cust =>
  if customer_missing (Some cust) then
    (respond 400 (ErrorJson "Customer information is required" None), db)
  else if negb (Js.truthy_str (Body.service body))
          || negb (Js.truthy_str (Body.date body))
          || negb (Js.truthy_str (Body.time body)) then
    (respond 400 (ErrorJson "Service, date, and time are required" None), db)
  else
    let avail := Supabase.select_availability drv db (Body.date body) in
    match Supabase.error avail with
    | Some msg =>
        (respond 400
           (ErrorJson ("This date is not available for booking: " +:+ msg) None),
         db)
    | None =>
    match Supabase.data avail with
    | None =>
        (respond 400
           (ErrorJson
              "This date is not available for booking. Please select a date with available time slots."
              None), db)
    | Some availabilityData =>
    if bool_decide (Supabase.Availability.is_closed availabilityData = Some true)
    then
      (respond 400
         (ErrorJson "This date is closed and not available for booking" None),
       db)
    else
      let existing :=
        Supabase.select_bookings drv db (Body.date body) (Body.time body) in
      match Supabase.error existing with
      | Some msg =>
          (respond 500 (ErrorJson "Failed to verify availability" (Some msg)),
           db)
      | None =>
      if match Supabase.data existing with
         | Some ids => (0 <? Z.of_nat (length ids))
         | None => false
         end
      then
        (respond 400 (ErrorJson "This time slot is already booked" None), db)
      else
        let appointmentData :=
          {| Supabase.Appointments.customer_name := name cust;
             Supabase.Appointments.customer_email := email cust;
             Supabase.Appointments.customer_phone := phone cust;
             Supabase.Appointments.service := Body.service body;
             Supabase.Appointments.price := Js.or_str (Body.price body) "0.00";
             Supabase.Appointments.duration :=
               Js.or_num (Body.duration body) 45;
             Supabase.Appointments.date := Body.date body;
             Supabase.Appointments.time := Body.time body;
             Supabase.Appointments.status := "pending";
             Supabase.Appointments.include_in_analytics :=
               Some (default true (Body.includeInAnalytics body));
             Supabase.Appointments.created_at := now;
             Supabase.Appointments.updated_at := now |} in
        let '(ins, db') := Supabase.insert_appointment drv db appointmentData in
        match Supabase.error ins with
        | Some msg =>
            (respond 500 (ErrorJson "Failed to create appointment" (Some msg)),
             db')
        | None =>
            match Supabase.data ins with
            | Some d => (respond 201 (AppointmentJson (to_frontend d)), db')
            | None =>
                (* reading [data.id] of null throws; the outer catch *)
                (respond 500 (ErrorJson "Internal server error" None), db')
            end
        end
      end
    end
    end
  end.

(** [app.patch('/api/appointments/:id', ...)].  The route only matches a
    non-empty id, so the "ID is required" guard never fires; the status SMS is
    fire-and-forget. *)
Definition patch_appointment (drv : Supabase.Driver) (now : string)
    (db : Supabase.DB) (appointmentId : Z) (body : Supabase.Patch.t)
  : Response * Supabase.DB :=
  let updateData :=
    {| Supabase.Patch.customer_name := Supabase.Patch.customer_name body;
       Supabase.Patch.customer_email := Supabase.Patch.customer_email body;
       Supabase.Patch.customer_phone := Supabase.Patch.customer_phone body;
       Supabase.Patch.service := Supabase.Patch.service body;
       Supabase.Patch.price := Supabase.Patch.price body;
       Supabase.Patch.duration := Supabase.Patch.duration body;
       Supabase.Patch.date := Supabase.Patch.date body;
       Supabase.Patch.time := Supabase.Patch.time body;
       Supabase.Patch.status := Supabase.Patch.status body;
       Supabase.Patch.include_in_analytics :=
         Supabase.Patch.include_in_analytics body;
       Supabase.Patch.updated_at := Some now |} in
  let '(upd, db') :=
    Supabase.update_appointment drv db appointmentId updateData in
  match Supabase.error upd with
  | Some msg =>
      (respond 500 (ErrorJson "Failed to update appointment" (Some msg)), db')
  | None =>
      match Supabase.data upd with
      | None => (respond 404 (ErrorJson "Appointment not found" None), db')
      | Some d => (respond 200 (AppointmentJson (to_frontend d)), db')
      end
  end.

(** [/^\d{4}-\d{2}-\d{2}$/.test(dateStr)] *)
Definition is_digit (a : ascii) : bool :=
  match Js.digit_of a with
  | Some _ => true
  | None => false
  end.

Definition is_date_format (s : string) : bool :=
  match list_ascii_of_string s with
  | [y1; y2; y3; y4; h1; m1; m2; h2; d1; d2] =>
      is_digit y1 && is_digit y2 && is_digit y3 && is_digit y4
      && Ascii.eqb h1 "-" && is_digit m1 && is_digit m2
      && Ascii.eqb h2 "-" && is_digit d1 && is_digit d2
  | _ => false
  end.

(** Database row of [availability] to frontend format. *)
Definition day_to_frontend (r : Supabase.Availability.row) : DayInfo :=
  {| available :=
       Some (negb (bool_decide (Supabase.Availability.is_closed r = Some true)));
     timeSlots := Some (default [] (Supabase.Availability.time_ranges r));
     closed := Some (default false (Supabase.Availability.is_closed r)) |}.

(** The accumulators of the loop over [Object.entries(availability)]. *)
Record SaveLoop := {
  results : list (option (string * Supabase.Availability.row));
  errors : list (string * string);
  store : Supabase.DB
}.

(** One iteration of the loop of [POST /api/availability]. *)
Definition save_date (drv : Supabase.Driver) (now : string) (acc : SaveLoop)
    (entry : string * DayInfo) : SaveLoop :=
  let dateStr := fst entry in
  let dayInfo := snd entry in
  if negb (is_date_format dateStr) then
    {| results := results acc;
       errors := errors acc
                 ++ [(dateStr, "Invalid date format. Expected YYYY-MM-DD")];
       store := store acc |}
  else
    let availabilityData :=
      {| Supabase.Availability.time_ranges :=
           Some (default [] (timeSlots dayInfo));
         Supabase.Availability.is_closed :=
           Some (bool_decide (closed dayInfo = Some true));
         Supabase.Availability.updated_at := now |} in
    let '(up, db') :=
      Supabase.upsert_availability drv (store acc) dateStr availabilityData in
    match Supabase.error up with
    | Some msg =>
        {| results := results acc;
           errors := errors acc ++ [(dateStr, msg)];
           store := db' |}
    | None =>
        {| results := results acc ++ [Supabase.data up];
           errors := errors acc;
           store := db' |}
    end.

(** [results.forEach(item => availabilityResponse[item.date] = ...)]; a null
    item makes the handler throw, which [None] reports. *)
Fixpoint availabilityResponse
    (items : list (option (string * Supabase.Availability.row)))
    (acc : gmap string DayInfo) : option (gmap string DayInfo) :=
  match items with
  | [] => Some acc
  | Some (d, r) :: rest =>
      availabilityResponse rest (<[d := day_to_frontend r]> acc)
  | None :: _ => None
  end.

(** [app.post('/api/availability', ...)].  The dates are visited in the
    order [map_to_list] lists them; the 207 body's [message] only repeats the
    two counts and is left out, and the 400 text is written with single
    quotes around YYYY-MM-DD. *)
Definition post_availability (drv : Supabase.Driver) (now : string)
    (db : Supabase.DB) (body : option (gmap string DayInfo))
  : Response * Supabase.DB :=
  match body with
  | None =>
      (respond 400
         (ErrorJson
            "Availability data is required. Expected format: { availability: { 'YYYY-MM-DD': { timeSlots: [...], closed: false } } }"
            None), db)
  | Some availability =>
      let loop :=
        foldl (save_date drv now)
              {| results := []; errors := []; store := db |}
              (map_to_list availability) in
      if (0 <? Z.of_nat (length (errors loop)))
         && (Z.of_nat (length (results loop)) =? 0)
      then
        (respond 500 (SaveErrorJson "Failed to save availability" (errors loop)),
         store loop)
      else
        match availabilityResponse (results loop) ∅ with
        | None =>
            (respond 500 (ErrorJson "Internal server error" None), store loop)
        | Some resp =>
            if 0 <? Z.of_nat (length (errors loop)) then
              (respond 207 (AvailabilityJson resp (errors loop)), store loop)
            else
              (respond 200 (AvailabilityJson resp []), store loop)
        end
  end.

(** [app.get('/api/availability', ...)] with the query parameters
    [startDate] and [endDate].  The rows' dates are the ISO strings the
    handler hands on as keys; [gte] and [lte] compare them as such. *)
Definition in_range (startDate endDate : option string) (d : string) : bool :=
  match startDate with
  | Some s => if Js.truthy_str s then String.leb s d else true
  | None => true
  end
  && match endDate with
     | Some e => if Js.truthy_str e then String.leb d e else true
     | None => true
     end.

Definition get_availability (drv : Supabase.Driver) (db : Supabase.DB)
    (startDate endDate : option string) : Response :=
  match Supabase.availability_select_error drv with
  | Some msg =>
      respond 500 (ErrorJson "Failed to fetch availability" (Some msg))
  | None =>
      let data :=
        List.filter (fun item => in_range startDate endDate (fst item))
                    (map_to_list (Supabase.availability db)) in
      let availabilityResponse :=
        foldl (fun acc item => <[fst item := day_to_frontend (snd item)]> acc)
              ∅ data in
      respond 200 (AvailabilityJson availabilityResponse [])
  end.

(** [app.get('/api/appointments', ...)] without query parameters, as the
    booking page calls it: every row, ordered by date and then by time (rows
    that agree on both stay in the order the table lists them). *)
Inductive ListResponse :=
| ListError (code : Z) (error : string) (details : option string)
| ListOk (appointments : list Appointment).

Definition earlier (x y : Z * Supabase.Appointments.row) : bool :=
  match String.compare (Supabase.Appointments.date (snd x))
                       (Supabase.Appointments.date (snd y)) with
  | Lt => true
  | Gt => false
  | Eq => String.leb (Supabase.Appointments.time (snd x))
                     (Supabase.Appointments.time (snd y))
  end.

Fixpoint order_insert (x : Z * Supabase.Appointments.row)
    (l : list (Z * Supabase.Appointments.row))
  : list (Z * Supabase.Appointments.row) :=
  match l with
  | [] => [x]
  | y :: r => if earlier x y then x :: l else y :: order_insert x r
  end.

Definition order_by_date_time (l : list (Z * Supabase.Appointments.row))
  : list (Z * Supabase.Appointments.row) :=
  foldr order_insert [] l.

Definition get_appointments (drv : Supabase.Driver) (db : Supabase.DB)
  : ListResponse :=
  match Supabase.appointments_select_error drv with
  | Some msg => ListError 500 "Failed to fetch appointments" (Some msg)
  | None =>
      let data := order_by_date_time (map_to_list (Supabase.appointments db)) in
      ListOk (map to_frontend data)
  end.

End Server.

(** ** What [fetch] gives back to a page *)

Inductive FetchResult :=
| NetworkError (message : string)
| Reply (r : Server.Response).

(** [response.ok] *)
Definition response_ok (r : Server.Response) : bool :=
  (200 <=? Server.code r) && (Server.code r <=? 299).

(** ** The booking page ([script.js], class [BookingSystem]) *)

Module BookingSystem.

Record t := {
  serviceData : string * string * Z;
  availability : gmap string DayInfo;
  existingAppointments : list Appointment;
  selectedDate : option string;
  selectedTime : option string;
  useAPI : bool;
  isSubmitting : bool
}.

(** [isTimeSlotBooked(dateStr, timeStr)] *)
Definition isTimeSlotBooked (this : t) (dateStr timeStr : string) : bool :=
  existsb (fun apt =>
             String.eqb (date apt) dateStr
             && String.eqb (time apt) timeStr
             && (String.eqb (status apt) "pending"
                 || String.eqb (status apt) "accepted"))
          (existingAppointments this).

(** [getAvailableTimeSlots(dateStr)] *)
Definition getAvailableTimeSlots (this : t) (dateStr : string) : list string :=
  match availability this !! dateStr with
  | None => []
  | Some dayInfo =>
      if bool_decide (closed dayInfo = Some true) then []
      else
        let allSlots := default [] (timeSlots dayInfo) in
        let availableSlots :=
          List.filter (fun slot => negb (isTimeSlotBooked this dateStr slot))
                      allSlots in
        availableSlots
  end.

(** The [bookingData] object that [submitBooking] posts. *)
Definition bookingData (this : t) (customerData : Customer)
    (selDate selTime : string) : Server.Body.t :=
  {| Server.Body.service := fst (fst (serviceData this));
     Server.Body.price := snd (fst (serviceData this));
     Server.Body.duration := snd (serviceData this);
     Server.Body.date := selDate;
     Server.Body.time := selTime;
     Server.Body.customer :=
       Some {| name := name customerData;
               email := email customerData;
               phone := phone customerData |};
     Server.Body.includeInAnalytics := None;
     Server.Body.status := Some "pending" |}.

(** [formatTime(time)] (the same method in [admin.js]). *)
Definition formatTime (time : string) : string :=
  let parts := Js.split ":" time in
  let hours := parts !! 0%nat in
  let minutes := parts !! 1%nat in
  let hour :=
    match hours with
    | Some h => Js.parseInt h
    | None => None
    end in
  let ampm := if Js.num_ge hour (Some 12) then "PM" else "AM" in
  let displayHour := Js.num_or (Js.num_rem hour 12) 12 in
  Js.num_to_string (Some displayHour) +:+ ":" +:+ Js.template minutes
  +:+ " " +:+ ampm.

(** One attempt of [/(\d+):(\d+)\s*(AM|PM)/i] at the head of [s]: the three
    groups.  Each repetition takes all it can; giving characters back never
    helps, because what follows a digit run or a blank run cannot start with a
    digit or a blank. *)
Definition match_time_here (s : string) : option (string * string * string) :=
  let '(h, r1) := Js.span_digits s in
  match h, r1 with
  | String _ _, String ":" r2 =>
      let '(m, r3) := Js.span_digits r2 in
      match m, Js.trim_start r3 with
      | String _ _, String a (String b _) =>
          if (Ascii.eqb (Js.upper_char a) "A" || Ascii.eqb (Js.upper_char a) "P")
             && Ascii.eqb (Js.upper_char b) "M"
          then Some (h, m, String a (String b EmptyString))
          else None
      | _, _ => None
      end
  | _, _ => None
  end.

(** [displayTime.match(...)]: the leftmost position where an attempt
    succeeds. *)
Fixpoint match_time (s : string) : option (string * string * string) :=
  match match_time_here s with
  | Some groups => Some groups
  | None =>
      match s with
      | EmptyString => None
      | String _ r => match_time r
      end
  end.

Fixpoint toUpperCase (s : string) : string :=
  match s with
  | EmptyString => EmptyString
  | String a r => String (Js.upper_char a) (toUpperCase r)
  end.

(** [parseTimeFromDisplay(displayTime)], [None] for [null]. *)
Definition parseTimeFromDisplay (displayTime : string) : option string :=
  match match_time displayTime with
  | None => None
  | Some (g1, minute, g3) =>
      let hour := Js.parseInt g1 in
      let ampm := toUpperCase g3 in
      let hour :=
        if String.eqb ampm "PM" && negb (Js.num_eq hour (Some 12))
        then Js.num_add hour (Some 12)
        else if String.eqb ampm "AM" && Js.num_eq hour (Some 12)
        then Some 0
        else hour in
      Some (Js.padStart 2 "0" (Js.num_to_string hour) +:+ ":" +:+ minute)
  end.

(** [fetchExistingAppointments()], with what [fetch('/api/appointments')]
    gives ([None] when it throws) and the list kept under the
    [bookedAppointments] key of localStorage ([None] when the key is
    absent). *)
Definition with_existingAppointments (this : t) (l : list Appointment) : t :=
  {| serviceData := serviceData this;
     availability := availability this;
     existingAppointments := l;
     selectedDate := selectedDate this;
     selectedTime := selectedTime this;
     useAPI := useAPI this;
     isSubmitting := isSubmitting this |}.

Definition fetchExistingAppointments (this : t)
    (response : option Server.ListResponse)
    (stored : option (list Appointment)) : t :=
  if negb (useAPI this) then
    with_existingAppointments this (default [] stored)
  else
    match response with
    | Some (Server.ListOk data) =>
        with_existingAppointments this
          (List.filter (fun apt => String.eqb (status apt) "pending"
                                   || String.eqb (status apt) "accepted")
                       data)
    | Some (Server.ListError _ _ _) => this
    | None => with_existingAppointments this (default [] stored)
    end.

End BookingSystem.

(** ** The admin panel ([admin.js], class [AdminPanel]) *)

Module AdminPanel.

Record t := {
  appointments : list Appointment;
  availability : gmap string DayInfo;
  useAPI : bool;
  isSavingAvailability : bool;
  updatingAppointmentIds : gset Z;
  expandedDate : option string
}.

Definition with_availability (this : t) (a : gmap string DayInfo) : t :=
  {| appointments := appointments this;
     availability := a;
     useAPI := useAPI this;
     isSavingAvailability := isSavingAvailability this;
     updatingAppointmentIds := updatingAppointmentIds this;
     expandedDate := expandedDate this |}.

Definition with_saving (this : t) (b : bool) : t :=
  {| appointments := appointments this;
     availability := availability this;
     useAPI := useAPI this;
     isSavingAvailability := b;
     updatingAppointmentIds := updatingAppointmentIds this;
     expandedDate := expandedDate this |}.

Definition with_expandedDate (this : t) (e : option string) : t :=
  {| appointments := appointments this;
     availability := availability this;
     useAPI := useAPI this;
     isSavingAvailability := isSavingAvailability this;
     updatingAppointmentIds := updatingAppointmentIds this;
     expandedDate := e |}.

Definition with_appointments (this : t) (l : list Appointment) : t :=
  {| appointments := l;
     availability := availability this;
     useAPI := useAPI this;
     isSavingAvailability := isSavingAvailability this;
     updatingAppointmentIds := updatingAppointmentIds this;
     expandedDate := expandedDate this |}.

(** *** Past appointments *)

(** The [Date] built from [appointment.date] and [appointment.time]. *)
Definition appointmentDate (appointment : Appointment) : Js.Date :=
  let ymd := Js.split "-" (date appointment) in
  let hm := Js.split ":" (time appointment) in
  let year := Js.nth_number ymd 0 in
  let month := Js.nth_number ymd 1 in
  let day := Js.nth_number ymd 2 in
  let hours := Js.nth_number hm 0 in
  let minutes := Js.nth_number hm 1 in
  Js.new_Date year (fmap (fun m => m - 1) month) day hours minutes.

(** [isPastAppointment(appointment)], with [now] the time value of
    [new Date()]. *)
Definition isPastAppointment (now : Z) (appointment : Appointment) : bool :=
  let tomorrow := Js.setHours0 (Js.setDate_next (Some now)) in
  Js.date_lt (appointmentDate appointment) tomorrow.

(** What [updateStats] writes into [pendingCount], [acceptedCount] and
    [totalCount]. *)
Record Stats := { pendingCount : nat; acceptedCount : nat; totalCount : nat }.

Definition updateStats (now : Z) (this : t) : Stats :=
  let activeAppointments :=
    List.filter (fun apt => negb (isPastAppointment now apt))
                (appointments this) in
  let pending :=
    length (List.filter (fun apt => String.eqb (status apt) "pending")
                        activeAppointments) in
  let accepted :=
    length (List.filter (fun apt => String.eqb (status apt) "accepted")
                        activeAppointments) in
  let total := length activeAppointments in
  {| pendingCount := pending; acceptedCount := accepted; totalCount := total |}.



(** *** Editing availability *)

(** [removeTimeSlot(dateStr, timeSlot)] *)
Definition removeTimeSlot (this : t) (dateStr timeSlot : string) : t :=
  let dayInfo :=
    default {| available := Some true; timeSlots := Some []; closed := None |}
            (availability this !! dateStr) in
  let timeSlots0 := default [] (timeSlots dayInfo) in
  let timeSlots1 :=
    List.filter (fun slot => negb (String.eqb slot timeSlot)) timeSlots0 in
  if (Z.of_nat (length timeSlots1) =? 0) then
    let this' := with_availability this (delete dateStr (availability this)) in
    if bool_decide (expandedDate this = Some dateStr)
    then with_expandedDate this' None
    else this'
  else
    with_availability this
      (<[dateStr := {| available := Some true;
                       timeSlots := Some timeSlots1;
                       closed := None |}]> (availability this)).

(** The texts [showMessage] displays, by call site. *)
Inductive Message :=
| SelectAtLeastOneDay    (* Please select at least one day to copy to. *)
| CannotCopyToPastDates  (* Cannot copy to past dates. *)
| CannotCopyToSameDay    (* Cannot copy to the same day. *)
| NoTimeSlotsToCopy      (* No time slots to copy from this day. *)
| SaveInProgress         (* Save already in progress. Please wait... *)
| CopiedTo (dayCount : nat) (* Time slots copied successfully to N day(s)! *)
| AvailabilitySaved      (* result.message of a successful save *)
| SaveFailed.            (* result.message of a failed save *)

(** The methods that talk to the server take the server as a state [S] and
    the effect of [fetch('/api/availability', { method: 'POST', ... })] on
    it. *)
Section WithServer.

Context {S : Type}.
Variable fetch_post_availability :
  gmap string DayInfo -> S -> FetchResult * S.

(** [saveAvailability(availabilityData)]; the boolean is [result.success]. *)
Definition saveAvailability (this : t) (availabilityData : gmap string DayInfo)
    (srv : S) : bool * t * S :=
  if isSavingAvailability this then (false, this, srv)
  else if negb (useAPI this) then
    (true, with_availability this availabilityData, srv)
  else
    let this1 := with_saving this true in
    let '(response, srv') := fetch_post_availability availabilityData srv in
    let result :=
      match response with
      | Reply r =>
          if response_ok r then
            match Server.json r with
            | Server.AvailabilityJson a _ => Some a
            | _ => None
            end
          else None
      | NetworkError _ => None
      end in
    match result with
    | Some a => (true, with_saving (with_availability this1 a) false, srv')
    | None =>
        (false, with_saving (with_availability this1 availabilityData) false,
         srv')
    end.

(** [saveDayAvailability(dateStr)] *)
Definition saveDayAvailability (this : t) (dateStr : string) (srv : S)
  : Message * t * S :=
  if isSavingAvailability this then (SaveInProgress, this, srv)
  else
    let dayInfo := availability this !! dateStr in
    let keep :=
      match dayInfo with
      | Some d => bool_decide (closed d = Some true)
      | None => false
      end in
    let empty :=
      match dayInfo with
      | None => true
      | Some d =>
          match timeSlots d with
          | None => true
          | Some l => Z.of_nat (length l) =? 0
          end
      end in
    let this1 :=
      if keep then this
      else if empty
           then with_availability this (delete dateStr (availability this))
           else this in
    let '(success, this2, srv') :=
      saveAvailability this1 (availability this1) srv in
    (if success then AvailabilitySaved else SaveFailed, this2, srv').

(** Whether [dateStr] lies before today ([copyTimeSlots], the [pastDates]
    filter). *)
Definition isPastDate (now : Z) (dateStr : string) : bool :=
  let today := Js.setHours0 (Some now) in
  let ymd := Js.split "-" dateStr in
  let year := Js.nth_number ymd 0 in
  let month := Js.nth_number ymd 1 in
  let day := Js.nth_number ymd 2 in
  let date :=
    Js.setHours0
      (Js.new_Date year (fmap (fun m => m - 1) month) day (Some 0) (Some 0)) in
  Js.date_lt date today.

(** The loop [selectedDays.forEach(targetDateStr => ...)]. *)
Definition copy_onto (timeSlotsToCopy : list string)
    (availability : gmap string DayInfo) (targetDateStr : string)
  : gmap string DayInfo :=
  <[targetDateStr := {| available := Some true;
                        timeSlots := Some timeSlotsToCopy;
                        closed := Some false |}]> availability.

(** [copyTimeSlots(sourceDateStr)], with [selectedDays] the values of the
    checked boxes and [now] the time value of [new Date()]. *)
Definition copyTimeSlots (now : Z) (this : t) (sourceDateStr : string)
    (selectedDays : list string) (srv : S) : Message * t * S :=
  if Z.of_nat (length selectedDays) =? 0 then (SelectAtLeastOneDay, this, srv)
  else
    let pastDates := List.filter (isPastDate now) selectedDays in
    if 0 <? Z.of_nat (length pastDates) then (CannotCopyToPastDates, this, srv)
    else if bool_decide (sourceDateStr ∈ selectedDays) then
      (CannotCopyToSameDay, this, srv)
    else
      match availability this !! sourceDateStr with
      | None => (NoTimeSlotsToCopy, this, srv)
      | Some sourceDayInfo =>
      match timeSlots sourceDayInfo with
      | None => (NoTimeSlotsToCopy, this, srv)
      | Some sourceSlots =>
      if Z.of_nat (length sourceSlots) =? 0 then (NoTimeSlotsToCopy, this, srv)
      else
        let timeSlotsToCopy := sourceSlots in
        if isSavingAvailability this then (SaveInProgress, this, srv)
        else
          let this1 :=
            with_availability this
              (foldl (copy_onto timeSlotsToCopy) (availability this)
                     selectedDays) in
          let '(success, this2, srv') :=
            saveAvailability this1 (availability this1) srv in
          if success then (CopiedTo (length selectedDays), this2, srv')
          else (SaveFailed, this2, srv')
      end
      end.

End WithServer.

(** *** Times of day *)

(** [getOrdinal(n)] for an integer [n]. *)
Definition getOrdinal (n : Z) : string :=
  let s := ["th"; "st"; "nd"; "rd"] in
  let at_index (i : Z) : option string :=
    if i <? 0 then None else s !! Z.to_nat i in
  let v := Z.rem n 100 in
  match at_index (Z.rem (v - 20) 10) with
  | Some x => x
  | None =>
      match at_index v with
      | Some x => x
      | None => "th"
      end
  end.

(** [convertTo24Hour(hour, minute, ampm)] *)
Definition convertTo24Hour (hour minute ampm : string) : string :=
  let h24 := Js.parseInt hour in
  let h24 :=
    if String.eqb ampm "PM" && negb (Js.num_eq h24 (Some 12))
    then Js.num_add h24 (Some 12)
    else if String.eqb ampm "AM" && Js.num_eq h24 (Some 12)
    then Some 0
    else h24 in
  Js.padStart 2 "0" (Js.num_to_string h24) +:+ ":" +:+ minute.

Module Time12.
Record t := { hour : string; minute : string; ampm : string }.
End Time12.

(** [convertTo12Hour(time24)]; [None] when the time has no colon, where
    [minutes.toString()] throws. *)
Definition convertTo12Hour (time24 : string) : option Time12.t :=
  let parts := Js.split ":" time24 in
  let hours := Js.nth_number parts 0 in
  match parts !! 1%nat with
  | None => None
  | Some m =>
      let minutes := Js.Number m in
      let ampm := if Js.num_ge hours (Some 12) then "PM" else "AM" in
      let hour12 := Js.num_or (Js.num_rem hours 12) 12 in
      Some {| Time12.hour := Js.num_to_string (Some hour12);
              Time12.minute := Js.padStart 2 "0" (Js.num_to_string minutes);
              Time12.ampm := ampm |}
  end.

(** [addMinutesToTime(time24, minutes)] *)
Definition addMinutesToTime (time24 : string) (minutes : Z) : string :=
  let parts := Js.split ":" time24 in
  let hours := Js.nth_number parts 0 in
  let minutesCurrent := Js.nth_number parts 1 in
  let totalMinutes :=
    Js.num_add (Js.num_add (Js.num_mul hours (Some 60)) minutesCurrent)
               (Some minutes) in
  let newHours := Js.num_floor_div totalMinutes 60 in
  let newMinutes := Js.num_rem totalMinutes 60 in
  if Js.num_ge newHours (Some 24) then "23:59"
  else Js.padStart 2 "0" (Js.num_to_string newHours) +:+ ":"
       +:+ Js.padStart 2 "0" (Js.num_to_string newMinutes).

(** *** The weekly schedule *)



Record TimeBounds := {
  minHour : Js.num;
  minMinute : Js.num;
  maxHour : Js.num;
  maxMinute : Js.num
}.

(** One turn of the [forEach] of [getAppointmentTimeBounds]. *)
Definition widen_bounds (b : TimeBounds) (apt : Appointment) : TimeBounds :=
  let parts := Js.split ":" (time apt) in
  let hours := Js.nth_number parts 0 in
  let minutes := Js.nth_number parts 1 in
  let duration := Js.or_num (duration apt) 45 in
  let endHours := hours in
  let endMinutes := Js.num_add minutes (Some duration) in
  let endTotalMinutes :=
    Js.num_add (Js.num_mul endHours (Some 60)) endMinutes in
  let finalEndHours := Js.num_floor_div endTotalMinutes 60 in
  let finalEndMinutes := Js.num_rem endTotalMinutes 60 in
  let b1 :=
    if Js.num_lt hours (minHour b)
       || (Js.num_eq hours (minHour b) && Js.num_lt minutes (minMinute b))
    then {| minHour := hours; minMinute := minutes;
            maxHour := maxHour b; maxMinute := maxMinute b |}
    else b in
  if Js.num_gt finalEndHours (maxHour b1)
     || (Js.num_eq finalEndHours (maxHour b1)
         && Js.num_gt finalEndMinutes (maxMinute b1))
  then {| minHour := minHour b1; minMinute := minMinute b1;
          maxHour := finalEndHours; maxMinute := finalEndMinutes |}
  else b1.

(** [getAppointmentTimeBounds(appointments)] *)
Definition getAppointmentTimeBounds (appointments : list Appointment)
  : TimeBounds :=
  let default_bounds :=
    {| minHour := Some 9; minMinute := Some 0;
       maxHour := Some 23; maxMinute := Some 0 |} in
  if (Z.of_nat (length appointments) =? 0) then default_bounds
  else
    let b := foldl widen_bounds default_bounds appointments in
    let b := if (Z.of_nat (length appointments) =? 0) then default_bounds
             else b in
    let b :=
      if Js.num_lt (minHour b) (Some 9)
         || (Js.num_eq (minHour b) (Some 9) && Js.num_eq (minMinute b) (Some 0))
      then {| minHour := Some 9; minMinute := Some 0;
              maxHour := maxHour b; maxMinute := maxMinute b |}
      else b in
    if Js.num_gt (maxHour b) (Some 23)
       || (Js.num_eq (maxHour b) (Some 23) && Js.num_gt (maxMinute b) (Some 0))
    then {| minHour := minHour b; minMinute := minMinute b;
            maxHour := Some 23; maxMinute := Some 0 |}
    else b.

(** *** The appointment list *)

(** The appointments [renderAppointments] is about to sort and show, for the
    value of [this.currentFilter]. *)
Definition filteredAppointments (now : Z) (this : t) (currentFilter : string)
  : list Appointment :=
  if String.eqb currentFilter "past" then
    List.filter (fun apt => isPastAppointment now apt) (appointments this)
  else if negb (String.eqb currentFilter "all") then
    List.filter (fun apt =>
                   String.eqb (status apt) currentFilter
                   && negb (isPastAppointment now apt))
                (appointments this)
  else
    List.filter (fun apt => negb (isPastAppointment now apt))
                (appointments this).

(** *** Adding a time slot *)

Inductive AddSlotOutcome :=
| NothingPending   (* no date is waiting for a slot: plain return *)
| SlotExists       (* alert: This time slot already exists! *)
| SlotAdded.

(** [confirmAddTimeSlot()], with the value of [this.pendingTimeSlotDate] and
    the values of the three selects of the modal. *)
Definition confirmAddTimeSlot (this : t) (pendingTimeSlotDate : option string)
    (hourValue minuteValue ampmValue : string) : AddSlotOutcome * t :=
  match pendingTimeSlotDate with
  | None => (NothingPending, this)
  | Some dateStr =>
  if negb (Js.truthy_str dateStr) then (NothingPending, this)
  else
    let hour := Js.parseInt hourValue in
    let minute := minuteValue in
    let ampm := ampmValue in
    let hour24 :=
      if String.eqb ampm "PM" && negb (Js.num_eq hour (Some 12))
      then Js.num_add hour (Some 12)
      else if String.eqb ampm "AM" && Js.num_eq hour (Some 12)
      then Some 0
      else hour in
    let time24 :=
      Js.padStart 2 "0" (Js.num_to_string hour24) +:+ ":" +:+ minute in
    let dayInfo :=
      default {| available := Some true; timeSlots := Some []; closed := None |}
              (availability this !! dateStr) in
    let timeSlots0 := default [] (timeSlots dayInfo) in
    if bool_decide (time24 ∈ timeSlots0) then (SlotExists, this)
    else
      let timeSlots1 := Js.sort (timeSlots0 ++ [time24]) in
      (SlotAdded,
       with_expandedDate
         (with_availability this
            (<[dateStr := {| available := Some true;
                             timeSlots := Some timeSlots1;
                             closed := None |}]> (availability this)))
         (Some dateStr))
  end.

(** *** Changing and deleting appointments *)

(** [appointment.field = ...] on the appointment that
    [this.appointments.find(apt => apt.id === id)] returns: the first one with
    that id.  Ids are compared as the opaque values the table hands out. *)
Fixpoint set_first (i : Z) (f : Appointment -> Appointment)
    (l : list Appointment) : list Appointment :=
  match l with
  | [] => []
  | a :: r => if id a =? i then f a :: r else a :: set_first i f r
  end.

Definition find_by_id (i : Z) (l : list Appointment) : option Appointment :=
  List.find (fun apt => id apt =? i) l.

Definition set_status (st : string) (a : Appointment) : Appointment :=
  {| id := id a; customer := customer a; service := service a;
     price := price a; duration := duration a; date := date a;
     time := time a; status := st;
     includeInAnalytics := includeInAnalytics a;
     created_at := created_at a; updated_at := updated_at a |}.

Definition with_updating (this : t) (u : gset Z) : t :=
  {| appointments := appointments this;
     availability := availability this;
     useAPI := useAPI this;
     isSavingAvailability := isSavingAvailability this;
     updatingAppointmentIds := u;
     expandedDate := expandedDate this |}.

(** The texts [showAppointmentsMessage] displays, by call site. *)
Inductive AppointmentsMessage :=
| AppointmentNotFound     (* Appointment not found. *)
| StatusSaved             (* Appointment <status> successfully. *)
| StatusFailed            (* Failed to update appointment status. ... *)
| CancelledLocally        (* Appointment cancelled successfully. *)
| CancelledNotified       (* ... Customer has been notified. *)
| CancelFailed.           (* Failed to cancel appointment: ... *)

(** What a method returns, shows, and writes to the [bookedAppointments] key
    of localStorage. *)
Record Outcome := {
  returned : bool;
  shown : option AppointmentsMessage;
  written : option (list Appointment)
}.

Section WithAppointmentServer.

Context {S : Type}.
(** [fetch('/api/appointments/' + id, { method: 'PATCH', body: { status } })]
    and the same URL with method DELETE. *)
Variable fetch_patch : Z -> string -> S -> FetchResult * S.
Variable fetch_delete : Z -> S -> FetchResult * S.

(** The fields the panel takes over from the body of a successful PATCH. *)
Definition adopt_result (result : Server.Json) (st : string)
    (a : Appointment) : Appointment :=
  match result with
  | Server.AppointmentJson r =>
      {| id := id a; customer := customer r; service := service a;
         price := price a; duration := duration a; date := date a;
         time := time a; status := Js.or_str (status r) st;
         includeInAnalytics := includeInAnalytics r;
         created_at := created_at a; updated_at := updated_at a |}
  | _ =>
      {| id := id a;
         customer := {| name := Js.or_str (name (customer a)) "Unknown";
                        email := Js.or_str (email (customer a)) "";
                        phone := Js.or_str (phone (customer a)) "" |};
         service := service a;
         price := price a; duration := duration a; date := date a;
         time := time a; status := st;
         includeInAnalytics := true;
         created_at := created_at a; updated_at := updated_at a |}
  end.

(** [updateAppointmentStatus(id, status)] *)
Definition updateAppointmentStatus (this : t) (i : Z) (st : string) (srv : S)
  : Outcome * t * S :=
  if bool_decide (i ∈ updatingAppointmentIds this) then
    ({| returned := false; shown := None; written := None |}, this, srv)
  else
    match find_by_id i (appointments this) with
    | None =>
        ({| returned := false; shown := Some AppointmentNotFound;
            written := None |}, this, srv)
    | Some appointment =>
        let oldStatus := status appointment in
        if String.eqb oldStatus st then
          ({| returned := true; shown := None; written := None |}, this, srv)
        else
          let this1 :=
            with_updating
              (with_appointments this
                 (set_first i (set_status st) (appointments this)))
              ({[ i ]} ∪ updatingAppointmentIds this) in
          if negb (useAPI this) then
            ({| returned := true; shown := Some StatusSaved;
                written := Some (appointments this1) |},
             with_updating this1 (updatingAppointmentIds this1 ∖ {[ i ]}),
             srv)
          else
            let '(response, srv') := fetch_patch i st srv in
            let result :=
              match response with
              | Reply r => if response_ok r then Some (Server.json r) else None
              | NetworkError _ => None
              end in
            match result with
            | Some body =>
                let this2 :=
                  with_appointments this1
                    (set_first i (adopt_result body st) (appointments this1)) in
                ({| returned := true; shown := Some StatusSaved;
                    written := None |},
                 with_updating this2 (updatingAppointmentIds this2 ∖ {[ i ]}),
                 srv')
            | None =>
                let this2 :=
                  with_appointments this1
                    (set_first i (set_status oldStatus) (appointments this1)) in
                ({| returned := false; shown := Some StatusFailed;
                    written := Some (appointments this2) |},
                 with_updating this2 (updatingAppointmentIds this2 ∖ {[ i ]}),
                 srv')
            end
    end.

(** [cancelAppointment(id)], with the answer to the [confirm] dialog. *)
Definition cancelAppointment (confirmed : bool) (this : t) (i : Z) (srv : S)
  : Outcome * t * S :=
  if negb confirmed then
    ({| returned := false; shown := None; written := None |}, this, srv)
  else
    match find_by_id i (appointments this) with
    | None =>
        ({| returned := false; shown := Some AppointmentNotFound;
            written := None |}, this, srv)
    | Some appointment =>
        if negb (useAPI this) then
          let this1 :=
            with_appointments this
              (set_first i (set_status "cancelled") (appointments this)) in
          ({| returned := false; shown := Some CancelledLocally;
              written := Some (appointments this1) |}, this1, srv)
        else
          let '(response, srv') := fetch_patch i "cancelled" srv in
          let ok :=
            match response with
            | Reply r => response_ok r
            | NetworkError _ => false
            end in
          if ok then
            ({| returned := false; shown := Some CancelledNotified;
                written := None |},
             with_appointments this
               (set_first i (set_status "cancelled") (appointments this)),
             srv')
          else
            ({| returned := false; shown := Some CancelFailed;
                written := None |}, this, srv')
    end.

(** [deleteAppointment(id)], with the answer to the [confirm] dialog. *)
Definition deleteAppointment (confirmed : bool) (this : t) (i : Z) (srv : S)
  : Outcome * t * S :=
  if negb confirmed then
    ({| returned := false; shown := None; written := None |}, this, srv)
  else
    let remaining :=
      List.filter (fun apt => negb (id apt =? i)) (appointments this) in
    if negb (useAPI this) then
      ({| returned := false; shown := None; written := Some remaining |},
       with_appointments this remaining, srv)
    else
      let '(response, srv') := fetch_delete i srv in
      let ok :=
        match response with
        | Reply r => response_ok r
        | NetworkError _ => false
        end in
      if ok then
        ({| returned := false; shown := None; written := None |},
         with_appointments this remaining, srv')
      else
        ({| returned := false; shown := None; written := Some remaining |},
         with_appointments this remaining, srv').

End WithAppointmentServer.

End AdminPanel.

(** ** The pages wired to the server *)

(** The admin page's POST of its availability, served by the handler. *)
Definition served (drv : Supabase.Driver) (now : string)
    (availability : gmap string DayInfo) (db : Supabase.DB)
  : FetchResult * Supabase.DB :=
  let '(r, db') := Server.post_availability drv now db (Some availability) in
  (Reply r, db').

(** The same request with the server out of reach. *)
Definition unreachable {S : Type} (availability : gmap string DayInfo) (srv : S)
  : FetchResult * S :=
  (NetworkError "Failed to fetch", srv).

(** A database layer that never fails and lets [.single()] report an empty
    selection as supabase-js does. *)
Definition healthy : Supabase.Driver :=
  {| Supabase.availability_select_error := None;
     Supabase.single_no_row :=
       Some "JSON object requested, multiple (or no) rows returned";
     Supabase.appointments_select_error := None;
     Supabase.appointments_insert_error := None;
     Supabase.appointments_update_error := None;
     Supabase.availability_upsert_error := fun _ => None |}.

(** ** The reasons of the specification *)

Inductive RejectReason :=
| DateUnavailable
| SlotNotOffered
| SlotTaken
| InvalidCustomer
| IllegalTransition.

(** The reason a response of [POST /api/appointments] stands for. *)
Definition reject_reason (r : Server.Response) : option RejectReason :=
  match Server.json r with
  | Server.ErrorJson msg _ =>
      if String.eqb msg "Customer information is required"
      then Some InvalidCustomer
      else if String.prefix "This date is not available for booking" msg
              || String.eqb msg
                   "This date is closed and not available for booking"
      then Some DateUnavailable
      else if String.eqb msg "This time slot is already booked"
      then Some SlotTaken
      else None
  | _ => None
  end.

(** ** Vocabulary of the specification *)

(** Some appointment of [appts] occupies [(d, t)]: it is on that date at that
    time with status pending or accepted. *)
Definition occupied (appts : list Appointment) (d t : string) : Prop :=
  Exists (fun apt => date apt = d /\ time apt = t
                     /\ (status apt = "pending" \/ status apt = "accepted"))
         appts.

#[global] Instance occupied_dec appts d t : Decision (occupied appts d t).
Proof. unfold occupied. apply _. Defined.

(** Ascending order of [HH:MM] strings: each slot is at most the next one,
    compared character by character. *)
Definition ascending (l : list string) : Prop :=
  Sorted.Sorted (fun a b => String.leb a b = true) l.

(** The slots stored for a date, none when the date is absent. *)
Definition stored_slots (this : BookingSystem.t) (d : string) : list string :=
  match BookingSystem.availability this !! d with
  | Some day => default [] (timeSlots day)
  | None => []
  end.

(** A booking page for examples. *)
Definition page (av : gmap string DayInfo) (apps : list Appointment)
  : BookingSystem.t :=
  {| BookingSystem.serviceData := ("Haircut", "30.00", 45);
     BookingSystem.availability := av;
     BookingSystem.existingAppointments := apps;
     BookingSystem.selectedDate := None;
     BookingSystem.selectedTime := None;
     BookingSystem.useAPI := true;
     BookingSystem.isSubmitting := false |}.

Definition open_day (slots : list string) : DayInfo :=
  {| available := Some true; timeSlots := Some slots; closed := Some false |}.

Definition closed_day (slots : list string) : DayInfo :=
  {| available := Some false; timeSlots := Some slots; closed := Some true |}.

Definition appointment_at (i : Z) (d t st : string) : Appointment :=
  {| id := i;
     customer := {| name := "Ada"; email := "ada@example.org";
                    phone := "5550100" |};
     service := "Haircut"; price := "30.00"; duration := 45;
     date := d; time := t; status := st;
     includeInAnalytics := true;
     created_at := "2025-06-01T10:00:00.000Z";
     updated_at := "2025-06-01T10:00:00.000Z" |}.

(** *** Vocabulary for the server *)

(** Some stored appointment occupies [(d, t)]. *)
Definition slot_taken (db : Supabase.DB) (d t : string) : Prop :=
  exists i r, Supabase.appointments db !! i = Some r
    /\ Supabase.Appointments.date r = d
    /\ Supabase.Appointments.time r = t
    /\ (Supabase.Appointments.status r = "pending"
        \/ Supabase.Appointments.status r = "accepted").

(** Every appointment stored for [(d, t)] is declined or cancelled. *)
Definition slot_released (db : Supabase.DB) (d t : string) : Prop :=
  forall i r, Supabase.appointments db !! i = Some r ->
    Supabase.Appointments.date r = d ->
    Supabase.Appointments.time r = t ->
    Supabase.Appointments.status r = "declined"
    \/ Supabase.Appointments.status r = "cancelled".

(** The double-booking invariant: two stored appointments that both hold
    pending or accepted for the same date and time are the same one. *)
Definition no_double_booking (db : Supabase.DB) : Prop :=
  forall i j ri rj,
    Supabase.appointments db !! i = Some ri ->
    Supabase.appointments db !! j = Some rj ->
    Supabase.Appointments.date ri = Supabase.Appointments.date rj ->
    Supabase.Appointments.time ri = Supabase.Appointments.time rj ->
    occupies (Supabase.Appointments.status ri) = true ->
    occupies (Supabase.Appointments.status rj) = true ->
    i = j.

(** The date has a row and the row is not closed. *)
Definition date_open (db : Supabase.DB) (d : string) : Prop :=
  exists row, Supabase.availability db !! d = Some row
    /\ Supabase.Availability.is_closed row <> Some true.

(** The date has no row, or a closed one. *)
Definition date_unavailable (db : Supabase.DB) (d : string) : Prop :=
  match Supabase.availability db !! d with
  | None => True
  | Some row => Supabase.Availability.is_closed row = Some true
  end.

(** The customer's name, email and phone are all non-empty. *)
Definition customer_given (body : Server.Body.t) : Prop :=
  exists c, Server.Body.customer body = Some c
    /\ name c <> "" /\ email c <> "" /\ phone c <> "".

(** Service, date and time are all non-empty. *)
Definition fields_given (body : Server.Body.t) : Prop :=
  Server.Body.service body <> "" /\ Server.Body.date body <> ""
  /\ Server.Body.time body <> "".

(** The three queries of the booking handler report no error. *)
Definition queries_succeed (drv : Supabase.Driver) : Prop :=
  Supabase.availability_select_error drv = None
  /\ Supabase.appointments_select_error drv = None
  /\ Supabase.appointments_insert_error drv = None.

(** A database and a request for examples. *)
Definition stored (d t st : string) : Supabase.Appointments.row :=
  {| Supabase.Appointments.customer_name := "Ada";
     Supabase.Appointments.customer_email := "ada@example.org";
     Supabase.Appointments.customer_phone := "5550100";
     Supabase.Appointments.service := "Haircut";
     Supabase.Appointments.price := "30.00";
     Supabase.Appointments.duration := 45;
     Supabase.Appointments.date := d;
     Supabase.Appointments.time := t;
     Supabase.Appointments.status := st;
     Supabase.Appointments.include_in_analytics := Some true;
     Supabase.Appointments.created_at := "2025-06-01T10:00:00.000Z";
     Supabase.Appointments.updated_at := "2025-06-01T10:00:00.000Z" |}.

Definition day_row (slots : list string) (is_closed : bool)
  : Supabase.Availability.row :=
  {| Supabase.Availability.time_ranges := Some slots;
     Supabase.Availability.is_closed := Some is_closed;
     Supabase.Availability.updated_at := "2025-06-01T10:00:00.000Z" |}.

Definition database (av : gmap string Supabase.Availability.row)
    (apps : gmap Z Supabase.Appointments.row) : Supabase.DB :=
  {| Supabase.availability := av; Supabase.appointments := apps |}.

Definition request (c : option Customer) (d t : string) (st : option string)
  : Server.Body.t :=
  {| Server.Body.customer := c;
     Server.Body.service := "Haircut";
     Server.Body.price := "30.00";
     Server.Body.duration := 45;
     Server.Body.date := d;
     Server.Body.time := t;
     Server.Body.includeInAnalytics := None;
     Server.Body.status := st |}.

Definition ada : Customer :=
  {| name := "Ada"; email := "ada@example.org"; phone := "5550100" |}.

Definition nobody : Customer := {| name := ""; email := ""; phone := "" |}.

(** The row a request is stored as. *)
Definition row_of (now : string) (c : Customer) (body : Server.Body.t)
  : Supabase.Appointments.row :=
  {| Supabase.Appointments.customer_name := name c;
     Supabase.Appointments.customer_email := email c;
     Supabase.Appointments.customer_phone := phone c;
     Supabase.Appointments.service := Server.Body.service body;
     Supabase.Appointments.price := Js.or_str (Server.Body.price body) "0.00";
     Supabase.Appointments.duration := Js.or_num (Server.Body.duration body) 45;
     Supabase.Appointments.date := Server.Body.date body;
     Supabase.Appointments.time := Server.Body.time body;
     Supabase.Appointments.status := "pending";
     Supabase.Appointments.include_in_analytics :=
       Some (default true (Server.Body.includeInAnalytics body));
     Supabase.Appointments.created_at := now;
     Supabase.Appointments.updated_at := now |}.

(** One open day with two slots; 09:00 is held by a pending appointment and
    09:45 only by a declined one. *)
Definition db0 : Supabase.DB :=
  database (<["2025-06-10" := day_row ["09:00"; "09:45"] false]> ∅)
           (<[1 := stored "2025-06-10" "09:00" "pending"]>
              (<[2 := stored "2025-06-10" "09:45" "declined"]> ∅)).

(** The same request carrying another [status] field. *)
Definition with_status (body : Server.Body.t) (st : option string)
  : Server.Body.t :=
  {| Server.Body.customer := Server.Body.customer body;
     Server.Body.service := Server.Body.service body;
     Server.Body.price := Server.Body.price body;
     Server.Body.duration := Server.Body.duration body;
     Server.Body.date := Server.Body.date body;
     Server.Body.time := Server.Body.time body;
     Server.Body.includeInAnalytics := Server.Body.includeInAnalytics body;
     Server.Body.status := st |}.

(** Two databases agree on everything the booking handler reads: the
    appointments, and for each date whether it has a row and whether the row
    is closed.  The rows' time slots may differ. *)
Definition same_but_slots (db db' : Supabase.DB) : Prop :=
  Supabase.appointments db = Supabase.appointments db'
  /\ forall d,
       Supabase.Availability.is_closed <$> (Supabase.availability db !! d)
       = Supabase.Availability.is_closed <$> (Supabase.availability db' !! d).

(** The body [{ status }] the admin page sends. *)
Definition status_patch (st : string) : Supabase.Patch.t :=
  {| Supabase.Patch.customer_name := None;
     Supabase.Patch.customer_email := None;
     Supabase.Patch.customer_phone := None;
     Supabase.Patch.service := None;
     Supabase.Patch.price := None;
     Supabase.Patch.duration := None;
     Supabase.Patch.date := None;
     Supabase.Patch.time := None;
     Supabase.Patch.status := Some st;
     Supabase.Patch.include_in_analytics := None;
     Supabase.Patch.updated_at := None |}.

(** An admin panel for examples. *)
Definition panel (apps : list Appointment) (av : gmap string DayInfo)
  : AdminPanel.t :=
  {| AdminPanel.appointments := apps;
     AdminPanel.availability := av;
     AdminPanel.useAPI := true;
     AdminPanel.isSavingAvailability := false;
     AdminPanel.updatingAppointmentIds := ∅;
     AdminPanel.expandedDate := None |}.

(** The clock is at least two days inside the range of time values, so that
    tomorrow is a valid [Date]. *)
Definition clock_in_range (now : Z) : Prop :=
  - 8640000000000000 + 2 * Js.msPerDay <= now
  <= 8640000000000000 - 2 * Js.msPerDay.

(** 2025-06-10 at 08:00 on the local clock, and the day's midnight. *)
Definition morning : Z := 20249 * Js.msPerDay + 8 * 3600000.

(** *** Vocabulary for saving availability *)

(** The server stores the date: its key has the date format and its upsert
    reports no error. *)
Definition accepted (drv : Supabase.Driver) (d : string) : bool :=
  Server.is_date_format d
  && bool_decide (Supabase.availability_upsert_error drv d = None).

(** The row a day is stored as. *)
Definition row_of_day (now : string) (day : DayInfo)
  : Supabase.Availability.row :=
  {| Supabase.Availability.time_ranges := Some (default [] (timeSlots day));
     Supabase.Availability.is_closed :=
       Some (bool_decide (closed day = Some true));
     Supabase.Availability.updated_at := now |}.

(** The day as the server sends it back after storing it. *)
Definition sent_back (day : DayInfo) : DayInfo :=
  {| available := Some (negb (bool_decide (closed day = Some true)));
     timeSlots := Some (default [] (timeSlots day));
     closed := Some (bool_decide (closed day = Some true)) |}.

(** Some date of the payload is stored by the server. *)
Definition some_accepted (drv : Supabase.Driver) (a : gmap string DayInfo)
  : Prop :=
  exists d day, a !! d = Some day /\ accepted drv d = true.

(** The checks of [copyTimeSlots] that do not look at the store. *)
Definition targets_valid (now : Z) (src : string) (targets : list string)
  : Prop :=
  (Z.of_nat (length targets) =? 0) = false
  /\ (0 <? Z.of_nat (length (List.filter (AdminPanel.isPastDate now) targets)))
     = false
  /\ bool_decide (src ∈ targets) = false.

(** A panel whose source date 2025-06-10 offers two slots while 2025-06-11
    holds another slot and 2025-06-12 is closed. *)
Definition panel0 : AdminPanel.t :=
  panel []
    (<["2025-06-10" := open_day ["09:00"; "09:45"]]>
       (<["2025-06-11" := open_day ["10:00"]]>
          (<["2025-06-12" := closed_day ["11:00"]]> ∅))).

(** Two appointments for the same date and time: one pending, one declined. *)
Definition db_shared_slot : Supabase.DB :=
  database (<["2025-06-10" := day_row ["09:00"; "09:45"] false]> ∅)
           (<[1 := stored "2025-06-10" "09:00" "pending"]>
              (<[2 := stored "2025-06-10" "09:00" "declined"]> ∅)).

(** ** Vocabulary for the further properties *)

(** The admin page's PATCH of a status, served by the handler. *)
Definition served_patch (drv : Supabase.Driver) (now : string)
    (i : Z) (st : string) (db : Supabase.DB) : FetchResult * Supabase.DB :=
  let '(r, db') := Server.patch_appointment drv now db i (status_patch st) in
  (Reply r, db').

(** Every character is a decimal digit; a numeral has at least one. *)
Fixpoint all_digits (s : string) : bool :=
  match s with
  | EmptyString => true
  | String a r => Server.is_digit a && all_digits r
  end.

Definition numeral (s : string) : Prop := s <> "" /\ all_digits s = true.

(** A number below 100 written with two digits. *)
Definition two_digits (n : Z) : string := Js.padStart 2 "0" (pretty n).

(** The time [h:m] of the 24 hour clock as the stores write it. *)
Definition clock (h m : Z) : string := two_digits h +:+ ":" +:+ two_digits m.

(** The slots the panel holds for a date, none when the date is absent. *)
Definition panel_slots (this : AdminPanel.t) (d : string) : list string :=
  match AdminPanel.availability this !! d with
  | Some day => default [] (timeSlots day)
  | None => []
  end.


(** A time of day as the stores write it. *)
Definition clock_time (s : string) : Prop :=
  exists h m, 0 <= h < 24 /\ 0 <= m < 60 /\ s = clock h m.

(** What is checked of each hour of the day: its two digits are read back by
    [parseInt] and [Number], and its 12 hour text with AM or PM is turned
    back into the two digits. *)
Definition hour_facts (h : Z) : bool :=
  let s := two_digits h in
  let D := pretty (Js.num_or (Js.num_rem (Some h) 12) 12) in
  let ampm := if Js.num_ge (Some h) (Some 12) then "PM" else "AM" in
  all_digits s && negb (String.eqb s "")
  && bool_decide (Js.parseInt s = Some h)
  && bool_decide (Js.Number s = Some h)
  && all_digits D && negb (String.eqb D "")
  && String.eqb
       (Js.padStart 2 "0"
          (Js.num_to_string
             (if String.eqb ampm "PM" && negb (Js.num_eq (Js.parseInt D) (Some 12))
              then Js.num_add (Js.parseInt D) (Some 12)
              else if String.eqb ampm "AM" && Js.num_eq (Js.parseInt D) (Some 12)
              then Some 0
              else Js.parseInt D)))
       s.

(** A number below 100 is read back from its two digits. *)
Definition reads_back (k : Z) : bool :=
  bool_decide (Js.Number (two_digits k) = Some k)
  && all_digits (two_digits k).

(** The English suffix of a number from its last two digits. *)
Definition ordinal_check (v : Z) : bool :=
  String.eqb (AdminPanel.getOrdinal v)
    (if (11 <=? v) && (v <=? 13) then "th"
     else if v mod 10 =? 1 then "st"
     else if v mod 10 =? 2 then "nd"
     else if v mod 10 =? 3 then "rd"
     else "th").

(** The invariant of the loop of [getAppointmentTimeBounds]: the earliest
    time is at most 9:00 and the latest at least 23:00. *)
Definition bounds_inv (b : AdminPanel.TimeBounds) : Prop :=
  exists a a' c c',
    AdminPanel.minHour b = Some a /\ AdminPanel.minMinute b = Some a'
    /\ AdminPanel.maxHour b = Some c /\ AdminPanel.maxMinute b = Some c'
    /\ a <= 9 /\ (a = 9 -> a' = 0) /\ 23 <= c /\ (c = 23 -> 0 <= c').

(** The booking page holds the availability that [GET /api/availability]
    answers for the database. *)
Definition availability_loaded (drv : Supabase.Driver) (db : Supabase.DB)
    (this : BookingSystem.t) : Prop :=
  Server.get_availability drv db None None
  = Server.respond 200
      (Server.AvailabilityJson (BookingSystem.availability this) []).

(** The tables after a list of booking requests, handled one after another;
    each request comes with the time stamped on its row. *)
Definition booked_in_turn (drv : Supabase.Driver) (db : Supabase.DB)
    (requests : list (string * Server.Body.t)) : Supabase.DB :=
  foldl (fun db r => (Server.post_appointments drv r.1 db r.2).2) db requests.



(** * Properties *)

(** ** JavaScript primitives: sanity checks *)

Example split_date : Js.split "-" "2025-06-10" = ["2025"; "06"; "10"].
Proof. reflexivity. Qed.

Example split_empty : Js.split "-" "" = [""].
Proof. reflexivity. Qed.

Example number_padded : Js.Number "06" = Some 6.
Proof. reflexivity. Qed.

Example number_nan : Js.Number "1x" = None.
Proof. reflexivity. Qed.

Example epoch_day : Js.MakeDay 1970 0 1 = 0.
Proof. reflexivity. Qed.

Example known_day : Js.MakeDay 2025 5 10 = 20249.
Proof. reflexivity. Qed.

Example leap_day : Js.MakeDay 2024 1 29 + 1 = Js.MakeDay 2024 2 1.
Proof. reflexivity. Qed.

Example month_carry : Js.MakeDay 2024 12 1 = Js.MakeDay 2025 0 1.
Proof. reflexivity. Qed.

Example month_borrow : Js.MakeDay 2025 (-1) 10 = Js.MakeDay 2024 11 10.
Proof. reflexivity. Qed.

(** ** The slot resolver *)

Section Resolver.

Implicit Types (this : BookingSystem.t) (d t : string).

Lemma isTimeSlotBooked_occupied this d t :
  BookingSystem.isTimeSlotBooked this d t = true
  <-> occupied (BookingSystem.existingAppointments this) d t.
Proof.
  unfold BookingSystem.isTimeSlotBooked, occupied.
  rewrite existsb_exists, Exists_exists.
  split; intros (apt & Hin & H); exists apt.
  - split; [by apply list_elem_of_In|].
    rewrite !andb_true_iff, orb_true_iff, !String.eqb_eq in H. tauto.
  - split; [by apply list_elem_of_In|].
    rewrite !andb_true_iff, orb_true_iff, !String.eqb_eq. tauto.
Qed.

Lemma filter_free_slots this d (l : list string) :
  List.filter (fun slot => negb (BookingSystem.isTimeSlotBooked this d slot)) l
  = filter (fun t => ~ occupied (BookingSystem.existingAppointments this) d t) l.
Proof.
  induction l as [|s l IH]; [done|].
  cbn [List.filter]. rewrite filter_cons, IH.
  destruct (BookingSystem.isTimeSlotBooked this d s) eqn:E; cbn [negb].
  - rewrite decide_False; [done|].
    intros H. apply H. by apply isTimeSlotBooked_occupied.
  - rewrite decide_True; [done|].
    intros H. apply isTimeSlotBooked_occupied in H. congruence.
Qed.

(** C2: the resolver returns no slot for a date that is absent or closed, and
    otherwise exactly the day's [timeSlots] without the times that a pending
    or accepted appointment on that date occupies. *)
Theorem getAvailableTimeSlots_resolves this d :
  (BookingSystem.availability this !! d = None ->
   BookingSystem.getAvailableTimeSlots this d = [])
  /\ (forall day, BookingSystem.availability this !! d = Some day ->
        closed day = Some true ->
        BookingSystem.getAvailableTimeSlots this d = [])
  /\ (forall day, BookingSystem.availability this !! d = Some day ->
        closed day <> Some true ->
        BookingSystem.getAvailableTimeSlots this d
        = filter (fun t =>
                    ~ occupied (BookingSystem.existingAppointments this) d t)
                 (default [] (timeSlots day))).
Proof.
  unfold BookingSystem.getAvailableTimeSlots.
  split; [|split].
  - by intros ->.
  - intros day -> Hc. by rewrite bool_decide_eq_true_2.
  - intros day -> Hc. rewrite bool_decide_eq_false_2 by done.
    apply filter_free_slots.
Qed.

Lemma getAvailableTimeSlots_resolves_witness :
  BookingSystem.getAvailableTimeSlots
    (page {[ "2025-06-10" := open_day ["09:00"; "09:45"] ]}
          [appointment_at 1 "2025-06-10" "09:00" "pending"])
    "2025-06-10" = ["09:45"]
  /\ BookingSystem.getAvailableTimeSlots
       (page {[ "2025-06-10" := closed_day ["09:00"; "09:45"] ]} [])
       "2025-06-10" = []
  /\ BookingSystem.getAvailableTimeSlots
       (page {[ "2025-06-10" := open_day ["09:00"; "09:45"] ]} [])
       "2025-06-11" = [].
Proof.
  split; [|split].
  - rewrite (proj2 (proj2 (getAvailableTimeSlots_resolves
               (page {[ "2025-06-10" := open_day ["09:00"; "09:45"] ]}
                     [appointment_at 1 "2025-06-10" "09:00" "pending"])
               "2025-06-10")) (open_day ["09:00"; "09:45"]));
      [vm_compute; reflexivity | vm_compute; reflexivity | discriminate].
  - apply (proj1 (proj2 (getAvailableTimeSlots_resolves
               (page {[ "2025-06-10" := closed_day ["09:00"; "09:45"] ]} [])
               "2025-06-10")) (closed_day ["09:00"; "09:45"]));
      vm_compute; reflexivity.
  - apply (proj1 (getAvailableTimeSlots_resolves
               (page {[ "2025-06-10" := open_day ["09:00"; "09:45"] ]} [])
               "2025-06-11")).
    vm_compute; reflexivity.
Defined.

End Resolver.

(** ** Order of the resolved slots *)

Section SlotOrder.

Lemma string_compare_trans_le (s1 s2 s3 : string) :
  String.compare s1 s2 <> Gt -> String.compare s2 s3 <> Gt ->
  String.compare s1 s3 <> Gt.
Proof.
  revert s2 s3.
  induction s1 as [|a s1 IH]; intros [|b s2] [|c s3]; simpl; try congruence.
  unfold Ascii.compare.
  destruct (N.compare_spec (N_of_ascii a) (N_of_ascii b)) as [E1|L1|G1];
    destruct (N.compare_spec (N_of_ascii b) (N_of_ascii c)) as [E2|L2|G2];
    try congruence.
  - rewrite E1, E2, N.compare_refl. intros. eapply IH; eauto.
  - rewrite E1. intros _ _.
    destruct (N.compare_spec (N_of_ascii b) (N_of_ascii c));
      try congruence; lia.
  - rewrite <- E2. intros _ _.
    destruct (N.compare_spec (N_of_ascii a) (N_of_ascii b));
      try congruence; lia.
  - intros _ _.
    destruct (N.compare_spec (N_of_ascii a) (N_of_ascii c));
      try congruence; lia.
Qed.

Lemma string_leb_trans (s1 s2 s3 : string) :
  String.leb s1 s2 = true -> String.leb s2 s3 = true ->
  String.leb s1 s3 = true.
Proof.
  unfold String.leb. intros H1 H2.
  pose proof (string_compare_trans_le s1 s2 s3) as T.
  destruct (String.compare s1 s2), (String.compare s2 s3),
    (String.compare s1 s3); try done; exfalso; apply T; congruence.
Qed.

Lemma ascending_filter (f : string -> bool) (l : list string) :
  ascending l -> ascending (List.filter f l).
Proof.
  unfold ascending. intros H.
  apply Sorted_StronglySorted in H;
    [|intros x y z; apply string_leb_trans].
  apply StronglySorted_Sorted.
  induction H as [|a l Hl IH Ha]; cbn [List.filter]; [constructor|].
  destruct (f a); [|done].
  constructor; [done|].
  rewrite List.Forall_forall in *. intros x Hx.
  apply List.filter_In in Hx. apply Ha. tauto.
Qed.

Lemma sublist_filter_bool (f : string -> bool) (l : list string) :
  sublist (List.filter f l) l.
Proof.
  induction l as [|a l IH]; cbn [List.filter]; [constructor|].
  destruct (f a); by constructor.
Qed.

(** C8, as the specification states it, fails: slots stored out of order come
    back out of order. *)
Lemma getAvailableTimeSlots_unsorted :
  BookingSystem.getAvailableTimeSlots
    (page {[ "2025-06-10" := open_day ["10:00"; "09:00"] ]} [])
    "2025-06-10" = ["10:00"; "09:00"]
  /\ ~ ascending
       (BookingSystem.getAvailableTimeSlots
          (page {[ "2025-06-10" := open_day ["10:00"; "09:00"] ]} [])
          "2025-06-10").
Proof.
  split; [vm_compute; reflexivity|].
  intros H.
  replace (BookingSystem.getAvailableTimeSlots _ _)
    with ["10:00"; "09:00"] in H by (vm_compute; reflexivity).
  apply Sorted_inv in H as [_ H].
  inversion H as [|? ? Hle]; subst. vm_compute in Hle. discriminate.
Qed.

(** C8, amended: the resolver never sorts; it keeps the stored order (its
    result is a sublist of the stored slots), so the result is ascending
    whenever the stored slots are. *)
Theorem getAvailableTimeSlots_keeps_order (this : BookingSystem.t) (d : string) :
  sublist (BookingSystem.getAvailableTimeSlots this d) (stored_slots this d)
  /\ (ascending (stored_slots this d) ->
      ascending (BookingSystem.getAvailableTimeSlots this d)).
Proof.
  unfold BookingSystem.getAvailableTimeSlots, stored_slots.
  destruct (BookingSystem.availability this !! d) as [day|]; [|split; done].
  case_bool_decide.
  - split; [apply sublist_nil_l | intros _; constructor].
  - split; [apply sublist_filter_bool | apply ascending_filter].
Qed.

Lemma getAvailableTimeSlots_keeps_order_witness :
  ascending
    (BookingSystem.getAvailableTimeSlots
       (page {[ "2025-06-10" := open_day ["09:00"; "09:45"; "10:30"] ]}
             [appointment_at 1 "2025-06-10" "09:45" "accepted"])
       "2025-06-10").
Proof.
  apply (proj2 (getAvailableTimeSlots_keeps_order
                  (page {[ "2025-06-10" := open_day ["09:00"; "09:45"; "10:30"] ]}
                        [appointment_at 1 "2025-06-10" "09:45" "accepted"])
                  "2025-06-10")).
  vm_compute. repeat constructor.
Defined.

End SlotOrder.

(** Case analysis on a lookup in a map written with inserts. *)
Ltac map_cases H :=
  repeat (apply lookup_insert_Some in H as [[<- <-]|[? H]]);
  try (rewrite lookup_empty in H; discriminate H).

(** ** The booking handler *)

Section Booking.

Implicit Types (drv : Supabase.Driver) (db : Supabase.DB)
  (body : Server.Body.t) (now d t : string).

Lemma truthy_str_true (s : string) : Js.truthy_str s = true <-> s <> "".
Proof.
  unfold Js.truthy_str. rewrite negb_true_iff.
  split; [intros H ->; by rewrite String.eqb_refl in H|].
  intros H. by apply String.eqb_neq.
Qed.

Lemma occupies_true (st : string) :
  occupies st = true <-> st = "pending" \/ st = "accepted".
Proof. unfold occupies. by rewrite orb_true_iff, !String.eqb_eq. Qed.

Lemma booked_at_true d t (r : Supabase.Appointments.row) :
  Supabase.booked_at d t r = true
  <-> Supabase.Appointments.date r = d /\ Supabase.Appointments.time r = t
      /\ (Supabase.Appointments.status r = "pending"
          \/ Supabase.Appointments.status r = "accepted").
Proof.
  unfold Supabase.booked_at.
  rewrite !andb_true_iff, occupies_true, !String.eqb_eq. tauto.
Qed.

(** The ids the booking check selects are non-empty exactly when the slot is
    taken. *)
Lemma select_bookings_taken drv db d t :
  Supabase.appointments_select_error drv = None ->
  exists ids, Supabase.select_bookings drv db d t = Supabase.ok ids
    /\ ((0 <? Z.of_nat (length ids)) = true <-> slot_taken db d t).
Proof.
  intros E. unfold Supabase.select_bookings. rewrite E.
  eexists; split; [reflexivity|].
  rewrite length_map, Z.ltb_lt.
  set (l := List.filter _ _).
  split.
  - intros Hlen. destruct l as [|[i r] l'] eqn:El; [simpl in Hlen; lia|].
    assert (Hin : In (i, r) l) by (rewrite El; by left).
    apply List.filter_In in Hin as [Hin Hb]. cbn [snd] in Hb.
    apply list_elem_of_In, elem_of_map_to_list in Hin.
    exists i, r. split; [done|]. by apply booked_at_true.
  - intros (i & r & Hl & H).
    assert (Hin : In (i, r) l).
    { apply List.filter_In. split.
      - by apply list_elem_of_In, elem_of_map_to_list.
      - by apply booked_at_true. }
    destruct l; [done|]. simpl. lia.
Qed.

Lemma slot_released_not_taken db d t : slot_released db d t -> ~ slot_taken db d t.
Proof.
  intros Hr (i & r & Hl & Hd & Ht & Hs).
  destruct (Hr i r Hl Hd Ht) as [E|E]; rewrite E in Hs;
    destruct Hs; discriminate.
Qed.

Lemma customer_given_inv body :
  customer_given body ->
  exists c, Server.Body.customer body = Some c
    /\ Server.customer_missing (Some c) = false.
Proof.
  intros (c & Hc & Hn & He & Hp). exists c. split; [done|].
  unfold Server.customer_missing.
  apply truthy_str_true in Hn, He, Hp. by rewrite Hn, He, Hp.
Qed.

Lemma customer_not_given body :
  ~ customer_given body ->
  match Server.Body.customer body with
  | None => True
  | Some c => Server.customer_missing (Some c) = true
  end.
Proof.
  intros H. destruct (Server.Body.customer body) as [c|] eqn:E; [|done].
  destruct (Server.customer_missing (Some c)) eqn:M; [done|].
  exfalso. apply H. exists c. split; [done|].
  unfold Server.customer_missing in M.
  rewrite !orb_false_iff, !negb_false_iff, !truthy_str_true in M. tauto.
Qed.

Lemma fields_given_inv body :
  fields_given body ->
  negb (Js.truthy_str (Server.Body.service body))
  || negb (Js.truthy_str (Server.Body.date body))
  || negb (Js.truthy_str (Server.Body.time body)) = false.
Proof.
  intros (Hs & Hd & Ht). apply truthy_str_true in Hs, Hd, Ht.
  by rewrite Hs, Hd, Ht.
Qed.

Lemma fields_not_given body :
  ~ fields_given body ->
  negb (Js.truthy_str (Server.Body.service body))
  || negb (Js.truthy_str (Server.Body.date body))
  || negb (Js.truthy_str (Server.Body.time body)) = true.
Proof.
  intros H.
  destruct (_ || _) eqn:E; [done|]. exfalso. apply H.
  rewrite !orb_false_iff, !negb_false_iff, !truthy_str_true in E.
  unfold fields_given. tauto.
Qed.

(** First check: the customer. *)
Lemma post_customer_missing drv now db body :
  ~ customer_given body ->
  Server.post_appointments drv now db body
  = (Server.respond 400
       (Server.ErrorJson "Customer information is required" None), db).
Proof.
  intros H. apply customer_not_given in H.
  unfold Server.post_appointments.
  destruct (Server.Body.customer body); [|done]. by rewrite H.
Qed.

(** Second check: service, date and time. *)
Lemma post_fields_missing drv now db body :
  customer_given body -> ~ fields_given body ->
  Server.post_appointments drv now db body
  = (Server.respond 400
       (Server.ErrorJson "Service, date, and time are required" None), db).
Proof.
  intros (c & Hc & Hm)%customer_given_inv Hf%fields_not_given.
  unfold Server.post_appointments. by rewrite Hc, Hm, Hf.
Qed.

(** Third check: the date must have a row that is not closed. *)
Lemma post_date_unavailable drv now db body :
  customer_given body -> fields_given body ->
  date_unavailable db (Server.Body.date body) ->
  Server.code (Server.post_appointments drv now db body).1 = 400
  /\ reject_reason (Server.post_appointments drv now db body).1
     = Some DateUnavailable
  /\ (Server.post_appointments drv now db body).2 = db.
Proof.
  intros (c & Hc & Hm)%customer_given_inv Hf%fields_given_inv Hd.
  unfold Server.post_appointments. rewrite Hc, Hm, Hf.
  unfold Supabase.select_availability, date_unavailable in *.
  destruct (Supabase.availability_select_error drv) as [msg|]; [done|].
  destruct (Supabase.availability db !! Server.Body.date body) as [row|].
  - cbn. by rewrite bool_decide_eq_true_2.
  - unfold Supabase.single.
    destruct (Supabase.single_no_row drv) as [msg|]; done.
Qed.

Lemma post_date_query_failed drv now db body msg :
  customer_given body -> fields_given body ->
  Supabase.availability_select_error drv = Some msg ->
  Server.post_appointments drv now db body
  = (Server.respond 400
       (Server.ErrorJson
          ("This date is not available for booking: " +:+ msg) None), db).
Proof.
  intros (c & Hc & Hm)%customer_given_inv Hf%fields_given_inv He.
  unfold Server.post_appointments. rewrite Hc, Hm, Hf.
  unfold Supabase.select_availability. by rewrite He.
Qed.

(** Fourth check: the slot must be free. *)
Lemma post_slot_taken drv now db body :
  customer_given body -> fields_given body ->
  date_open db (Server.Body.date body) ->
  Supabase.availability_select_error drv = None ->
  Supabase.appointments_select_error drv = None ->
  slot_taken db (Server.Body.date body) (Server.Body.time body) ->
  Server.post_appointments drv now db body
  = (Server.respond 400
       (Server.ErrorJson "This time slot is already booked" None), db).
Proof.
  intros (c & Hc & Hm)%customer_given_inv Hf%fields_given_inv
    (row & Hrow & Hopen) Ea Es Ht.
  unfold Server.post_appointments. rewrite Hc, Hm, Hf.
  unfold Supabase.select_availability. rewrite Ea, Hrow. cbn.
  rewrite bool_decide_eq_false_2 by done.
  destruct (select_bookings_taken drv db (Server.Body.date body)
              (Server.Body.time body) Es) as (ids & -> & Hids).
  cbn. by rewrite (proj2 Hids Ht).
Qed.

(** All checks passed: the appointment is inserted and returned. *)
Lemma post_created drv now db body c :
  Server.Body.customer body = Some c ->
  customer_given body -> fields_given body ->
  date_open db (Server.Body.date body) ->
  queries_succeed drv ->
  ~ slot_taken db (Server.Body.date body) (Server.Body.time body) ->
  Server.post_appointments drv now db body
  = (Server.respond 201
       (Server.AppointmentJson
          (Server.to_frontend
             (fresh (dom (Supabase.appointments db)), row_of now c body))),
     {| Supabase.availability := Supabase.availability db;
        Supabase.appointments :=
          <[fresh (dom (Supabase.appointments db)) := row_of now c body]>
            (Supabase.appointments db) |}).
Proof.
  intros Hc0 (c' & Hc & Hm)%customer_given_inv Hf%fields_given_inv
    (row & Hrow & Hopen) (Ea & Es & Ei) Ht.
  assert (c' = c) as -> by congruence.
  unfold Server.post_appointments. rewrite Hc, Hm, Hf.
  unfold Supabase.select_availability. rewrite Ea, Hrow. cbn.
  rewrite bool_decide_eq_false_2 by done.
  destruct (select_bookings_taken drv db (Server.Body.date body)
              (Server.Body.time body) Es) as (ids & -> & Hids).
  cbn.
  destruct (0 <? Z.of_nat (length ids)) eqn:El.
  { exfalso. apply Ht. by apply Hids. }
  unfold Supabase.insert_appointment. rewrite Ei. reflexivity.
Qed.

(** Every run of the handler either leaves the table alone and answers with
    a code other than 201, or passed every check, found the slot free and
    inserted the pending row it returns with 201. *)
Lemma post_appointments_inv drv now db body :
  ((Server.post_appointments drv now db body).2 = db
   /\ Server.code (Server.post_appointments drv now db body).1 <> 201)
  \/ (exists c, Server.Body.customer body = Some c
       /\ customer_given body /\ fields_given body
       /\ ~ slot_taken db (Server.Body.date body) (Server.Body.time body)
       /\ Server.post_appointments drv now db body
          = (Server.respond 201
               (Server.AppointmentJson
                  (Server.to_frontend
                     (fresh (dom (Supabase.appointments db)),
                      row_of now c body))),
             {| Supabase.availability := Supabase.availability db;
                Supabase.appointments :=
                  <[fresh (dom (Supabase.appointments db))
                    := row_of now c body]> (Supabase.appointments db) |})).
Proof.
  unfold Server.post_appointments.
  destruct (Server.Body.customer body) as [c|] eqn:Hc; [|by left].
  destruct (Server.customer_missing (Some c)) eqn:Hm; [by left|].
  destruct (_ || _) eqn:Hf; [by left|].
  destruct (Supabase.error (Supabase.select_availability _ _ _));
    [by left|].
  destruct (Supabase.data (Supabase.select_availability _ _ _));
    [|by left].
  case_bool_decide; [by left|].
  unfold Supabase.select_bookings.
  destruct (Supabase.appointments_select_error drv) as [msg|] eqn:Es;
    [by left|].
  destruct (select_bookings_taken drv db (Server.Body.date body)
              (Server.Body.time body) Es) as (ids & Hsel & Hids).
  unfold Supabase.select_bookings in Hsel. rewrite Es in Hsel.
  injection Hsel as Hsel. cbn [Supabase.ok Supabase.error Supabase.data].
  rewrite Hsel.
  destruct (0 <? Z.of_nat (length ids)) eqn:El; [by left|].
  unfold Supabase.insert_appointment.
  destruct (Supabase.appointments_insert_error drv) as [msg|]; [by left|].
  right. exists c. split; [done|]. split; [|split; [|split]].
  - exists c. split; [done|].
    unfold Server.customer_missing in Hm.
    rewrite !orb_false_iff, !negb_false_iff, !truthy_str_true in Hm. tauto.
  - rewrite !orb_false_iff, !negb_false_iff, !truthy_str_true in Hf.
    unfold fields_given. tauto.
  - intros Ht. apply Hids in Ht. congruence.
  - reflexivity.
Qed.

Lemma post_rejects_taken drv now db body :
  slot_taken db (Server.Body.date body) (Server.Body.time body) ->
  Server.code (Server.post_appointments drv now db body).1 <> 201
  /\ (Server.post_appointments drv now db body).2 = db.
Proof.
  intros Ht.
  destruct (post_appointments_inv drv now db body)
    as [[Hdb Hcode]|(c & _ & _ & _ & Hfree & _)]; [done|].
  by destruct Hfree.
Qed.

Lemma post_keeps_no_double_booking drv now db body :
  no_double_booking db ->
  no_double_booking (Server.post_appointments drv now db body).2.
Proof.
  intros Hinv.
  destruct (post_appointments_inv drv now db body)
    as [[-> _]|(c & _ & _ & _ & Hfree & ->)]; [done|].
  cbn [snd]. set (n := fresh (dom (Supabase.appointments db))).
  assert (Hn : Supabase.appointments db !! n = None).
  { apply not_elem_of_dom. apply is_fresh. }
  intros i j ri rj Hi Hj Hd Ht Hoi Hoj. cbn in Hi, Hj.
  destruct (decide (i = n)) as [->|Hin], (decide (j = n)) as [->|Hjn];
    [done| | |].
  - rewrite lookup_insert_eq in Hi. rewrite lookup_insert_ne in Hj by done.
    injection Hi as <-. cbn in Hd, Ht.
    exfalso. apply Hfree. exists j, rj.
    split; [done|]. split; [done|]. split; [done|]. by apply occupies_true.
  - rewrite lookup_insert_eq in Hj. rewrite lookup_insert_ne in Hi by done.
    injection Hj as <-. cbn in Hd, Ht.
    exfalso. apply Hfree. exists i, ri.
    split; [done|]. split; [done|]. split; [done|]. by apply occupies_true.
  - rewrite lookup_insert_ne in Hi, Hj by done. by eapply Hinv.
Qed.

Lemma booked_in_turn_keeps_no_double_booking drv db
    (requests : list (string * Server.Body.t)) :
  no_double_booking db -> no_double_booking (booked_in_turn drv db requests).
Proof.
  unfold booked_in_turn. revert db.
  induction requests as [|r requests IH]; intros db H; [exact H|].
  cbn [foldl]. apply IH. by apply post_keeps_no_double_booking.
Qed.

(** C1, as amended: the double-booking guard of the booking handler.  A
    request for a date and time that a pending or accepted appointment holds
    is never stored, and once the customer, field and date checks have passed
    it is answered with the slot-taken rejection; a request for a date and
    time whose stored appointments are all declined or cancelled is stored as
    pending and answered with 201; and booking requests, one or any number of
    them handled one after another, keep the invariant that no two pending or
    accepted appointments share a date and time. *)
Theorem post_appointments_guards_slot drv now db body :
  (slot_taken db (Server.Body.date body) (Server.Body.time body) ->
   Server.code (Server.post_appointments drv now db body).1 <> 201
   /\ (Server.post_appointments drv now db body).2 = db)
  /\ (slot_taken db (Server.Body.date body) (Server.Body.time body) ->
      customer_given body -> fields_given body ->
      date_open db (Server.Body.date body) ->
      queries_succeed drv ->
      reject_reason (Server.post_appointments drv now db body).1
      = Some SlotTaken
      /\ Server.code (Server.post_appointments drv now db body).1 = 400)
  /\ (slot_released db (Server.Body.date body) (Server.Body.time body) ->
      customer_given body -> fields_given body ->
      date_open db (Server.Body.date body) ->
      queries_succeed drv ->
      exists a,
        (Server.post_appointments drv now db body).1
        = Server.respond 201 (Server.AppointmentJson a)
        /\ date a = Server.Body.date body
        /\ time a = Server.Body.time body
        /\ status a = "pending"
        /\ Supabase.appointments db !! id a = None
        /\ exists r,
             Supabase.appointments
               (Server.post_appointments drv now db body).2 !! id a = Some r
             /\ Supabase.Appointments.status r = "pending")
  /\ (no_double_booking db ->
      no_double_booking (Server.post_appointments drv now db body).2)
  /\ (no_double_booking db ->
      forall requests, no_double_booking (booked_in_turn drv db requests)).
Proof.
  split; [apply post_rejects_taken|].
  split; [|split; [|split; [apply post_keeps_no_double_booking|]]].
  3:{ intros H requests. by apply booked_in_turn_keeps_no_double_booking. }
  - intros Ht Hc Hf Hd (Ea & Es & _).
    by rewrite (post_slot_taken drv now db body Hc Hf Hd Ea Es Ht).
  - intros Hr Hc Hf Hd Hq.
    destruct Hc as (c & Hc0 & Hc).
    rewrite (post_created drv now db body c Hc0
               (ex_intro _ c (conj Hc0 Hc)) Hf Hd Hq
               (slot_released_not_taken _ _ _ Hr)).
    eexists. split; [reflexivity|]. cbn.
    split; [done|]. split; [done|]. split; [done|].
    split; [apply not_elem_of_dom, is_fresh|].
    eexists. by rewrite lookup_insert_eq.
Qed.

Lemma db0_taken : slot_taken db0 "2025-06-10" "09:00".
Proof.
  exists 1, (stored "2025-06-10" "09:00" "pending").
  split; [vm_compute; reflexivity|]. cbn. tauto.
Qed.

Lemma db0_released : slot_released db0 "2025-06-10" "09:45".
Proof.
  intros i r H Hd Ht. cbn in H. map_cases H; cbn in *; [discriminate|tauto].
Qed.

Lemma db0_no_double_booking : no_double_booking db0.
Proof.
  intros i j ri rj Hi Hj Hd Ht Hoi Hoj. cbn in Hi, Hj.
  map_cases Hi; map_cases Hj; cbn in *; congruence.
Qed.

Lemma db0_open : date_open db0 "2025-06-10".
Proof.
  exists (day_row ["09:00"; "09:45"] false).
  split; [vm_compute; reflexivity | discriminate].
Qed.

Lemma ada_given d t st : customer_given (request (Some ada) d t st).
Proof. exists ada. repeat split; discriminate. Qed.

Lemma request_fields_given c st :
  fields_given (request c "2025-06-10" "09:00" st)
  /\ fields_given (request c "2025-06-10" "09:45" st)
  /\ fields_given (request c "2025-06-10" "13:00" st)
  /\ fields_given (request c "2025-06-11" "09:00" st).
Proof. repeat split; discriminate. Qed.

Lemma healthy_queries : queries_succeed healthy.
Proof. repeat split. Qed.

Lemma post_appointments_guards_slot_witness :
  (Server.code
     (Server.post_appointments healthy "2025-06-02T08:00:00.000Z" db0
        (request (Some ada) "2025-06-10" "09:00" None)).1 <> 201
   /\ reject_reason
        (Server.post_appointments healthy "2025-06-02T08:00:00.000Z" db0
           (request (Some ada) "2025-06-10" "09:00" None)).1
      = Some SlotTaken)
  /\ (exists a,
        (Server.post_appointments healthy "2025-06-02T08:00:00.000Z" db0
           (request (Some ada) "2025-06-10" "09:45" None)).1
        = Server.respond 201 (Server.AppointmentJson a)
        /\ status a = "pending")
  /\ no_double_booking
       (Server.post_appointments healthy "2025-06-02T08:00:00.000Z" db0
          (request (Some ada) "2025-06-10" "09:45" None)).2
  /\ no_double_booking
       (booked_in_turn healthy db0
          [("2025-06-02T08:00:00.000Z",
            request (Some ada) "2025-06-10" "09:45" None);
           ("2025-06-02T08:05:00.000Z",
            request (Some ada) "2025-06-10" "09:45" None)]).
Proof.
  pose proof (post_appointments_guards_slot healthy
                "2025-06-02T08:00:00.000Z" db0
                (request (Some ada) "2025-06-10" "09:00" None))
    as (H1 & H2 & _ & _ & _).
  pose proof (post_appointments_guards_slot healthy
                "2025-06-02T08:00:00.000Z" db0
                (request (Some ada) "2025-06-10" "09:45" None))
    as (_ & _ & H3 & H4 & H5).
  split; [split|split; [|split]].
  - apply (H1 db0_taken).
  - apply (H2 db0_taken (ada_given _ _ _)
             (proj1 (request_fields_given _ _)) db0_open healthy_queries).
  - destruct (H3 db0_released (ada_given _ _ _)
                (proj1 (proj2 (request_fields_given _ _))) db0_open
                healthy_queries) as (a & Ha & _ & _ & Hs & _).
    exists a. by split.
  - apply (H4 db0_no_double_booking).
  - apply (H5 db0_no_double_booking).
Defined.

(** C3, as the specification states it, fails: 13:00 is not among the slots of
    the open day 2025-06-10, and the request for it is stored and answered
    with 201. *)
Lemma post_appointments_books_unoffered_time :
  Supabase.availability db0 !! "2025-06-10"
  = Some (day_row ["09:00"; "09:45"] false)
  /\ ~ In "13:00" ["09:00"; "09:45"]
  /\ Server.code
       (Server.post_appointments healthy "2025-06-02T08:00:00.000Z" db0
          (request (Some ada) "2025-06-10" "13:00" None)).1 = 201
  /\ reject_reason
       (Server.post_appointments healthy "2025-06-02T08:00:00.000Z" db0
          (request (Some ada) "2025-06-10" "13:00" None)).1
     <> Some SlotNotOffered.
Proof.
  split; [vm_compute; reflexivity|].
  split; [intros [H|[H|[]]]; discriminate|].
  split; [vm_compute; reflexivity | vm_compute; discriminate].
Qed.

Lemma slot_taken_same db db' d t :
  Supabase.appointments db = Supabase.appointments db' ->
  slot_taken db d t -> slot_taken db' d t.
Proof. unfold slot_taken. by intros ->. Qed.

(** C3, amended: the handler never consults the day's time slots.  Its
    response is the same whatever slots the rows list, no response stands for
    SlotNotOffered, and a request for a time the open day does not list is
    stored as pending and answered with 201 as soon as the customer and the
    fields are given, the slot is free and the queries succeed. *)
Theorem post_appointments_ignores_offered_slots drv now db body :
  (forall db', same_but_slots db db' ->
     (Server.post_appointments drv now db' body).1
     = (Server.post_appointments drv now db body).1)
  /\ reject_reason (Server.post_appointments drv now db body).1
     <> Some SlotNotOffered
  /\ (forall row,
        Supabase.availability db !! Server.Body.date body = Some row ->
        Supabase.Availability.is_closed row <> Some true ->
        ~ In (Server.Body.time body)
             (default [] (Supabase.Availability.time_ranges row)) ->
        customer_given body -> fields_given body -> queries_succeed drv ->
        ~ slot_taken db (Server.Body.date body) (Server.Body.time body) ->
        exists a,
          (Server.post_appointments drv now db body).1
          = Server.respond 201 (Server.AppointmentJson a)
          /\ date a = Server.Body.date body
          /\ time a = Server.Body.time body
          /\ status a = "pending").
Proof.
  split; [|split].
  - intros db' [Happ Hav].
    unfold Server.post_appointments.
    destruct (Server.Body.customer body) as [c|]; [|done].
    destruct (Server.customer_missing (Some c)); [done|].
    destruct (_ || _); [done|].
    unfold Supabase.select_availability.
    destruct (Supabase.availability_select_error drv); [done|].
    specialize (Hav (Server.Body.date body)).
    destruct (Supabase.availability db !! Server.Body.date body) as [r|],
      (Supabase.availability db' !! Server.Body.date body) as [r'|];
      cbn in Hav; try discriminate Hav;
      [|unfold Supabase.single; destruct (Supabase.single_no_row drv); done].
    injection Hav as Hav. cbn. rewrite Hav.
    case_bool_decide; [done|].
    unfold Supabase.select_bookings, Supabase.insert_appointment.
    rewrite Happ.
    destruct (Supabase.appointments_select_error drv); [done|]. cbn.
    destruct (0 <? _); [done|].
    destruct (Supabase.appointments_insert_error drv); done.
  - unfold reject_reason.
    destruct (Server.json _); try done.
    repeat case_match; done.
  - intros row Hrow Hopen _ Hc Hf Hq Hfree.
    destruct Hc as (c & Hc0 & Hc).
    rewrite (post_created drv now db body c Hc0
               (ex_intro _ c (conj Hc0 Hc)) Hf
               (ex_intro _ row (conj Hrow Hopen)) Hq Hfree).
    eexists. split; [reflexivity|]. by cbn.
Qed.

Lemma db0_free_1300 : ~ slot_taken db0 "2025-06-10" "13:00".
Proof.
  intros (i & r & H & Hd & Ht & Hs). cbn in H.
  map_cases H; cbn in *; discriminate.
Qed.

Lemma post_appointments_ignores_offered_slots_witness :
  exists a,
    (Server.post_appointments healthy "2025-06-02T08:00:00.000Z" db0
       (request (Some ada) "2025-06-10" "13:00" None)).1
    = Server.respond 201 (Server.AppointmentJson a)
    /\ time a = "13:00" /\ status a = "pending".
Proof.
  destruct (proj2 (proj2 (post_appointments_ignores_offered_slots healthy
              "2025-06-02T08:00:00.000Z" db0
              (request (Some ada) "2025-06-10" "13:00" None)))
              (day_row ["09:00"; "09:45"] false))
    as (a & Ha & _ & Ht & Hs).
  - vm_compute; reflexivity.
  - discriminate.
  - intros [H|[H|[]]]; discriminate.
  - apply ada_given.
  - apply request_fields_given.
  - apply healthy_queries.
  - apply db0_free_1300.
  - exists a. by repeat split.
Defined.

(** C4, as the specification states it, fails: 2025-06-11 has no row and the
    customer fields are empty, and the answer is the customer rejection, not
    the date rejection. *)
Lemma post_appointments_checks_customer_first :
  date_unavailable db0 "2025-06-11"
  /\ ~ customer_given (request (Some nobody) "2025-06-11" "09:00" None)
  /\ reject_reason
       (Server.post_appointments healthy "2025-06-02T08:00:00.000Z" db0
          (request (Some nobody) "2025-06-11" "09:00" None)).1
     = Some InvalidCustomer
  /\ reject_reason
       (Server.post_appointments healthy "2025-06-02T08:00:00.000Z" db0
          (request (Some nobody) "2025-06-11" "09:00" None)).1
     <> Some DateUnavailable.
Proof.
  split; [vm_compute; done|].
  split.
  { intros (c & Hc & Hn & _). cbn in Hc. injection Hc as <-. by apply Hn. }
  split; [vm_compute; reflexivity | vm_compute; discriminate].
Qed.

(** C4, amended: the handler checks, in this order and stopping at the first
    failure, (1) the customer fields, (2) that service, date and time are
    given, (3) that the date has a row that is not closed, (4) that the slot
    is not taken; it has no check that the time is offered.  A request with
    both an unavailable date and empty customer fields is answered with the
    customer rejection. *)
Theorem post_appointments_check_order drv now db body :
  (~ customer_given body ->
   reject_reason (Server.post_appointments drv now db body).1
   = Some InvalidCustomer
   /\ Server.code (Server.post_appointments drv now db body).1 = 400
   /\ (Server.post_appointments drv now db body).2 = db)
  /\ (customer_given body -> ~ fields_given body ->
      Server.post_appointments drv now db body
      = (Server.respond 400
           (Server.ErrorJson "Service, date, and time are required" None),
         db))
  /\ (customer_given body -> fields_given body ->
      date_unavailable db (Server.Body.date body) ->
      reject_reason (Server.post_appointments drv now db body).1
      = Some DateUnavailable
      /\ Server.code (Server.post_appointments drv now db body).1 = 400
      /\ (Server.post_appointments drv now db body).2 = db)
  /\ (customer_given body -> fields_given body ->
      date_open db (Server.Body.date body) ->
      queries_succeed drv ->
      slot_taken db (Server.Body.date body) (Server.Body.time body) ->
      reject_reason (Server.post_appointments drv now db body).1
      = Some SlotTaken
      /\ Server.code (Server.post_appointments drv now db body).1 = 400
      /\ (Server.post_appointments drv now db body).2 = db)
  /\ (customer_given body -> fields_given body ->
      date_open db (Server.Body.date body) ->
      queries_succeed drv ->
      ~ slot_taken db (Server.Body.date body) (Server.Body.time body) ->
      Server.code (Server.post_appointments drv now db body).1 = 201).
Proof.
  split; [|split; [|split; [|split]]].
  - intros Hc. by rewrite (post_customer_missing drv now db body Hc).
  - apply post_fields_missing.
  - intros Hc Hf Hd.
    destruct (post_date_unavailable drv now db body Hc Hf Hd) as (? & ? & ?).
    done.
  - intros Hc Hf Hd (Ea & Es & _) Ht.
    by rewrite (post_slot_taken drv now db body Hc Hf Hd Ea Es Ht).
  - intros Hc Hf Hd Hq Hfree.
    destruct Hc as (c & Hc0 & Hc).
    by rewrite (post_created drv now db body c Hc0
                  (ex_intro _ c (conj Hc0 Hc)) Hf Hd Hq Hfree).
Qed.

Lemma nobody_not_given d t st :
  ~ customer_given (request (Some nobody) d t st).
Proof. intros (c & Hc & Hn & _). cbn in Hc. injection Hc as <-. by apply Hn. Qed.

Lemma db0_unavailable : date_unavailable db0 "2025-06-11".
Proof. vm_compute. done. Qed.

Lemma post_appointments_check_order_witness :
  reject_reason
    (Server.post_appointments healthy "2025-06-02T08:00:00.000Z" db0
       (request (Some nobody) "2025-06-11" "09:00" None)).1
  = Some InvalidCustomer
  /\ reject_reason
       (Server.post_appointments healthy "2025-06-02T08:00:00.000Z" db0
          (request (Some ada) "2025-06-11" "09:00" None)).1
     = Some DateUnavailable
  /\ reject_reason
       (Server.post_appointments healthy "2025-06-02T08:00:00.000Z" db0
          (request (Some ada) "2025-06-10" "09:00" None)).1
     = Some SlotTaken
  /\ Server.code
       (Server.post_appointments healthy "2025-06-02T08:00:00.000Z" db0
          (request (Some ada) "2025-06-10" "13:00" None)).1 = 201.
Proof.
  split; [|split; [|split]].
  - apply (proj1 (post_appointments_check_order healthy
                    "2025-06-02T08:00:00.000Z" db0
                    (request (Some nobody) "2025-06-11" "09:00" None))).
    apply nobody_not_given.
  - apply (proj1 (proj2 (proj2 (post_appointments_check_order healthy
                    "2025-06-02T08:00:00.000Z" db0
                    (request (Some ada) "2025-06-11" "09:00" None))))).
    + apply ada_given.
    + apply request_fields_given.
    + apply db0_unavailable.
  - apply (proj1 (proj2 (proj2 (proj2 (post_appointments_check_order healthy
                    "2025-06-02T08:00:00.000Z" db0
                    (request (Some ada) "2025-06-10" "09:00" None)))))).
    + apply ada_given.
    + apply request_fields_given.
    + apply db0_open.
    + apply healthy_queries.
    + apply db0_taken.
  - apply (proj2 (proj2 (proj2 (proj2 (post_appointments_check_order healthy
                    "2025-06-02T08:00:00.000Z" db0
                    (request (Some ada) "2025-06-10" "13:00" None)))))).
    + apply ada_given.
    + apply request_fields_given.
    + apply db0_open.
    + apply healthy_queries.
    + apply db0_free_1300.
Defined.

(** C9: an appointment is stored only by a run that answers 201, and a 201
    answer carries the stored appointment with status pending whatever
    [status] the request body had: the body's [status] does not enter the
    handler's result at all. *)
Theorem post_appointments_creates_pending drv now db body :
  ((Server.post_appointments drv now db body).2 <> db ->
   Server.code (Server.post_appointments drv now db body).1 = 201)
  /\ (Server.code (Server.post_appointments drv now db body).1 = 201 ->
      exists a r,
        Server.json (Server.post_appointments drv now db body).1
        = Server.AppointmentJson a
        /\ status a = "pending"
        /\ Supabase.appointments db !! id a = None
        /\ Supabase.appointments
             (Server.post_appointments drv now db body).2 !! id a = Some r
        /\ Supabase.Appointments.status r = "pending"
        /\ a = Server.to_frontend (id a, r))
  /\ (forall st,
        Server.post_appointments drv now db (with_status body st)
        = Server.post_appointments drv now db body).
Proof.
  split; [|split].
  - intros Hne.
    destruct (post_appointments_inv drv now db body)
      as [[Hdb _]|(c & _ & _ & _ & _ & ->)]; [done|reflexivity].
  - intros H201.
    destruct (post_appointments_inv drv now db body)
      as [[_ Hcode]|(c & _ & _ & _ & _ & ->)]; [done|].
    eexists _, _. cbn.
    split; [reflexivity|]. split; [done|].
    split; [apply not_elem_of_dom, is_fresh|].
    split; [apply lookup_insert_eq|]. done.
  - intros st. reflexivity.
Qed.

Lemma post_appointments_creates_pending_witness :
  exists a,
    Server.json
      (Server.post_appointments healthy "2025-06-02T08:00:00.000Z" db0
         (request (Some ada) "2025-06-10" "09:45" (Some "accepted"))).1
    = Server.AppointmentJson a
    /\ status a = "pending".
Proof.
  destruct (proj1 (proj2 (post_appointments_creates_pending healthy
              "2025-06-02T08:00:00.000Z" db0
              (request (Some ada) "2025-06-10" "09:45" (Some "accepted")))))
    as (a & r & Ha & Hs & _).
  - vm_compute. reflexivity.
  - exists a. by split.
Defined.

End Booking.

(** ** Status transitions *)

Section Transitions.

Implicit Types (drv : Supabase.Driver) (db : Supabase.DB) (now st : string).

(** C5, as the specification states it, fails: appointment 1 of [db0] is
    pending; it is cancelled, and the later update to accepted is answered
    with 200 and stored. *)
Lemma patch_cancelled_then_accepted :
  Supabase.Appointments.status
    <$> (Supabase.appointments db0 !! 1) = Some "pending"
  /\ Server.code
       (Server.patch_appointment healthy "2025-06-02T08:00:00.000Z" db0 1
          (status_patch "cancelled")).1 = 200
  /\ Supabase.Appointments.status
       <$> (Supabase.appointments
              (Server.patch_appointment healthy "2025-06-02T08:00:00.000Z"
                 db0 1 (status_patch "cancelled")).2 !! 1)
     = Some "cancelled"
  /\ Server.code
       (Server.patch_appointment healthy "2025-06-02T09:00:00.000Z"
          (Server.patch_appointment healthy "2025-06-02T08:00:00.000Z"
             db0 1 (status_patch "cancelled")).2
          1 (status_patch "accepted")).1 = 200
  /\ Supabase.Appointments.status
       <$> (Supabase.appointments
              (Server.patch_appointment healthy "2025-06-02T09:00:00.000Z"
                 (Server.patch_appointment healthy "2025-06-02T08:00:00.000Z"
                    db0 1 (status_patch "cancelled")).2
                 1 (status_patch "accepted")).2 !! 1)
     = Some "accepted".
Proof. repeat split; vm_compute; reflexivity. Qed.

(** C5, amended: the handler has no transition rule.  When the update query
    reports no error, setting any status on a stored appointment is answered
    with 200 and the appointment with that status, and the table holds it,
    whatever the status was before; so pending, then cancelled, then accepted
    ends accepted. *)
Theorem patch_appointment_sets_any_status drv now db i r st :
  Supabase.appointments_update_error drv = None ->
  Supabase.appointments db !! i = Some r ->
  exists a r',
    (Server.patch_appointment drv now db i (status_patch st)).1
    = Server.respond 200 (Server.AppointmentJson a)
    /\ id a = i /\ status a = st
    /\ date a = Supabase.Appointments.date r
    /\ time a = Supabase.Appointments.time r
    /\ Supabase.appointments
         (Server.patch_appointment drv now db i (status_patch st)).2 !! i
       = Some r'
    /\ Supabase.Appointments.status r' = st.
Proof.
  intros Eu Hr.
  unfold Server.patch_appointment, Supabase.update_appointment.
  rewrite Eu, Hr. cbn.
  eexists _, _. split; [reflexivity|]. cbn.
  repeat split.
  - rewrite lookup_insert_eq. reflexivity.
  - reflexivity.
Qed.

Lemma patch_appointment_sets_any_status_witness :
  exists a,
    (Server.patch_appointment healthy "2025-06-02T09:00:00.000Z" db0 2
       (status_patch "accepted")).1
    = Server.respond 200 (Server.AppointmentJson a)
    /\ status a = "accepted".
Proof.
  destruct (patch_appointment_sets_any_status healthy
              "2025-06-02T09:00:00.000Z" db0 2
              (stored "2025-06-10" "09:45" "declined") "accepted")
    as (a & r' & Ha & _ & Hs & _).
  - reflexivity.
  - vm_compute. reflexivity.
  - exists a. by split.
Defined.

(** C1, as the specification states it, fails: the slot guard lives in the
    booking handler only.  An update does not look at the other appointments
    of the date and time, so re-accepting the declined appointment 2 next to
    the pending appointment 1 is answered with 200 and leaves two occupants
    of 2025-06-10 09:00 in a table that had no double booking. *)
Lemma patch_appointment_ignores_slot_guard :
  no_double_booking db_shared_slot
  /\ Server.code
       (Server.patch_appointment healthy "2025-06-02T09:00:00.000Z"
          db_shared_slot 2 (status_patch "accepted")).1 = 200
  /\ ~ no_double_booking
        (Server.patch_appointment healthy "2025-06-02T09:00:00.000Z"
           db_shared_slot 2 (status_patch "accepted")).2.
Proof.
  split; [|split; [vm_compute; reflexivity|]].
  - intros i j ri rj Hi Hj Hd Ht Hoi Hoj. cbn in Hi, Hj.
    map_cases Hi; map_cases Hj; cbn in *; congruence.
  - intros H.
    assert (E : (1 : Z) = 2); [|discriminate E].
    eapply H; [vm_compute; reflexivity | vm_compute; reflexivity | ..];
      reflexivity.
Qed.

End Transitions.

(** ** Past appointments in the admin panel *)

Section PastAppointments.

Implicit Types (now : Z) (this : AdminPanel.t) (apt : Appointment).

Lemma tomorrow_midnight now :
  clock_in_range now ->
  Js.setHours0 (Js.setDate_next (Some now))
  = Some ((now / Js.msPerDay + 1) * Js.msPerDay).
Proof.
  unfold clock_in_range, Js.msPerDay. intros Hr.
  unfold Js.setDate_next, Js.setHours0, Js.TimeClip, Js.MakeDate, Js.MakeTime,
    Js.msPerDay.
  rewrite (proj2 (Z.leb_le _ _)) by lia.
  replace ((now + 86400000) / 86400000) with (now / 86400000 + 1)
    by (rewrite <- (Z.div_add now 1 86400000) by lia; f_equal; lia).
  pose proof (Z.mul_div_le now 86400000 ltac:(lia)).
  pose proof (Z.mod_pos_bound now 86400000 ltac:(lia)).
  pose proof (Z.div_mod now 86400000 ltac:(lia)).
  rewrite (proj2 (Z.leb_le _ _)) by lia.
  f_equal. lia.
Qed.

Lemma isPastAppointment_iff now apt :
  clock_in_range now ->
  AdminPanel.isPastAppointment now apt = true
  <-> exists t, AdminPanel.appointmentDate apt = Some t
        /\ t < (now / Js.msPerDay + 1) * Js.msPerDay.
Proof.
  intros Hr. unfold AdminPanel.isPastAppointment.
  rewrite (tomorrow_midnight now Hr). unfold Js.date_lt.
  destruct (AdminPanel.appointmentDate apt) as [t|].
  - rewrite Z.ltb_lt. split; [intros H; by exists t|].
    intros (t' & [= <-] & H). done.
  - split; [done|]. by intros (t' & ? & _).
Qed.

Lemma same_day_before_tomorrow now t :
  t / Js.msPerDay <= now / Js.msPerDay ->
  t < (now / Js.msPerDay + 1) * Js.msPerDay.
Proof.
  unfold Js.msPerDay. intros H.
  pose proof (Z.mod_pos_bound t 86400000 ltac:(lia)).
  pose proof (Z.div_mod t 86400000 ltac:(lia)). lia.
Qed.

Lemma before_tomorrow_same_day now t :
  t < (now / Js.msPerDay + 1) * Js.msPerDay ->
  t / Js.msPerDay <= now / Js.msPerDay.
Proof.
  unfold Js.msPerDay. intros H.
  apply Z.lt_succ_r. apply Z.div_lt_upper_bound; lia.
Qed.




End PastAppointments.

(** ** Removing a time slot *)

Section RemoveSlot.

Implicit Types (this : AdminPanel.t) (d t : string).

(** What [removeTimeSlot] leaves in the store: no entry when no slot
    remains, and otherwise an entry holding the remaining slots. *)
Lemma removeTimeSlot_availability this d t :
  AdminPanel.availability (AdminPanel.removeTimeSlot this d t)
  = match List.filter (fun slot => negb (String.eqb slot t))
            (default []
               (timeSlots
                  (default {| available := Some true; timeSlots := Some [];
                              closed := None |}
                           (AdminPanel.availability this !! d)))) with
    | [] => delete d (AdminPanel.availability this)
    | s :: rest =>
        <[d := {| available := Some true; timeSlots := Some (s :: rest);
                  closed := None |}]> (AdminPanel.availability this)
    end.
Proof.
  unfold AdminPanel.removeTimeSlot.
  destruct (List.filter _ _) as [|s rest]; cbn.
  - by case_bool_decide.
  - reflexivity.
Qed.

(** The part of C6 the code does: emptying a date that is not closed deletes
    its entry, and the other dates are untouched. *)
Lemma removeTimeSlot_deletes_emptied_day this d t day :
  AdminPanel.availability this !! d = Some day ->
  closed day <> Some true ->
  List.filter (fun slot => negb (String.eqb slot t))
    (default [] (timeSlots day)) = [] ->
  AdminPanel.availability (AdminPanel.removeTimeSlot this d t) !! d = None
  /\ forall d', d' <> d ->
       AdminPanel.availability (AdminPanel.removeTimeSlot this d t) !! d'
       = AdminPanel.availability this !! d'.
Proof.
  intros Hd _ He. rewrite removeTimeSlot_availability, Hd. cbn. rewrite He.
  split; [apply lookup_delete_eq|].
  intros d' Hne. by apply lookup_delete_ne.
Qed.

(** C6 at the failing input: the closed date 2025-06-10 holds the single slot
    09:00; removing it deletes the entry instead of keeping it closed and
    empty. *)
Theorem removeTimeSlot_deletes_closed_day :
  AdminPanel.availability
    (panel [] (<["2025-06-10" := closed_day ["09:00"]]> ∅)) !! "2025-06-10"
  = Some (closed_day ["09:00"])
  /\ AdminPanel.availability
       (AdminPanel.removeTimeSlot
          (panel [] (<["2025-06-10" := closed_day ["09:00"]]> ∅))
          "2025-06-10" "09:00") !! "2025-06-10" = None.
Proof. split; vm_compute; reflexivity. Qed.

(** The same slip on a closed date that keeps a slot: the entry is rewritten
    without its [closed] flag. *)
Lemma removeTimeSlot_reopens_closed_day :
  AdminPanel.availability
    (AdminPanel.removeTimeSlot
       (panel [] (<["2025-06-10" := closed_day ["09:00"; "09:45"]]> ∅))
       "2025-06-10" "09:00") !! "2025-06-10"
  = Some {| available := Some true; timeSlots := Some ["09:45"];
            closed := None |}.
Proof. vm_compute; reflexivity. Qed.

(** The sibling path [saveDayAvailability] does keep a closed date that has
    no slots (here with the server out of reach, so that the panel keeps what
    it sent). *)
Lemma saveDayAvailability_keeps_closed_day {S : Type} this d day (srv : S) :
  AdminPanel.isSavingAvailability this = false ->
  AdminPanel.availability this !! d = Some day ->
  closed day = Some true ->
  AdminPanel.availability
    (AdminPanel.saveDayAvailability unreachable this d srv).1.2
  = AdminPanel.availability this.
Proof.
  intros Hs Hd Hc.
  unfold AdminPanel.saveDayAvailability. rewrite Hs, Hd.
  rewrite bool_decide_eq_true_2 by done.
  unfold AdminPanel.saveAvailability. rewrite Hs.
  destruct (AdminPanel.useAPI this); reflexivity.
Qed.

End RemoveSlot.

(** ** Saving availability and copying slots *)

Section SaveAvailability.

Implicit Types (drv : Supabase.Driver) (db : Supabase.DB) (now : string)
  (a : gmap string DayInfo) (d : string).

Lemma day_to_frontend_row now (day : DayInfo) :
  Server.day_to_frontend (row_of_day now day) = sent_back day.
Proof.
  unfold Server.day_to_frontend, row_of_day, sent_back. cbn.
  f_equal. f_equal. f_equal.
  destruct (bool_decide (closed day = Some true)); by rewrite ?bool_decide_eq_true_2, ?bool_decide_eq_false_2 by done.
Qed.



Lemma sent_back_open_day (slots : list string) :
  sent_back (open_day slots) = open_day slots.
Proof. reflexivity. Qed.

(** One iteration of the loop, by whether the server stores the date. *)
Lemma save_date_accepted drv now (acc : Server.SaveLoop) (e : string * DayInfo) :
  accepted drv e.1 = true ->
  Server.save_date drv now acc e
  = {| Server.results :=
         Server.results acc ++ [Some (e.1, row_of_day now e.2)];
       Server.errors := Server.errors acc;
       Server.store :=
         {| Supabase.availability :=
              <[e.1 := row_of_day now e.2]>
                (Supabase.availability (Server.store acc));
            Supabase.appointments :=
              Supabase.appointments (Server.store acc) |} |}.
Proof.
  unfold accepted. intros [Hf Hu%bool_decide_eq_true]%andb_true_iff.
  unfold Server.save_date, Supabase.upsert_availability.
  rewrite Hf, Hu. reflexivity.
Qed.

Lemma save_date_refused drv now (acc : Server.SaveLoop) (e : string * DayInfo) :
  accepted drv e.1 = false ->
  exists err,
    Server.save_date drv now acc e
    = {| Server.results := Server.results acc;
         Server.errors := Server.errors acc ++ [err];
         Server.store := Server.store acc |}.
Proof.
  unfold accepted. intros H.
  unfold Server.save_date, Supabase.upsert_availability.
  destruct (Server.is_date_format e.1); cbn in *; [|by eexists].
  apply bool_decide_eq_false in H.
  destruct (Supabase.availability_upsert_error drv e.1); [|done].
  by eexists.
Qed.

(** The loop over a list of entries. *)
Lemma save_loop drv now (l : list (string * DayInfo)) (acc : Server.SaveLoop) :
  let loop := foldl (Server.save_date drv now) acc l in
  Server.results loop
  = (Server.results acc
     ++ map (fun e => Some (e.1, row_of_day now e.2))
          (List.filter (fun e => accepted drv e.1) l))%list
  /\ length (Server.errors loop)
     = (length (Server.errors acc)
        + length (List.filter (fun e => negb (accepted drv e.1)) l))%nat
  /\ Supabase.availability (Server.store loop)
     = foldl (fun m e => <[e.1 := row_of_day now e.2]> m)
         (Supabase.availability (Server.store acc))
         (List.filter (fun e => accepted drv e.1) l)
  /\ Supabase.appointments (Server.store loop)
     = Supabase.appointments (Server.store acc).
Proof.
  revert acc. induction l as [|e l IH]; intros acc.
  - cbn. rewrite app_nil_r. repeat split; lia.
  - cbn [foldl List.filter].
    destruct (IH (Server.save_date drv now acc e)) as (Hr & He & Hs & Ha).
    cbn zeta. rewrite Hr, He, Hs, Ha.
    destruct (accepted drv e.1) eqn:Eacc; cbn [negb].
    + rewrite (save_date_accepted drv now acc e Eacc). cbn.
      rewrite <- app_assoc. done.
    + destruct (save_date_refused drv now acc e Eacc) as (err & ->). cbn.
      rewrite length_app. cbn. repeat split; lia.
Qed.

Lemma availabilityResponse_stored
    (xs : list (string * Supabase.Availability.row)) (acc : gmap string DayInfo) :
  Server.availabilityResponse (map Some xs) acc
  = Some (foldl (fun m x => <[x.1 := Server.day_to_frontend x.2]> m) acc xs).
Proof.
  revert acc. induction xs as [|[d r] xs IH]; intros acc; [done|].
  cbn. apply IH.
Qed.

Lemma foldl_insert_lookup {A B} (g : A -> B) (l : list (string * A))
    (acc : gmap string B) d :
  NoDup (l.*1) ->
  (forall x, (d, x) ∈ l ->
     foldl (fun m e => <[e.1 := g e.2]> m) acc l !! d = Some (g x))
  /\ (d ∉ l.*1 ->
      foldl (fun m e => <[e.1 := g e.2]> m) acc l !! d = acc !! d).
Proof.
  revert acc. induction l as [|[k v] l IH]; intros acc Hnd.
  - split; [intros x Hx; by apply elem_of_nil in Hx | done].
  - cbn in Hnd. apply NoDup_cons in Hnd as [Hk Hnd].
    simpl. destruct (IH (<[k := g v]> acc) Hnd) as [IH1 IH2].
    split.
    + intros x [[= -> ->]|Hx]%elem_of_cons.
      * rewrite IH2 by done. apply lookup_insert_eq.
      * by apply IH1.
    + intros Hd. cbn in Hd. apply not_elem_of_cons in Hd as [Hne Hd].
      rewrite IH2 by done. by apply lookup_insert_ne.
Qed.

Lemma NoDup_fst_filter {A} (f : string * A -> bool) (l : list (string * A)) :
  NoDup (l.*1) -> NoDup ((List.filter f l).*1).
Proof.
  induction l as [|e l IH]; [done|].
  cbn. intros [Hk Hnd]%NoDup_cons.
  destruct (f e); [|by apply IH].
  cbn. apply NoDup_cons. split; [|by apply IH].
  intros Hin. apply Hk.
  apply list_elem_of_fmap in Hin as (y & -> & Hy).
  apply list_elem_of_fmap. exists y. split; [done|].
  apply list_elem_of_In. apply list_elem_of_In, List.filter_In in Hy. tauto.
Qed.

(** Folding inserts over the accepted entries of a map. *)
Lemma foldl_accepted_lookup {B} drv (g : DayInfo -> B) a (acc : gmap string B) d :
  foldl (fun m e => <[e.1 := g e.2]> m) acc
    (List.filter (fun e => accepted drv e.1) (map_to_list a)) !! d
  = match a !! d with
    | Some day => if accepted drv d then Some (g day) else acc !! d
    | None => acc !! d
    end.
Proof.
  set (l := List.filter _ _).
  assert (Hnd : NoDup (l.*1)).
  { apply NoDup_fst_filter, NoDup_fst_map_to_list. }
  destruct (foldl_insert_lookup g l acc d Hnd) as [H1 H2].
  assert (Hin : forall x, (d, x) ∈ l <-> a !! d = Some x /\ accepted drv d = true).
  { intros x. unfold l. rewrite list_elem_of_In, List.filter_In.
    rewrite <- list_elem_of_In, elem_of_map_to_list. done. }
  destruct (a !! d) as [day|] eqn:Ed.
  - destruct (accepted drv d) eqn:Eacc.
    + apply H1. by apply Hin.
    + apply H2. intros (y & Hy1 & Hy2)%list_elem_of_fmap.
      destruct y as [k v]. cbn in Hy1. subst k.
      apply Hin in Hy2 as [_ Hy2]. congruence.
  - apply H2. intros (y & Hy1 & Hy2)%list_elem_of_fmap.
    destruct y as [k v]. cbn in Hy1. subst k.
    apply Hin in Hy2 as [Hy2 _]. congruence.
Qed.

Lemma foldl_map_entries {A B C} (h : A -> B) (f : C -> B -> C) (l : list A) (acc : C) :
  foldl f acc (map h l) = foldl (fun m e => f m (h e)) acc l.
Proof. revert acc. induction l as [|e l IH]; intros acc; [done|]. cbn. apply IH. Qed.

Lemma filter_accepted_nonempty drv a :
  some_accepted drv a <->
  List.filter (fun e => accepted drv e.1) (map_to_list a) <> [].
Proof.
  split.
  - intros (d & day & Hd & Hacc) E.
    assert (Hin : In (d, day)
              (List.filter (fun e => accepted drv e.1) (map_to_list a))).
    { apply List.filter_In. split; [|done].
      by apply list_elem_of_In, elem_of_map_to_list. }
    rewrite E in Hin. by destruct Hin.
  - intros Hne.
    destruct (List.filter _ _) as [|[d day] l] eqn:E; [done|].
    assert (Hin : In (d, day)
              (List.filter (fun e => accepted drv e.1) (map_to_list a)))
      by (rewrite E; by left).
    apply List.filter_In in Hin as [Hin Hacc].
    apply list_elem_of_In, elem_of_map_to_list in Hin.
    by exists d, day.
Qed.

Lemma filter_refused_nonempty drv a :
  ~ some_accepted drv a -> a <> ∅ ->
  List.filter (fun e => negb (accepted drv e.1)) (map_to_list a) <> [].
Proof.
  intros Hno Hne E.
  destruct (map_to_list a) as [|[d day] l] eqn:El.
  - by apply map_to_list_empty_iff in El.
  - assert (Hd : a !! d = Some day).
    { apply elem_of_map_to_list. rewrite El. by left. }
    cbn in E. destruct (accepted drv d) eqn:Eacc; [|done].
    apply Hno. by exists d, day.
Qed.

(** What [POST /api/availability] stores and answers. *)
Lemma post_availability_served drv now db a :
  (forall d,
     Supabase.availability
       (Server.post_availability drv now db (Some a)).2 !! d
     = match a !! d with
       | Some day =>
           if accepted drv d then Some (row_of_day now day)
           else Supabase.availability db !! d
       | None => Supabase.availability db !! d
       end)
  /\ Supabase.appointments (Server.post_availability drv now db (Some a)).2
     = Supabase.appointments db
  /\ (some_accepted drv a ->
      response_ok (Server.post_availability drv now db (Some a)).1 = true
      /\ exists resp errs,
           Server.json (Server.post_availability drv now db (Some a)).1
           = Server.AvailabilityJson resp errs
           /\ forall d,
                resp !! d
                = match a !! d with
                  | Some day =>
                      if accepted drv d then Some (sent_back day) else None
                  | None => None
                  end)
  /\ (~ some_accepted drv a -> a <> ∅ ->
      response_ok (Server.post_availability drv now db (Some a)).1 = false).
Proof.
  unfold Server.post_availability.
  set (init := {| Server.results := []; Server.errors := [];
                  Server.store := db |}).
  destruct (save_loop drv now (map_to_list a) init) as (Hr & He & Hs & Ha).
  cbn zeta in Hr, He, Hs, Ha. cbn [init Server.results Server.errors
    Server.store app] in Hr, He, Hs, Ha.
  set (loop := foldl (Server.save_date drv now) init (map_to_list a)) in *.
  set (kept := List.filter (fun e => accepted drv e.1) (map_to_list a)) in *.
  set (refused :=
         List.filter (fun e => negb (accepted drv e.1)) (map_to_list a)) in *.
  assert (Hstore : forall d,
            Supabase.availability (Server.store loop) !! d
            = match a !! d with
              | Some day =>
                  if accepted drv d then Some (row_of_day now day)
                  else Supabase.availability db !! d
              | None => Supabase.availability db !! d
              end).
  { intros d. rewrite Hs. apply foldl_accepted_lookup. }
  assert (Hresp :
            Server.availabilityResponse (Server.results loop) ∅
            = Some (foldl (fun m e =>
                             <[e.1 := Server.day_to_frontend
                                        (row_of_day now e.2)]> m) ∅ kept)).
  { rewrite Hr.
    rewrite <- (map_map (fun e : string * DayInfo => (e.1, row_of_day now e.2))
                  Some kept).
    rewrite availabilityResponse_stored.
    by rewrite foldl_map_entries. }
  assert (Hlenr : length (Server.results loop) = length kept).
  { rewrite Hr. by rewrite length_map. }
  assert (Hlene : length (Server.errors loop) = length refused) by done.
  split; [|split; [|split]].
  - intros d. rewrite <- Hstore.
    destruct (_ && _); [done|].
    destruct (Server.availabilityResponse _ _); [|done].
    by destruct (0 <? _).
  - rewrite <- Ha.
    destruct (_ && _); [done|].
    destruct (Server.availabilityResponse _ _); [|done].
    by destruct (0 <? _).
  - intros Hsome. apply filter_accepted_nonempty in Hsome. fold kept in Hsome.
    assert ((Z.of_nat (length (Server.results loop)) =? 0) = false) as ->.
    { apply Z.eqb_neq. rewrite Hlenr. destruct kept; [done|cbn; lia]. }
    rewrite andb_false_r, Hresp.
    assert (Hlook : forall d,
              foldl (fun m e =>
                       <[e.1 := Server.day_to_frontend
                                  (row_of_day now e.2)]> m)
                (∅ : gmap string DayInfo) kept !! d
              = match a !! d with
                | Some day =>
                    if accepted drv d then Some (sent_back day) else None
                | None => None
                end).
    { intros d. unfold kept.
      rewrite (foldl_accepted_lookup drv
                 (fun day => Server.day_to_frontend (row_of_day now day))).
      destruct (a !! d); [|apply lookup_empty].
      destruct (accepted drv d); [by rewrite day_to_frontend_row|].
      apply lookup_empty. }
    destruct (0 <? Z.of_nat (length (Server.errors loop))); cbn;
      (split; [done|]); eexists _, _; (split; [reflexivity|]); apply Hlook.
  - intros Hno Hne.
    assert (kept = []) as Hk.
    { destruct kept eqn:Ek; [done|]. exfalso. apply Hno.
      apply filter_accepted_nonempty. fold kept. by rewrite Ek. }
    pose proof (filter_refused_nonempty drv a Hno Hne) as Hrf.
    fold refused in Hrf.
    assert ((0 <? Z.of_nat (length (Server.errors loop))) = true) as ->.
    { apply Z.ltb_lt. rewrite Hlene. destruct refused; [done|cbn; lia]. }
    assert ((Z.of_nat (length (Server.results loop)) =? 0) = true) as ->.
    { apply Z.eqb_eq. rewrite Hlenr, Hk. done. }
    reflexivity.
Qed.

Lemma post_availability_empty drv now db :
  Server.post_availability drv now db (Some ∅)
  = (Server.respond 200 (Server.AvailabilityJson ∅ []), db).
Proof.
  unfold Server.post_availability. rewrite map_to_list_empty. reflexivity.
Qed.

(** What [saveAvailability] leaves in the panel and on the server. *)
Lemma saveAvailability_served drv now (this : AdminPanel.t) a db :
  AdminPanel.isSavingAvailability this = false ->
  AdminPanel.isSavingAvailability
    (AdminPanel.saveAvailability (served drv now) this a db).1.2 = false
  /\ AdminPanel.useAPI
       (AdminPanel.saveAvailability (served drv now) this a db).1.2
     = AdminPanel.useAPI this
  /\ (AdminPanel.useAPI this = false ->
      AdminPanel.saveAvailability (served drv now) this a db
      = (true, AdminPanel.with_availability this a, db))
  /\ (AdminPanel.useAPI this = true ->
      (AdminPanel.saveAvailability (served drv now) this a db).2
      = (Server.post_availability drv now db (Some a)).2
      /\ (some_accepted drv a ->
          (AdminPanel.saveAvailability (served drv now) this a db).1.1 = true
          /\ forall d,
               AdminPanel.availability
                 (AdminPanel.saveAvailability (served drv now) this a db).1.2
                 !! d
               = match a !! d with
                 | Some day =>
                     if accepted drv d then Some (sent_back day) else None
                 | None => None
                 end)
      /\ (~ some_accepted drv a ->
          AdminPanel.availability
            (AdminPanel.saveAvailability (served drv now) this a db).1.2
          = a)).
Proof.
  intros Hs. unfold AdminPanel.saveAvailability. rewrite Hs.
  destruct (AdminPanel.useAPI this) eqn:Hu; cbn [negb].
  2:{ repeat split; done. }
  unfold served.
  destruct (post_availability_served drv now db a) as (_ & _ & Hok & Hfail).
  destruct (Server.post_availability drv now db (Some a)) as [r db'] eqn:Ep.
  cbn [fst snd] in *.
  assert (Hcase : some_accepted drv a \/ ~ some_accepted drv a).
  { destruct (List.filter (fun e => accepted drv e.1) (map_to_list a)) eqn:E.
    - right. intros H%filter_accepted_nonempty. by apply H.
    - left. apply filter_accepted_nonempty. by rewrite E. }
  destruct Hcase as [Hsome|Hno].
  - destruct (Hok Hsome) as (Hrok & resp & errs & Hj & Hresp).
    rewrite Hrok, Hj. cbn.
    split; [done|]. split; [done|]. split; [done|]. intros _.
    split; [done|]. split; [|done].
    intros _. split; [done|]. apply Hresp.
  - destruct (decide (a = ∅)) as [->|Hne].
    + rewrite post_availability_empty in Ep. injection Ep as <- <-. cbn.
      split; [done|]. split; [done|]. split; [done|]. intros _.
      split; [done|]. split; [|done].
      intros (d & day & Hd & _). by rewrite lookup_empty in Hd.
    + rewrite (Hfail Hno Hne). cbn.
      split; [done|]. split; [done|]. split; [done|]. intros _.
      split; [done|]. split; [done|]. done.
Qed.

Lemma saveAvailability_unreachable {S : Type} (this : AdminPanel.t) a (srv : S) :
  AdminPanel.isSavingAvailability this = false ->
  AdminPanel.availability
    (AdminPanel.saveAvailability unreachable this a srv).1.2 = a
  /\ AdminPanel.isSavingAvailability
       (AdminPanel.saveAvailability unreachable this a srv).1.2 = false
  /\ (AdminPanel.saveAvailability unreachable this a srv).2 = srv.
Proof.
  intros Hs. unfold AdminPanel.saveAvailability. rewrite Hs.
  destruct (AdminPanel.useAPI this); cbn; done.
Qed.

End SaveAvailability.

Section CopySlots.

Implicit Types (drv : Supabase.Driver) (db : Supabase.DB)
  (this : AdminPanel.t) (a : gmap string DayInfo) (d src : string)
  (targets slots : list string).

Lemma copy_onto_lookup slots a targets d :
  foldl (AdminPanel.copy_onto slots) a targets !! d
  = if bool_decide (d ∈ targets) then Some (open_day slots) else a !! d.
Proof.
  revert a. induction targets as [|k targets IH]; intros a.
  - cbn. rewrite bool_decide_eq_false_2; [done|]. apply not_elem_of_nil.
  - cbn [foldl]. rewrite IH.
    destruct (decide (d ∈ targets)) as [Hin|Hnin].
    + rewrite !bool_decide_eq_true_2; [done| |done]. by right.
    + rewrite (bool_decide_eq_false_2 (d ∈ targets)) by done.
      unfold AdminPanel.copy_onto.
      destruct (decide (d = k)) as [->|Hne].
      * rewrite bool_decide_eq_true_2 by (by left).
        by rewrite lookup_insert_eq.
      * rewrite bool_decide_eq_false_2
          by (intros [?|?]%elem_of_cons; done).
        by rewrite lookup_insert_ne.
Qed.

(** Copying onto the same dates again changes nothing. *)
Lemma copy_onto_again slots a targets :
  foldl (AdminPanel.copy_onto slots)
    (foldl (AdminPanel.copy_onto slots) a targets) targets
  = foldl (AdminPanel.copy_onto slots) a targets.
Proof.
  apply map_eq. intros d. rewrite !copy_onto_lookup.
  by case_bool_decide.
Qed.

(** A run that passes every check copies and saves. *)
Lemma copyTimeSlots_ready {S : Type}
    (fetch : gmap string DayInfo -> S -> FetchResult * S)
    (now : Z) this src targets (srv : S) info slots :
  targets_valid now src targets ->
  AdminPanel.availability this !! src = Some info ->
  timeSlots info = Some slots ->
  slots <> [] ->
  AdminPanel.isSavingAvailability this = false ->
  AdminPanel.copyTimeSlots fetch now this src targets srv
  = let out :=
      AdminPanel.saveAvailability fetch
        (AdminPanel.with_availability this
           (foldl (AdminPanel.copy_onto slots) (AdminPanel.availability this)
              targets))
        (foldl (AdminPanel.copy_onto slots) (AdminPanel.availability this)
           targets) srv in
    (if out.1.1 then AdminPanel.CopiedTo (length targets)
     else AdminPanel.SaveFailed, out.1.2, out.2).
Proof.
  intros (E1 & E2 & E3) Hsrc Hts Hne Hs.
  unfold AdminPanel.copyTimeSlots.
  rewrite E1, E2, E3, Hsrc, Hts, Hs.
  assert ((Z.of_nat (length slots) =? 0) = false) as ->.
  { apply Z.eqb_neq. destruct slots; [done|cbn; lia]. }
  cbn [AdminPanel.availability AdminPanel.with_availability].
  by destruct (AdminPanel.saveAvailability _ _ _ _) as [[[] ?] ?].
Qed.

(** A run either stops at a check, leaving the panel and the server as they
    were, or passes every check. *)
Lemma copyTimeSlots_cases {S : Type}
    (fetch : gmap string DayInfo -> S -> FetchResult * S)
    (now : Z) this src targets (srv : S) :
  (exists m, AdminPanel.copyTimeSlots fetch now this src targets srv
             = (m, this, srv)
             /\ forall n, m <> AdminPanel.CopiedTo n)
  \/ (exists info slots,
        targets_valid now src targets
        /\ AdminPanel.availability this !! src = Some info
        /\ timeSlots info = Some slots
        /\ slots <> []
        /\ AdminPanel.isSavingAvailability this = false).
Proof.
  unfold AdminPanel.copyTimeSlots, targets_valid.
  destruct (Z.of_nat (length targets) =? 0) eqn:E1; [left; by eexists|].
  destruct (0 <? _) eqn:E2; [left; by eexists|].
  destruct (bool_decide (src ∈ targets)) eqn:E3; [left; by eexists|].
  destruct (AdminPanel.availability this !! src) as [info|] eqn:Hsrc;
    [|left; by eexists].
  destruct (timeSlots info) as [slots|] eqn:Hts; [|left; by eexists].
  destruct (Z.of_nat (length slots) =? 0) eqn:E4; [left; by eexists|].
  destruct (AdminPanel.isSavingAvailability this) eqn:E5;
    [left; by eexists|].
  right. exists info, slots.
  split; [done|]. split; [done|]. split; [done|]. split; [|done].
  intros ->. done.
Qed.




Lemma targets_valid_not_in now src targets :
  targets_valid now src targets -> src ∉ targets.
Proof. intros (_ & _ & E3). by apply bool_decide_eq_false in E3. Qed.

Lemma targets_valid_some now src targets :
  targets_valid now src targets -> exists d, d ∈ targets.
Proof.
  intros (E1 & _ & _). destruct targets as [|d l]; [done|].
  exists d. by left.
Qed.




End CopySlots.

Section CopySlotsExamples.

(** The scenario of the specification: 2025-06-11 is seeded with 10:00; after
    copying 09:00 and 09:45 onto it, it holds exactly these two. *)
Example copyTimeSlots_overwrites_seed :
  (AdminPanel.copyTimeSlots (served healthy "2025-06-02T08:00:00.000Z")
     morning panel0 "2025-06-10" ["2025-06-11"; "2025-06-12"] db0).1.1
  = AdminPanel.CopiedTo 2
  /\ AdminPanel.availability
       (AdminPanel.copyTimeSlots (served healthy "2025-06-02T08:00:00.000Z")
          morning panel0 "2025-06-10" ["2025-06-11"; "2025-06-12"] db0).1.2
       !! "2025-06-11"
     = Some (open_day ["09:00"; "09:45"])
  /\ AdminPanel.availability
       (AdminPanel.copyTimeSlots (served healthy "2025-06-02T08:00:00.000Z")
          morning panel0 "2025-06-10" ["2025-06-11"; "2025-06-12"] db0).1.2
       !! "2025-06-12"
     = Some (open_day ["09:00"; "09:45"]).
Proof. repeat split; vm_compute; reflexivity. Qed.



(** With the server out of reach the panel keeps what it copied, and a
    second copy changes nothing. *)
Lemma copyTimeSlots_unreachable_twice {S : Type} (now : Z)
    (this : AdminPanel.t) (src : string) (targets : list string) (srv : S) :
  AdminPanel.availability
    (AdminPanel.copyTimeSlots unreachable now
       (AdminPanel.copyTimeSlots unreachable now this src targets srv).1.2
       src targets
       (AdminPanel.copyTimeSlots unreachable now this src targets srv).2).1.2
  = AdminPanel.availability
      (AdminPanel.copyTimeSlots unreachable now this src targets srv).1.2.
Proof.
  destruct (copyTimeSlots_cases unreachable now this src targets srv)
    as [(m & Hrun & _)|(info & slots & Hv & Hsrc & Hts & Hne & Hs)].
  { rewrite Hrun. cbn [fst snd]. by rewrite Hrun. }
  rewrite (copyTimeSlots_ready unreachable now this src targets srv info
             slots Hv Hsrc Hts Hne Hs).
  cbn zeta. cbn [fst snd].
  set (a0 := foldl (AdminPanel.copy_onto slots)
               (AdminPanel.availability this) targets).
  destruct (saveAvailability_unreachable
              (AdminPanel.with_availability this a0) a0 srv Hs)
    as (HA1 & Hs1 & Hsrv1).
  set (this1 := (AdminPanel.saveAvailability unreachable
                   (AdminPanel.with_availability this a0) a0 srv).1.2) in *.
  rewrite Hsrv1.
  assert (Hsrc1 : AdminPanel.availability this1 !! src = Some info).
  { rewrite HA1. unfold a0. rewrite copy_onto_lookup.
    rewrite bool_decide_eq_false_2; [done|].
    by eapply targets_valid_not_in. }
  rewrite (copyTimeSlots_ready unreachable now this1 src targets srv info
             slots Hv Hsrc1 Hts Hne Hs1).
  cbn zeta. cbn [fst snd]. rewrite HA1.
  unfold a0. rewrite copy_onto_again. fold a0.
  destruct (saveAvailability_unreachable
              (AdminPanel.with_availability this1 a0) a0 srv Hs1)
    as (HA2 & _ & _).
  by rewrite HA2.
Qed.

End CopySlotsExamples.

(** * Further properties of the code *)

(** ** Text of numbers and times *)

Section Digits.

(** A property of the integers of a range, checked by running a test on each
    of them. *)
Lemma range_check (p : Z -> bool) (lo n : Z) :
  forallb p (seqZ lo n) = true ->
  forall k, lo <= k < lo + n -> p k = true.
Proof.
  intros H k Hk. rewrite forallb_forall in H. apply H.
  apply list_elem_of_In, elem_of_seqZ. lia.
Qed.

Lemma digit_of_is_digit (a : ascii) :
  Server.is_digit a = true <-> exists d, Js.digit_of a = Some d.
Proof.
  unfold Server.is_digit. destruct (Js.digit_of a); split; eauto; try done.
  by intros [? ?].
Qed.

Lemma digit_not_colon (a : ascii) :
  Server.is_digit a = true -> Ascii.eqb a ":" = false.
Proof.
  intros H. destruct (Ascii.eqb a ":") eqn:E; [|done].
  apply Ascii.eqb_eq in E. subst. discriminate.
Qed.

Lemma split_digits_colon (pre rest : string) :
  all_digits pre = true ->
  Js.split ":" (pre +:+ String ":" rest) = pre :: Js.split ":" rest.
Proof.
  induction pre as [|a pre IH]; intros H; simpl in *.
  - reflexivity.
  - apply andb_true_iff in H as [Ha Hp].
    rewrite (digit_not_colon a Ha), (IH Hp). reflexivity.
Qed.

Lemma split_digits (s : string) :
  all_digits s = true -> Js.split ":" s = [s].
Proof.
  induction s as [|a s IH]; intros H; simpl in *; [done|].
  apply andb_true_iff in H as [Ha Hs].
  by rewrite (digit_not_colon a Ha), (IH Hs).
Qed.

Lemma span_digits_app (ds rest : string) :
  all_digits ds = true ->
  match rest with
  | EmptyString => True
  | String a _ => Server.is_digit a = false
  end ->
  Js.span_digits (ds +:+ rest) = (ds, rest).
Proof.
  induction ds as [|a ds IH]; intros Hd Hr; simpl in *.
  - destruct rest as [|b r]; [done|]. simpl.
    unfold Server.is_digit in Hr. by destruct (Js.digit_of b).
  - apply andb_true_iff in Hd as [Ha Hd].
    apply digit_of_is_digit in Ha as [d Ha]. rewrite Ha.
    by rewrite (IH Hd Hr).
Qed.

End Digits.

Section DisplayedTimes.

Lemma match_time_here_head (s : string) g :
  BookingSystem.match_time_here s = Some g ->
  BookingSystem.match_time s = Some g.
Proof.
  intros H. destruct s; [by vm_compute in H|].
  cbn [BookingSystem.match_time]. by rewrite H.
Qed.

Lemma numeral_cons (s : string) :
  numeral s -> exists a r, s = String a r /\ Server.is_digit a = true.
Proof.
  intros [Hne Hd]. destruct s as [|a r]; [done|].
  simpl in Hd. apply andb_true_iff in Hd as [Ha _]. eauto.
Qed.

(** One attempt of the pattern on a displayed time finds its three parts. *)
Lemma match_time_here_display (D m ampm : string) :
  numeral D -> numeral m -> ampm = "AM" \/ ampm = "PM" ->
  BookingSystem.match_time_here (D +:+ ":" +:+ m +:+ " " +:+ ampm)
  = Some (D, m, ampm).
Proof.
  intros HD Hm Hap. unfold BookingSystem.match_time_here.
  rewrite (span_digits_app D) by (by destruct HD).
  destruct (numeral_cons D HD) as (a & r & -> & _).
  change (":" +:+ m +:+ " " +:+ ampm) with (String ":" (m +:+ " " +:+ ampm)).
  cbv iota beta.
  rewrite (span_digits_app m) by (by destruct Hm).
  destruct (numeral_cons m Hm) as (b & r' & -> & _).
  destruct Hap as [-> | ->]; reflexivity.
Qed.

Lemma hour_facts_ok (h : Z) : 0 <= h < 24 -> hour_facts h = true.
Proof. apply (range_check hour_facts 0 24). vm_compute. reflexivity. Qed.


(** X3: the booking page reads a displayed time back: for a stored time
    [HH:MM] (hour 00 to 23 on two digits, minutes any digits),
    [parseTimeFromDisplay (formatTime t)] is [t] again. *)
Theorem parseTimeFromDisplay_formatTime (h : Z) (m : string) :
  0 <= h < 24 -> numeral m ->
  BookingSystem.parseTimeFromDisplay
    (BookingSystem.formatTime (two_digits h +:+ ":" +:+ m))
  = Some (two_digits h +:+ ":" +:+ m).
Proof.
  intros Hh Hm. pose proof (hour_facts_ok h Hh) as F.
  unfold hour_facts in F.
  repeat (apply andb_true_iff in F as [F ?]).
  unfold BookingSystem.formatTime.
  change (":" +:+ m) with (String ":" m).
  rewrite split_digits_colon by done.
  rewrite split_digits by (by destruct Hm).
  cbn [lookup list_lookup].
  apply bool_decide_eq_true in H3. rewrite H3.
  cbn [Js.num_to_string Js.template].
  set (D := pretty (Js.num_or (Js.num_rem (Some h) 12) 12)) in *.
  assert (HD : numeral D).
  { split; [|done]. intros E. rewrite E in H0. discriminate. }
  apply String.eqb_eq in H.
  unfold BookingSystem.parseTimeFromDisplay.
  destruct (Js.num_ge (Some h) (Some 12)).
  - rewrite (match_time_here_head _ (D, m, "PM")
               (match_time_here_display D m "PM" HD Hm (or_intror eq_refl))).
    change (BookingSystem.toUpperCase "PM") with "PM".
    rewrite H. reflexivity.
  - rewrite (match_time_here_head _ (D, m, "AM")
               (match_time_here_display D m "AM" HD Hm (or_introl eq_refl))).
    change (BookingSystem.toUpperCase "AM") with "AM".
    rewrite H. reflexivity.
Qed.

Lemma parseTimeFromDisplay_formatTime_witness :
  BookingSystem.parseTimeFromDisplay (BookingSystem.formatTime "14:30")
  = Some "14:30".
Proof.
  apply (parseTimeFromDisplay_formatTime 14 "30"); [lia | by split].
Defined.

(** Hours and minutes below 100 are read back from their two digits. *)
Lemma two_digits_reads_back (k : Z) :
  0 <= k < 100 ->
  Js.Number (two_digits k) = Some k /\ all_digits (two_digits k) = true.
Proof.
  intros Hk.
  assert (H : reads_back k = true).
  { revert k Hk. apply (range_check reads_back 0 100). vm_compute. reflexivity. }
  apply andb_true_iff in H as [H1 H2].
  by apply bool_decide_eq_true in H1.
Qed.

Lemma split_clock (h m : Z) :
  0 <= h < 100 -> 0 <= m < 100 ->
  Js.split ":" (clock h m) = [two_digits h; two_digits m].
Proof.
  intros Hh Hm. unfold clock.
  destruct (two_digits_reads_back h Hh) as [_ H1].
  destruct (two_digits_reads_back m Hm) as [_ H2].
  change (":" +:+ two_digits m) with (String ":" (two_digits m)).
  by rewrite split_digits_colon, split_digits.
Qed.

(** X4: [convertTo12Hour] splits a time of the 24 hour clock into the hour
    1 to 12 without padding, the minutes on two digits and AM or PM (AM
    before noon, 12 for midnight and noon), and [convertTo24Hour] puts the
    three parts together into the same time again. *)
Theorem convertTo24Hour_convertTo12Hour (h m : Z) :
  0 <= h < 24 -> 0 <= m < 60 ->
  exists t12,
    AdminPanel.convertTo12Hour (clock h m) = Some t12
    /\ AdminPanel.Time12.ampm t12 = (if h <? 12 then "AM" else "PM")
    /\ AdminPanel.Time12.hour t12
       = pretty (if h mod 12 =? 0 then 12 else h mod 12)
    /\ AdminPanel.Time12.minute t12 = two_digits m
    /\ AdminPanel.convertTo24Hour (AdminPanel.Time12.hour t12)
         (AdminPanel.Time12.minute t12) (AdminPanel.Time12.ampm t12)
       = clock h m.
Proof.
  intros Hh Hm. pose proof (hour_facts_ok h Hh) as F.
  unfold hour_facts in F.
  repeat (apply andb_true_iff in F as [F ?]).
  unfold AdminPanel.convertTo12Hour.
  rewrite split_clock by lia.
  unfold Js.nth_number. cbn [lookup list_lookup].
  destruct (two_digits_reads_back h) as [Nh _]; [lia|].
  destruct (two_digits_reads_back m) as [Nm _]; [lia|].
  rewrite Nh, Nm. eexists. split; [reflexivity|].
  cbn [AdminPanel.Time12.ampm AdminPanel.Time12.hour AdminPanel.Time12.minute].
  apply String.eqb_eq in H.
  split; [|split; [|split]].
  - unfold Js.num_ge. destruct (12 <=? h) eqn:E1, (h <? 12) eqn:E2; try done; lia.
  - cbn [Js.num_to_string Js.num_rem Js.num_or].
    change (12 =? 0) with false. cbv iota.
    rewrite Z.rem_mod_nonneg by lia. reflexivity.
  - reflexivity.
  - unfold AdminPanel.convertTo24Hour. cbn [Js.num_to_string].
    rewrite H. reflexivity.
Qed.

Lemma convertTo24Hour_convertTo12Hour_witness :
  exists t12,
    AdminPanel.convertTo12Hour (clock 0 5) = Some t12
    /\ AdminPanel.Time12.ampm t12 = "AM"
    /\ AdminPanel.Time12.hour t12 = "12"
    /\ AdminPanel.Time12.minute t12 = "05"
    /\ AdminPanel.convertTo24Hour (AdminPanel.Time12.hour t12)
         (AdminPanel.Time12.minute t12) (AdminPanel.Time12.ampm t12)
       = clock 0 5.
Proof. apply (convertTo24Hour_convertTo12Hour 0 5); lia. Defined.

End DisplayedTimes.

Section ClockArithmetic.

(** X5: adding a number of minutes that is not negative to a time of day
    gives a time of day again, that many minutes later and capped at 23:59:
    the minutes since midnight become [min (60 h + m + k) 1439]. *)
Theorem addMinutesToTime_clock (h m k : Z) :
  0 <= h < 24 -> 0 <= m < 60 -> 0 <= k ->
  exists h' m',
    AdminPanel.addMinutesToTime (clock h m) k = clock h' m'
    /\ 0 <= h' < 24 /\ 0 <= m' < 60
    /\ 60 * h' + m' = Z.min (60 * h + m + k) (60 * 23 + 59).
Proof.
  intros Hh Hm Hk. unfold AdminPanel.addMinutesToTime.
  rewrite split_clock by lia.
  unfold Js.nth_number. cbn [lookup list_lookup].
  destruct (two_digits_reads_back h) as [Nh _]; [lia|].
  destruct (two_digits_reads_back m) as [Nm _]; [lia|].
  rewrite Nh, Nm.
  cbn [Js.num_mul Js.num_add Js.num_floor_div Js.num_rem Js.num_ge].
  change (60 =? 0) with false. cbv iota.
  set (total := h * 60 + m + k).
  rewrite Z.rem_mod_nonneg by lia.
  pose proof (Z.div_mod total 60 ltac:(lia)) as Hdm.
  pose proof (Z.mod_pos_bound total 60 ltac:(lia)) as Hmod.
  destruct (24 <=? total / 60) eqn:E.
  - exists 23, 59. split; [reflexivity|]. lia.
  - exists (total / 60), (total mod 60).
    split; [reflexivity|].
    assert (0 <= total / 60) by (apply Z.div_pos; lia).
    lia.
Qed.

Lemma addMinutesToTime_clock_witness :
  exists h' m',
    AdminPanel.addMinutesToTime (clock 9 30) 45 = clock h' m'
    /\ 0 <= h' < 24 /\ 0 <= m' < 60
    /\ 60 * h' + m' = Z.min (60 * 9 + 30 + 45) (60 * 23 + 59).
Proof. apply (addMinutesToTime_clock 9 30 45); lia. Defined.

Lemma getOrdinal_rem (n : Z) :
  AdminPanel.getOrdinal n = AdminPanel.getOrdinal (Z.rem n 100).
Proof.
  unfold AdminPanel.getOrdinal.
  assert (E : Z.rem (Z.rem n 100) 100 = Z.rem n 100).
  { apply Z.rem_small_iff; [lia|]. apply Z.rem_bound_abs; lia. }
  rewrite E. reflexivity.
Qed.

(** X6: [getOrdinal] gives the English suffix: th for 11, 12 and 13 in the
    last two digits, otherwise st, nd, rd for a last digit 1, 2, 3, and th for
    the rest; every negative number gets th. *)
Theorem getOrdinal_suffix (n : Z) :
  AdminPanel.getOrdinal n
  = if n <? 0 then "th"
    else if (11 <=? n mod 100) && (n mod 100 <=? 13) then "th"
    else if n mod 10 =? 1 then "st"
    else if n mod 10 =? 2 then "nd"
    else if n mod 10 =? 3 then "rd"
    else "th".
Proof.
  rewrite getOrdinal_rem.
  destruct (n <? 0) eqn:Hn.
  - assert (Hv : -100 < Z.rem n 100 <= 0).
    { apply Z.ltb_lt in Hn. pose proof (Z.rem_bound_pos_neg n 100). lia. }
    set (v := Z.rem n 100) in *.
    assert (H : String.eqb (AdminPanel.getOrdinal (- (- v))) "th" = true).
    { assert (Hr : 0 <= - v < 100) by lia. revert Hr. generalize (- v).
      apply (range_check (fun w => String.eqb (AdminPanel.getOrdinal (- w)) "th")
               0 100).
      vm_compute. reflexivity. }
    rewrite Z.opp_involutive in H. by apply String.eqb_eq in H.
  - apply Z.ltb_ge in Hn. rewrite Z.rem_mod_nonneg by lia.
    assert (Hv : 0 <= n mod 100 < 100) by (apply Z.mod_pos_bound; lia).
    assert (Hm : n mod 10 = (n mod 100) mod 10).
    { pose proof (Z.div_mod n 100 ltac:(lia)).
      pose proof (Z.div_mod n 10 ltac:(lia)).
      pose proof (Z.div_mod (n mod 100) 10 ltac:(lia)).
      pose proof (Z.mod_pos_bound n 10 ltac:(lia)).
      pose proof (Z.mod_pos_bound (n mod 100) 10 ltac:(lia)).
      lia. }
    rewrite Hm.
    assert (H : ordinal_check (n mod 100) = true).
    { revert Hv. generalize (n mod 100).
      apply (range_check ordinal_check 0 100). vm_compute. reflexivity. }
    by apply String.eqb_eq in H.
Qed.

End ClockArithmetic.

Section Phone.

Lemma only_digits_all (s : string) : all_digits (Js.only_digits s) = true.
Proof.
  induction s as [|a s IH]; simpl; [done|].
  destruct (Js.digit_of a) eqn:E; [|done].
  simpl. unfold Server.is_digit. by rewrite E.
Qed.

Lemma only_digits_of_digits (s : string) :
  all_digits s = true -> Js.only_digits s = s.
Proof.
  induction s as [|a s IH]; simpl; [done|].
  intros H. apply andb_true_iff in H as [Ha Hs].
  apply digit_of_is_digit in Ha as [d Ha]. rewrite Ha. by rewrite IH.
Qed.

Lemma all_digits_no_plus (s : string) :
  all_digits s = true -> String.prefix "+" s = false.
Proof.
  destruct s as [|a s]; [done|]. intros H.
  cbn [String.prefix]. destruct (ascii_dec "+" a) as [<-|]; [|reflexivity].
  discriminate H.
Qed.

Lemma formatPhoneNumber_eq (phone : string) :
  let cleaned := Js.only_digits phone in
  Sms.formatPhoneNumber phone
  = "+" +:+ (if (String.length cleaned =? 10)%nat then "1" +:+ cleaned
             else cleaned)
  /\ all_digits (if (String.length cleaned =? 10)%nat then "1" +:+ cleaned
                 else cleaned) = true.
Proof.
  intros cleaned. unfold Sms.formatPhoneNumber. fold cleaned.
  pose proof (only_digits_all phone) as Hd. fold cleaned in Hd.
  rewrite (all_digits_no_plus cleaned Hd). cbn [negb].
  destruct (String.length cleaned =? 10)%nat eqn:E10.
  - apply Nat.eqb_eq in E10. rewrite E10. cbn [Nat.eqb andb].
    split; [reflexivity|]. simpl. exact Hd.
  - split; [|exact Hd].
    by destruct ((String.length cleaned =? 11)%nat && _).
Qed.

(** X1: [formatPhoneNumber] answers a plus sign followed by digits only: the
    digits of the input, with the country code 1 put in front when there are
    exactly ten of them.  The last branch of the source (a cleaned number that
    already starts with a plus sign) is never taken. *)
Theorem formatPhoneNumber_digits (phone : string) :
  let cleaned := Js.only_digits phone in
  Sms.formatPhoneNumber phone
  = "+" +:+ (if (String.length cleaned =? 10)%nat then "1" +:+ cleaned
             else cleaned)
  /\ all_digits (if (String.length cleaned =? 10)%nat then "1" +:+ cleaned
                 else cleaned) = true.
Proof. exact (formatPhoneNumber_eq phone). Qed.

(** X2: formatting a phone number that is already formatted changes
    nothing. *)
Theorem formatPhoneNumber_idempotent (phone : string) :
  Sms.formatPhoneNumber (Sms.formatPhoneNumber phone)
  = Sms.formatPhoneNumber phone.
Proof.
  destruct (formatPhoneNumber_eq phone) as [E Hd].
  set (cleaned := Js.only_digits phone) in *.
  set (ds := if (String.length cleaned =? 10)%nat then "1" +:+ cleaned
             else cleaned) in *.
  assert (Hc : Js.only_digits (Sms.formatPhoneNumber phone) = ds).
  { rewrite E. simpl. by apply only_digits_of_digits. }
  rewrite E at 2.
  unfold Sms.formatPhoneNumber at 1. rewrite Hc.
  rewrite (all_digits_no_plus ds Hd). cbn [negb].
  subst ds. destruct (String.length cleaned =? 10)%nat eqn:E10.
  - change (String.length ("1" +:+ cleaned) =? 11)%nat
      with (String.length cleaned =? 10)%nat.
    rewrite E10. reflexivity.
  - rewrite E10. by destruct ((String.length cleaned =? 11)%nat && _).
Qed.

End Phone.


Section Week.

Lemma TimeClip_in_range (t : Z) :
  Z.abs t <= 8640000000000000 -> Js.TimeClip t = Some t.
Proof.
  intros H. unfold Js.TimeClip.
  destruct (Z.abs t <=? 8640000000000000) eqn:E; [done|lia].
Qed.



End Week.

Section Bounds.

Lemma widen_bounds_inv (b : AdminPanel.TimeBounds) (apt : Appointment) :
  clock_time (time apt) -> bounds_inv b ->
  bounds_inv (AdminPanel.widen_bounds b apt).
Proof.
  intros (h & m & Hh & Hm & Ht) (a & a' & c & c' & E1 & E2 & E3 & E4 & I).
  unfold AdminPanel.widen_bounds. rewrite Ht, split_clock by lia.
  unfold Js.nth_number. cbn [lookup list_lookup].
  destruct (two_digits_reads_back h) as [-> _]; [lia|].
  destruct (two_digits_reads_back m) as [-> _]; [lia|].
  set (d := Js.or_num (duration apt) 45).
  cbn [Js.num_add Js.num_mul Js.num_floor_div Js.num_rem].
  change (60 =? 0) with false. cbv iota.
  set (total := h * 60 + (m + d)).
  rewrite E1, E2.
  cbn [Js.num_lt Js.num_eq].
  pose proof (Z.div_mod total 60 ltac:(lia)) as Hdm.
  pose proof (Z.mod_pos_bound total 60 ltac:(lia)) as Hmod.
  assert (Hrem : 0 <= total -> Z.rem total 60 = total mod 60)
    by (intros; apply Z.rem_mod_nonneg; lia).
  set (b1 := if (h <? a) || (h =? a) && (m <? a') then _ else b).
  assert (Hb1 : exists a1 a1',
             AdminPanel.minHour b1 = Some a1
             /\ AdminPanel.minMinute b1 = Some a1'
             /\ AdminPanel.maxHour b1 = Some c
             /\ AdminPanel.maxMinute b1 = Some c'
             /\ a1 <= 9 /\ (a1 = 9 -> a1' = 0)).
  { subst b1. destruct ((h <? a) || (h =? a) && (m <? a')) eqn:Emin.
    - exists h, m. cbn. repeat split; try done.
      + apply orb_true_iff in Emin as [?|Emin]; [lia|].
        apply andb_true_iff in Emin as [? ?]. lia.
      + intros ->. apply orb_true_iff in Emin as [?|Emin]; [lia|].
        apply andb_true_iff in Emin as [? ?]. lia.
    - exists a, a'. repeat split; try done; lia. }
  clearbody b1.
  destruct Hb1 as (a1 & a1' & F1 & F2 & F3 & F4 & J1 & J2).
  rewrite F3, F4. unfold Js.num_gt. cbn [Js.num_lt Js.num_eq].
  destruct ((c <? total / 60) || (total / 60 =? c) && (c' <? Z.rem total 60))
    eqn:Emax.
  - exists a1, a1', (total / 60), (Z.rem total 60). cbn.
    repeat split; try done.
    + apply orb_true_iff in Emax as [?|Emax]; [lia|].
      apply andb_true_iff in Emax as [? ?]. lia.
    + intros Hc. apply orb_true_iff in Emax as [?|Emax]; [lia|].
      apply andb_true_iff in Emax as [? ?]. lia.
  - exists a1, a1', c, c'. repeat split; try done; lia.
Qed.


(** X8: the time bounds of a day's schedule never move: for appointments
    whose times are times of day, whatever their durations,
    [getAppointmentTimeBounds] answers 9:00 to 23:00.  (An earlier
    appointment lowers the minimum below 9, which the last step puts back to
    9:00; a later end raises the maximum above 23:00, which is put back to
    23:00.) *)
Theorem getAppointmentTimeBounds_fixed (appointments : list Appointment) :
  Forall (fun apt => clock_time (time apt)) appointments ->
  AdminPanel.getAppointmentTimeBounds appointments
  = {| AdminPanel.minHour := Some 9; AdminPanel.minMinute := Some 0;
       AdminPanel.maxHour := Some 23; AdminPanel.maxMinute := Some 0 |}.
Proof.
  intros Hall. unfold AdminPanel.getAppointmentTimeBounds.
  destruct (Z.of_nat (length appointments) =? 0); [reflexivity|].
  set (b0 := {| AdminPanel.minHour := Some 9; AdminPanel.minMinute := Some 0;
                AdminPanel.maxHour := Some 23; AdminPanel.maxMinute := Some 0 |}).
  assert (Hinv : bounds_inv (foldl AdminPanel.widen_bounds b0 appointments)).
  { assert (H0 : bounds_inv b0).
    { exists 9, 0, 23, 0. repeat split; try done; lia. }
    revert H0. generalize b0. clear b0.
    induction Hall as [|apt l Hapt _ IH]; intros b Hb; [exact Hb|].
    cbn [foldl]. apply IH. by apply widen_bounds_inv. }
  destruct Hinv as (a & a' & c & c' & E1 & E2 & E3 & E4 & I1 & I2 & I3 & I4).
  destruct (foldl AdminPanel.widen_bounds b0 appointments) as [mh mm xh xm].
  cbn in E1, E2, E3, E4. subst mh mm xh xm.
  cbn [AdminPanel.maxHour AdminPanel.maxMinute AdminPanel.minHour
       AdminPanel.minMinute Js.num_lt Js.num_eq].
  assert (Emin : (a <? 9) || (a =? 9) && (a' =? 0) = true).
  { destruct (a <? 9) eqn:E; [done|]. cbn.
    assert (a = 9) by lia. apply andb_true_iff. split; lia. }
  rewrite Emin.
  cbn [AdminPanel.maxHour AdminPanel.maxMinute AdminPanel.minHour
       AdminPanel.minMinute Js.num_lt Js.num_eq Js.num_gt].
  unfold Js.num_gt. cbn [Js.num_lt].
  destruct ((23 <? c) || (c =? 23) && (0 <? c')) eqn:Emax; [reflexivity|].
  apply orb_false_iff in Emax as [H1 H2].
  assert (c = 23) by lia. subst c.
  cbn in H2. assert (c' = 0) by lia. subst c'. reflexivity.
Qed.

Lemma getAppointmentTimeBounds_fixed_witness :
  AdminPanel.getAppointmentTimeBounds
    [appointment_at 1 "2025-06-10" (clock 7 30) "pending";
     appointment_at 2 "2025-06-10" (clock 23 30) "accepted"]
  = {| AdminPanel.minHour := Some 9; AdminPanel.minMinute := Some 0;
       AdminPanel.maxHour := Some 23; AdminPanel.maxMinute := Some 0 |}.
Proof.
  apply getAppointmentTimeBounds_fixed.
  repeat constructor.
  - exists 7, 30. repeat split; lia.
  - exists 23, 30. repeat split; lia.
Defined.

End Bounds.


Section AddSlot.

Lemma sort_insert_perm (x : string) (l : list string) :
  Permutation (Js.sort_insert x l) (x :: l).
Proof.
  induction l as [|y l IH]; cbn [Js.sort_insert]; [done|].
  destruct (String.leb x y); [done|].
  rewrite IH. apply perm_swap.
Qed.

Lemma sort_perm (l : list string) : Permutation (Js.sort l) l.
Proof.
  unfold Js.sort. induction l as [|x l IH]; cbn [foldr]; [done|].
  rewrite sort_insert_perm. by constructor.
Qed.

Lemma sort_insert_ascending (x : string) (l : list string) :
  ascending l -> ascending (Js.sort_insert x l).
Proof.
  unfold ascending. induction l as [|y l IH]; intros Hl; cbn [Js.sort_insert].
  - repeat constructor.
  - destruct (String.leb x y) eqn:E.
    + constructor; [done|]. by constructor.
    + apply Sorted_inv in Hl as [Hl Hy].
      constructor; [by apply IH|].
      assert (Hyx : String.leb y x = true).
      { destruct (String.leb_total x y); congruence. }
      destruct l as [|z l]; cbn [Js.sort_insert].
      * by constructor.
      * destruct (String.leb x z); constructor; [done|].
        by apply HdRel_inv in Hy.
Qed.

Lemma sort_ascending (l : list string) : ascending (Js.sort l).
Proof.
  unfold Js.sort. induction l as [|x l IH]; cbn [foldr].
  - constructor.
  - by apply sort_insert_ascending.
Qed.

(** X9: adding a time slot to a date.  The time added is the one
    [convertTo24Hour] gives for the three values of the dialog.  When the date
    already has it, nothing changes.  Otherwise the date's slots become the
    old ones and the new one, in ascending order whatever the order before;
    the date's record loses its [closed] field, the other dates and the
    appointments are untouched, and the date is the expanded one. *)
Theorem confirmAddTimeSlot_sorted (this : AdminPanel.t) (d : string)
    (hourValue minuteValue ampmValue : string) :
  d <> "" ->
  let time24 := AdminPanel.convertTo24Hour hourValue minuteValue ampmValue in
  let result :=
    AdminPanel.confirmAddTimeSlot this (Some d) hourValue minuteValue ampmValue
  in
  (time24 ∈ panel_slots this d ->
   result = (AdminPanel.SlotExists, this))
  /\ (time24 ∉ panel_slots this d ->
      result.1 = AdminPanel.SlotAdded
      /\ Permutation (panel_slots result.2 d) (time24 :: panel_slots this d)
      /\ ascending (panel_slots result.2 d)
      /\ (closed <$> AdminPanel.availability result.2 !! d) = Some None
      /\ (forall d', d' <> d ->
            AdminPanel.availability result.2 !! d'
            = AdminPanel.availability this !! d')
      /\ AdminPanel.expandedDate result.2 = Some d
      /\ AdminPanel.appointments result.2 = AdminPanel.appointments this).
Proof.
  intros Hd time24 result. subst result.
  unfold AdminPanel.confirmAddTimeSlot.
  assert (Ht : Js.truthy_str d = true).
  { unfold Js.truthy_str. destruct (String.eqb_spec d ""); done. }
  rewrite Ht. cbn [negb].
  change (Js.padStart 2 "0" (Js.num_to_string _) +:+ ":" +:+ minuteValue)
    with time24.
  assert (Hs : default [] (timeSlots
             (default {| available := Some true; timeSlots := Some [];
                         closed := None |}
                (AdminPanel.availability this !! d)))
          = panel_slots this d).
  { unfold panel_slots. by destruct (AdminPanel.availability this !! d). }
  rewrite Hs. split.
  - intros Hin. by rewrite bool_decide_eq_true_2.
  - intros Hnin. rewrite bool_decide_eq_false_2 by done.
    cbn [fst snd].
    set (this' := AdminPanel.with_expandedDate _ _).
    assert (Hnew : panel_slots this' d
                   = Js.sort (panel_slots this d ++ [time24])).
    { unfold panel_slots at 1. subst this'. cbn. by rewrite lookup_insert_eq. }
    rewrite Hnew.
    split; [done|]. split.
    { rewrite sort_perm. rewrite Permutation_app_comm. reflexivity. }
    split; [apply sort_ascending|].
    subst this'. cbn. rewrite lookup_insert_eq.
    split; [done|]. split; [|done].
    intros d' Hne. by rewrite lookup_insert_ne.
Qed.

End AddSlot.

Section StatusChange.

Context {S : Type}.
Variable fetch_patch : Z -> string -> S -> FetchResult * S.
Variable fetch_delete : Z -> S -> FetchResult * S.

Lemma set_status_back (a : Appointment) (st : string) :
  AdminPanel.set_status (status a) (AdminPanel.set_status st a) = a.
Proof. by destruct a. Qed.

Lemma set_first_twice (i : Z) (f g : Appointment -> Appointment)
    (l : list Appointment) :
  (forall a, id (f a) = id a) ->
  AdminPanel.set_first i g (AdminPanel.set_first i f l)
  = AdminPanel.set_first i (fun a => g (f a)) l.
Proof.
  intros Hid. induction l as [|a l IH]; cbn [AdminPanel.set_first]; [done|].
  destruct (id a =? i) eqn:E; cbn [AdminPanel.set_first].
  - by rewrite Hid, E.
  - by rewrite E, IH.
Qed.

Lemma set_first_found (i : Z) (f : Appointment -> Appointment)
    (l : list Appointment) (a : Appointment) :
  AdminPanel.find_by_id i l = Some a -> f a = a ->
  AdminPanel.set_first i f l = l.
Proof.
  unfold AdminPanel.find_by_id.
  induction l as [|b l IH]; cbn [List.find AdminPanel.set_first]; [done|].
  destruct (id b =? i); [by intros [= ->] ->|].
  intros H1 H2. by rewrite IH.
Qed.

Lemma add_then_delete (i : Z) (u : gset Z) :
  i ∉ u -> ({[i]} ∪ u) ∖ {[i]} = u.
Proof.
  intros H. apply set_eq. intros x.
  rewrite elem_of_difference, elem_of_union, elem_of_singleton.
  split.
  - by intros [[->|?] ?].
  - intros Hx. split; [by right|]. by intros ->.
Qed.

(** X10: whenever [updateAppointmentStatus] returns false (an update of the
    appointment is in flight, the id is unknown, or the request failed or
    was refused), the panel is exactly as it was: the optimistic change of
    the status is undone and the id is no longer marked as updating. *)
Theorem updateAppointmentStatus_false_unchanged (this : AdminPanel.t) (i : Z)
    (st : string) (srv : S) :
  AdminPanel.returned
    (AdminPanel.updateAppointmentStatus fetch_patch this i st srv).1.1 = false ->
  (AdminPanel.updateAppointmentStatus fetch_patch this i st srv).1.2 = this.
Proof.
  unfold AdminPanel.updateAppointmentStatus.
  destruct (bool_decide (i ∈ AdminPanel.updatingAppointmentIds this)) eqn:Eu;
    [done|].
  apply bool_decide_eq_false in Eu.
  destruct (AdminPanel.find_by_id i (AdminPanel.appointments this))
    as [appointment|] eqn:Ef; [|done].
  destruct (String.eqb (status appointment) st); [done|].
  destruct (AdminPanel.useAPI this); cbn [negb]; [|done].
  destruct (fetch_patch i st srv) as [response srv'].
  destruct (match response with
            | Reply r => if response_ok r then Some (Server.json r) else None
            | NetworkError _ => None
            end); [done|].
  intros _. cbn [fst snd].
  cbn [AdminPanel.with_updating AdminPanel.with_appointments
       AdminPanel.appointments AdminPanel.updatingAppointmentIds].
  rewrite set_first_twice by done.
  rewrite (set_first_found i _ _ appointment Ef (set_status_back appointment st)).
  rewrite add_then_delete by done.
  by destruct this.
Qed.

Lemma set_first_find (i : Z) (f : Appointment -> Appointment)
    (l : list Appointment) (a : Appointment) :
  (forall b, id (f b) = id b) ->
  AdminPanel.find_by_id i l = Some a ->
  AdminPanel.find_by_id i (AdminPanel.set_first i f l) = Some (f a).
Proof.
  intros Hid. unfold AdminPanel.find_by_id.
  induction l as [|b l IH]; cbn [List.find AdminPanel.set_first]; [done|].
  destruct (id b =? i) eqn:E; cbn [List.find].
  - intros [= ->]. by rewrite Hid, E.
  - rewrite E. apply IH.
Qed.

Lemma set_first_others (i : Z) (f : Appointment -> Appointment)
    (l : list Appointment) :
  (forall b, id (f b) = id b) ->
  List.filter (fun apt => negb (id apt =? i)) (AdminPanel.set_first i f l)
  = List.filter (fun apt => negb (id apt =? i)) l.
Proof.
  intros Hid.
  induction l as [|b l IH]; cbn [List.filter AdminPanel.set_first]; [done|].
  destruct (id b =? i) eqn:E; cbn [List.filter].
  - by rewrite Hid, E.
  - by rewrite E, IH.
Qed.

End StatusChange.

Lemma updateAppointmentStatus_false_unchanged_witness :
  (AdminPanel.updateAppointmentStatus
     (fun _ _ (srv : unit) => (NetworkError "Failed to fetch", srv))
     (panel [appointment_at 1 "2025-06-10" "09:00" "pending"] ∅)
     1 "accepted" tt).1.2
  = panel [appointment_at 1 "2025-06-10" "09:00" "pending"] ∅.
Proof.
  apply (updateAppointmentStatus_false_unchanged
           (fun _ _ (srv : unit) => (NetworkError "Failed to fetch", srv))).
  reflexivity.
Defined.

Section StatusServed.

Implicit Types (drv : Supabase.Driver) (db : Supabase.DB) (now : string).

Lemma patch_status_stored drv now db i st row :
  Supabase.appointments_update_error drv = None ->
  Supabase.appointments db !! i = Some row ->
  Server.patch_appointment drv now db i (status_patch st)
  = (Server.respond 200
       (Server.AppointmentJson
          (Server.to_frontend
             (i, Supabase.apply_patch
                   {| Supabase.Patch.customer_name := None;
                      Supabase.Patch.customer_email := None;
                      Supabase.Patch.customer_phone := None;
                      Supabase.Patch.service := None;
                      Supabase.Patch.price := None;
                      Supabase.Patch.duration := None;
                      Supabase.Patch.date := None;
                      Supabase.Patch.time := None;
                      Supabase.Patch.status := Some st;
                      Supabase.Patch.include_in_analytics := None;
                      Supabase.Patch.updated_at := Some now |} row))),
     {| Supabase.availability := Supabase.availability db;
        Supabase.appointments :=
          <[i := Supabase.apply_patch
                   {| Supabase.Patch.customer_name := None;
                      Supabase.Patch.customer_email := None;
                      Supabase.Patch.customer_phone := None;
                      Supabase.Patch.service := None;
                      Supabase.Patch.price := None;
                      Supabase.Patch.duration := None;
                      Supabase.Patch.date := None;
                      Supabase.Patch.time := None;
                      Supabase.Patch.status := Some st;
                      Supabase.Patch.include_in_analytics := None;
                      Supabase.Patch.updated_at := Some now |} row]>
            (Supabase.appointments db) |}).
Proof.
  intros Hu Hr. unfold Server.patch_appointment, Supabase.update_appointment.
  rewrite Hu, Hr. reflexivity.
Qed.

Lemma patch_refused drv now db i body :
  Supabase.appointments_update_error drv <> None
  \/ Supabase.appointments db !! i = None ->
  (Server.patch_appointment drv now db i body).2 = db
  /\ response_ok (Server.patch_appointment drv now db i body).1 = false.
Proof.
  intros H. unfold Server.patch_appointment, Supabase.update_appointment.
  destruct (Supabase.appointments_update_error drv) eqn:Eu; [done|].
  destruct H as [H|H]; [done|]. rewrite H.
  unfold Supabase.single. by destruct (Supabase.single_no_row drv).
Qed.

(** X11: a status change that the server performs.  For an appointment the
    panel and the table both hold, with another status than the new one
    and no update in flight, [updateAppointmentStatus] against the PATCH
    handler returns true; afterwards the panel and the table agree on the
    new status, every other appointment (in the panel and in the table) and
    the availability table are as before, and the id is not left marked as
    updating. *)
Theorem updateAppointmentStatus_served drv now (this : AdminPanel.t) (i : Z)
    (st : string) db (a : Appointment) (row : Supabase.Appointments.row) :
  AdminPanel.useAPI this = true ->
  i ∉ AdminPanel.updatingAppointmentIds this ->
  AdminPanel.find_by_id i (AdminPanel.appointments this) = Some a ->
  status a <> st ->
  Supabase.appointments db !! i = Some row ->
  Supabase.appointments_update_error drv = None ->
  let result :=
    AdminPanel.updateAppointmentStatus (served_patch drv now) this i st db in
  AdminPanel.returned result.1.1 = true
  /\ (status <$> AdminPanel.find_by_id i (AdminPanel.appointments result.1.2))
     = Some st
  /\ (Supabase.Appointments.status <$> Supabase.appointments result.2 !! i)
     = Some st
  /\ (forall j, j <> i ->
        Supabase.appointments result.2 !! j = Supabase.appointments db !! j)
  /\ Supabase.availability result.2 = Supabase.availability db
  /\ List.filter (fun apt => negb (id apt =? i))
                 (AdminPanel.appointments result.1.2)
     = List.filter (fun apt => negb (id apt =? i)) (AdminPanel.appointments this)
  /\ AdminPanel.updatingAppointmentIds result.1.2
     = AdminPanel.updatingAppointmentIds this.
Proof.
  intros Hapi Hu Hf Hst Hrow Herr result. subst result.
  unfold AdminPanel.updateAppointmentStatus.
  rewrite bool_decide_eq_false_2 by done. rewrite Hf.
  destruct (String.eqb_spec (status a) st) as [|_]; [done|].
  rewrite Hapi. cbn [negb]. unfold served_patch.
  rewrite (patch_status_stored drv now db i st row Herr Hrow).
  assert (Hok : forall j, response_ok (Server.respond 200 j) = true) by done.
  rewrite Hok. cbn [Server.respond Server.json].
  cbn [fst snd AdminPanel.returned AdminPanel.with_updating
       AdminPanel.with_appointments AdminPanel.appointments
       AdminPanel.updatingAppointmentIds Supabase.appointments
       Supabase.availability].
  split; [done|]. split.
  { rewrite set_first_twice by done.
    erewrite set_first_find; [| |exact Hf].
    - cbn. unfold Js.or_str. by destruct (Js.truthy_str st).
    - done. }
  split. { by rewrite lookup_insert_eq. }
  split. { intros j Hj. by rewrite lookup_insert_ne. }
  split; [done|]. split.
  { by rewrite !set_first_others. }
  by apply add_then_delete.
Qed.

End StatusServed.

Section StatusExamples.

Lemma updateAppointmentStatus_served_witness :
  let result :=
    AdminPanel.updateAppointmentStatus (served_patch healthy "2025-06-02T08:00:00.000Z")
      (panel [appointment_at 1 "2025-06-10" "09:00" "pending"] ∅)
      1 "accepted" db0 in
  AdminPanel.returned result.1.1 = true
  /\ (status <$> AdminPanel.find_by_id 1 (AdminPanel.appointments result.1.2))
     = Some "accepted"
  /\ (Supabase.Appointments.status <$> Supabase.appointments result.2 !! 1)
     = Some "accepted"
  /\ (forall j, j <> 1 ->
        Supabase.appointments result.2 !! j = Supabase.appointments db0 !! j)
  /\ Supabase.availability result.2 = Supabase.availability db0
  /\ List.filter (fun apt => negb (id apt =? 1))
                 (AdminPanel.appointments result.1.2)
     = List.filter (fun apt => negb (id apt =? 1))
         (AdminPanel.appointments
            (panel [appointment_at 1 "2025-06-10" "09:00" "pending"] ∅))
  /\ AdminPanel.updatingAppointmentIds result.1.2
     = AdminPanel.updatingAppointmentIds
         (panel [appointment_at 1 "2025-06-10" "09:00" "pending"] ∅).
Proof.
  apply (updateAppointmentStatus_served healthy "2025-06-02T08:00:00.000Z"
           (panel [appointment_at 1 "2025-06-10" "09:00" "pending"] ∅)
           1 "accepted" db0
           (appointment_at 1 "2025-06-10" "09:00" "pending")
           (stored "2025-06-10" "09:00" "pending")).
  - reflexivity.
  - apply not_elem_of_empty.
  - reflexivity.
  - discriminate.
  - reflexivity.
  - reflexivity.
Defined.

End StatusExamples.

Section Cancel.

Implicit Types (drv : Supabase.Driver) (db : Supabase.DB) (now : string).

(** X12: cancelling through the panel frees the slot.  When the appointment
    holds its date and time (pending or accepted) in a table without double
    bookings, a confirmed [cancelAppointment] against the PATCH handler
    leaves it cancelled in the panel and in the table, no stored appointment
    holds that date and time any more, and the table is still without double
    bookings. *)
Theorem cancelAppointment_releases_slot drv now (this : AdminPanel.t) (i : Z)
    db (a : Appointment) (row : Supabase.Appointments.row) :
  AdminPanel.useAPI this = true ->
  AdminPanel.find_by_id i (AdminPanel.appointments this) = Some a ->
  Supabase.appointments db !! i = Some row ->
  Supabase.appointments_update_error drv = None ->
  occupies (Supabase.Appointments.status row) = true ->
  no_double_booking db ->
  let result :=
    AdminPanel.cancelAppointment (served_patch drv now) true this i db in
  (status <$> AdminPanel.find_by_id i (AdminPanel.appointments result.1.2))
  = Some "cancelled"
  /\ (Supabase.Appointments.status <$> Supabase.appointments result.2 !! i)
     = Some "cancelled"
  /\ ~ slot_taken result.2 (Supabase.Appointments.date row)
         (Supabase.Appointments.time row)
  /\ no_double_booking result.2.
Proof.
  intros Hapi Hf Hrow Herr Hocc Hndb result. subst result.
  unfold AdminPanel.cancelAppointment. cbn [negb]. rewrite Hf, Hapi.
  cbn [negb]. unfold served_patch.
  rewrite (patch_status_stored drv now db i "cancelled" row Herr Hrow).
  assert (Hok : forall j, response_ok (Server.respond 200 j) = true) by done.
  rewrite Hok.
  cbn [fst snd AdminPanel.with_appointments AdminPanel.appointments
       Supabase.appointments].
  split.
  { erewrite set_first_find; [done|done|exact Hf]. }
  split. { by rewrite lookup_insert_eq. }
  split.
  - intros (j & rj & Hj & Hd & Ht & Hst). cbn [Supabase.appointments] in Hj.
    destruct (decide (j = i)) as [->|Hne].
    + rewrite lookup_insert_eq in Hj. injection Hj as <-.
      cbn in Hst. by destruct Hst.
    + rewrite lookup_insert_ne in Hj by done.
      apply Hne. apply (Hndb j i rj row); try done.
      by apply occupies_true.
  - intros j k rj rk Hj Hk Hd Ht Hoj Hok'. cbn [Supabase.appointments] in Hj, Hk.
    destruct (decide (j = i)) as [->|Hji].
    { rewrite lookup_insert_eq in Hj. injection Hj as <-. done. }
    destruct (decide (k = i)) as [->|Hki].
    { rewrite lookup_insert_eq in Hk. injection Hk as <-. done. }
    rewrite lookup_insert_ne in Hj, Hk by done.
    by apply (Hndb j k rj rk).
Qed.

End Cancel.

Section CancelExamples.

Lemma cancelAppointment_releases_slot_witness :
  let result :=
    AdminPanel.cancelAppointment
      (served_patch healthy "2025-06-02T08:00:00.000Z") true
      (panel [appointment_at 1 "2025-06-10" "09:00" "pending"] ∅) 1 db0 in
  (status <$> AdminPanel.find_by_id 1 (AdminPanel.appointments result.1.2))
  = Some "cancelled"
  /\ (Supabase.Appointments.status <$> Supabase.appointments result.2 !! 1)
     = Some "cancelled"
  /\ ~ slot_taken result.2 "2025-06-10" "09:00"
  /\ no_double_booking result.2.
Proof.
  apply (cancelAppointment_releases_slot healthy "2025-06-02T08:00:00.000Z"
           (panel [appointment_at 1 "2025-06-10" "09:00" "pending"] ∅) 1 db0
           (appointment_at 1 "2025-06-10" "09:00" "pending")
           (stored "2025-06-10" "09:00" "pending"));
    try reflexivity.
  apply db0_no_double_booking.
Defined.

End CancelExamples.

Section DeleteAndViews.

Context {S : Type}.
Variable fetch_delete : Z -> S -> FetchResult * S.

Lemma find_filter_out (i : Z) (l : list Appointment) :
  AdminPanel.find_by_id i
    (List.filter (fun apt => negb (id apt =? i)) l) = None.
Proof.
  unfold AdminPanel.find_by_id.
  induction l as [|a l IH]; cbn [List.filter List.find]; [done|].
  destruct (id a =? i) eqn:E; cbn [negb List.find]; [done|].
  by rewrite E.
Qed.

(** X13: a confirmed [deleteAppointment] removes every appointment with that
    id from the panel's list and keeps the others in their order, whatever
    the server answers (also when the request fails); what it writes to local
    storage, if anything, is the list after the removal, and without the API
    it always writes it and sends nothing.  Without confirmation nothing
    happens. *)
Theorem deleteAppointment_removes (confirmed : bool) (this : AdminPanel.t)
    (i : Z) (srv : S) :
  let result := AdminPanel.deleteAppointment fetch_delete confirmed this i srv in
  if confirmed then
    AdminPanel.appointments result.1.2
    = List.filter (fun apt => negb (id apt =? i)) (AdminPanel.appointments this)
    /\ AdminPanel.find_by_id i (AdminPanel.appointments result.1.2) = None
    /\ AdminPanel.availability result.1.2 = AdminPanel.availability this
    /\ (AdminPanel.written result.1.1 = None
        \/ AdminPanel.written result.1.1
           = Some (AdminPanel.appointments result.1.2))
    /\ (AdminPanel.useAPI this = false ->
        result.2 = srv
        /\ AdminPanel.written result.1.1
           = Some (AdminPanel.appointments result.1.2))
  else result.1.2 = this /\ result.2 = srv.
Proof.
  intros result. subst result. unfold AdminPanel.deleteAppointment.
  destruct confirmed; cbn [negb]; [|done].
  destruct (AdminPanel.useAPI this); cbn [negb].
  - destruct (fetch_delete i srv) as [response srv'].
    destruct (match response with
              | Reply r => response_ok r
              | NetworkError _ => false
              end);
      cbn [fst snd AdminPanel.with_appointments AdminPanel.appointments
           AdminPanel.availability AdminPanel.written];
      rewrite find_filter_out;
      (split; [done|]); (split; [done|]); (split; [done|]);
      (split; [by (left + right)|]); by intros [=].
  - cbn [fst snd AdminPanel.with_appointments AdminPanel.appointments
           AdminPanel.availability AdminPanel.written].
    rewrite find_filter_out.
    split; [done|]. split; [done|]. split; [done|]. split; [by right|]. done.
Qed.

End DeleteAndViews.

Section Views.

Lemma filter_both {A} (p q : A -> bool) (l : list A) :
  List.filter p (List.filter q l) = List.filter (fun x => p x && q x) l.
Proof.
  induction l as [|a l IH]; cbn [List.filter]; [done|].
  destruct (q a); cbn [List.filter]; rewrite ?andb_true_r, ?andb_false_r.
  - destruct (p a); by rewrite IH.
  - done.
Qed.

Lemma filter_split {A} (p : A -> bool) (l : list A) :
  Permutation (List.filter p l ++ List.filter (fun x => negb (p x)) l) l.
Proof.
  induction l as [|a l IH]; cbn [List.filter]; [done|].
  destruct (p a); cbn [negb app].
  - by constructor.
  - rewrite <- Permutation_middle. by constructor.
Qed.

(** X14: the counters agree with the lists.  The pending, accepted and total
    counters of [updateStats] are the lengths of the lists that
    [renderAppointments] shows under the filters pending, accepted and all;
    the lists under past and all split the appointments between them; and the
    list under a status filter is the list under all restricted to that
    status. *)
Theorem updateStats_counts_views (now : Z) (this : AdminPanel.t) :
  AdminPanel.updateStats now this
  = {| AdminPanel.pendingCount :=
         length (AdminPanel.filteredAppointments now this "pending");
       AdminPanel.acceptedCount :=
         length (AdminPanel.filteredAppointments now this "accepted");
       AdminPanel.totalCount :=
         length (AdminPanel.filteredAppointments now this "all") |}
  /\ Permutation
       (AdminPanel.filteredAppointments now this "past"
        ++ AdminPanel.filteredAppointments now this "all")
       (AdminPanel.appointments this)
  /\ forall st, st <> "past" -> st <> "all" ->
       AdminPanel.filteredAppointments now this st
       = List.filter (fun apt => String.eqb (status apt) st)
           (AdminPanel.filteredAppointments now this "all").
Proof.
  split; [|split].
  - unfold AdminPanel.updateStats, AdminPanel.filteredAppointments.
    cbn [String.eqb Ascii.eqb Bool.eqb negb].
    by rewrite !filter_both.
  - unfold AdminPanel.filteredAppointments.
    cbn [String.eqb Ascii.eqb Bool.eqb negb].
    apply filter_split.
  - intros st H1 H2. unfold AdminPanel.filteredAppointments.
    destruct (String.eqb_spec st "past") as [|_]; [done|].
    destruct (String.eqb_spec st "all") as [|_]; [done|].
    cbn [String.eqb Ascii.eqb Bool.eqb negb].
    by rewrite filter_both.
Qed.

End Views.


Section ReadAvailability.

Implicit Types (drv : Supabase.Driver) (db : Supabase.DB) (now : string)
  (a : gmap string DayInfo) (d : string).

(** What [GET /api/availability] answers, date by date. *)
Lemma get_availability_lookup drv db (startDate endDate : option string) :
  Supabase.availability_select_error drv = None ->
  exists m,
    Server.get_availability drv db startDate endDate
    = Server.respond 200 (Server.AvailabilityJson m [])
    /\ forall d,
         m !! d
         = if Server.in_range startDate endDate d
           then Server.day_to_frontend <$> Supabase.availability db !! d
           else None.
Proof.
  intros He. unfold Server.get_availability. rewrite He.
  eexists. split; [reflexivity|]. intros d.
  set (l := List.filter _ _).
  assert (Hnd : NoDup (l.*1)).
  { apply NoDup_fst_filter, NoDup_fst_map_to_list. }
  destruct (foldl_insert_lookup Server.day_to_frontend l ∅ d Hnd) as [H1 H2].
  assert (Hin : forall x, (d, x) ∈ l
                <-> Supabase.availability db !! d = Some x
                    /\ Server.in_range startDate endDate d = true).
  { intros x. unfold l. rewrite list_elem_of_In, List.filter_In.
    rewrite <- list_elem_of_In, elem_of_map_to_list. done. }
  destruct (Server.in_range startDate endDate d) eqn:Er.
  - destruct (Supabase.availability db !! d) as [r|] eqn:Ed.
    + cbn. apply H1. by apply Hin.
    + cbn. rewrite H2; [apply lookup_empty|].
      intros (y & Hy1 & Hy2)%list_elem_of_fmap.
      destruct y as [k v]. cbn in Hy1. subst k.
      apply Hin in Hy2 as [Hy2 _]. congruence.
  - rewrite H2; [apply lookup_empty|].
    intros (y & Hy1 & Hy2)%list_elem_of_fmap.
    destruct y as [k v]. cbn in Hy1. subst k.
    apply Hin in Hy2 as [_ Hy2]. congruence.
Qed.

(** X15: what is saved is read back.  After [POST /api/availability] has
    stored a date of its payload, [GET /api/availability] answers that date
    with the day as the server normalises it ([timeSlots] an array, [closed]
    a boolean, [available] its negation), and every date outside the payload
    as it was stored before. *)
Theorem get_availability_after_post drv now db a d (day : DayInfo) :
  Supabase.availability_select_error drv = None ->
  a !! d = Some day -> accepted drv d = true ->
  exists m,
    Server.get_availability drv
      (Server.post_availability drv now db (Some a)).2 None None
    = Server.respond 200 (Server.AvailabilityJson m [])
    /\ m !! d = Some (sent_back day)
    /\ forall d', a !! d' = None ->
         m !! d' = Server.day_to_frontend <$> Supabase.availability db !! d'.
Proof.
  intros He Hd Hacc.
  destruct (get_availability_lookup drv
              (Server.post_availability drv now db (Some a)).2 None None He)
    as (m & Hm & Hlook).
  destruct (post_availability_served drv now db a) as (Hst & _).
  exists m. split; [exact Hm|]. split.
  - rewrite Hlook. cbn. rewrite Hst, Hd, Hacc. cbn.
    by rewrite day_to_frontend_row.
  - intros d' Hd'. rewrite Hlook. cbn. by rewrite Hst, Hd'.
Qed.

(** X16: [POST /api/availability] never deletes: the appointments are
    untouched, every date that had a row still has one, and the rows of the
    dates that the payload leaves out or that the server refuses are
    unchanged. *)
Theorem post_availability_never_deletes drv now db a :
  let db' := (Server.post_availability drv now db (Some a)).2 in
  Supabase.appointments db' = Supabase.appointments db
  /\ (forall d, is_Some (Supabase.availability db !! d) ->
        is_Some (Supabase.availability db' !! d))
  /\ (forall d, a !! d = None ->
        Supabase.availability db' !! d = Supabase.availability db !! d)
  /\ (forall d, accepted drv d = false ->
        Supabase.availability db' !! d = Supabase.availability db !! d).
Proof.
  intros db'. subst db'.
  destruct (post_availability_served drv now db a) as (Hst & Happ & _).
  split; [exact Happ|]. split; [|split].
  - intros d Hd. rewrite Hst. destruct (a !! d); [|done].
    by destruct (accepted drv d).
  - intros d Hd. by rewrite Hst, Hd.
  - intros d Hd. rewrite Hst, Hd. by destruct (a !! d).
Qed.

End ReadAvailability.

Section SaveFlows.

Implicit Types (drv : Supabase.Driver) (db : Supabase.DB) (now : string)
  (a : gmap string DayInfo) (d : string) (this : AdminPanel.t).

(** X17: removing the last slot of a date cannot be saved.  After
    [removeTimeSlot] has taken the only slot of a date, the panel no longer
    holds the date and [saveDayAvailability] posts the availability without
    it; the server keeps the date's row as it was, and
    [GET /api/availability] still answers the date with its old slots. *)
Theorem removed_day_stays_on_server drv now this d (t : string)
    (day : DayInfo) db (row : Supabase.Availability.row) :
  AdminPanel.isSavingAvailability this = false ->
  AdminPanel.useAPI this = true ->
  AdminPanel.availability this !! d = Some day ->
  timeSlots day = Some [t] ->
  Supabase.availability db !! d = Some row ->
  Supabase.availability_select_error drv = None ->
  let this1 := AdminPanel.removeTimeSlot this d t in
  let result := AdminPanel.saveDayAvailability (served drv now) this1 d db in
  AdminPanel.availability this1 !! d = None
  /\ AdminPanel.availability result.1.2 !! d = None
  /\ Supabase.availability result.2 !! d = Some row
  /\ exists m,
       Server.get_availability drv result.2 None None
       = Server.respond 200 (Server.AvailabilityJson m [])
       /\ m !! d = Some (Server.day_to_frontend row).
Proof.
  intros Hs Hapi Hday Hslots Hrow He this1 result.
  assert (H1 : this1
               = (if bool_decide (AdminPanel.expandedDate this = Some d)
                  then AdminPanel.with_expandedDate
                         (AdminPanel.with_availability this
                            (delete d (AdminPanel.availability this))) None
                  else AdminPanel.with_availability this
                         (delete d (AdminPanel.availability this)))).
  { subst this1. unfold AdminPanel.removeTimeSlot. rewrite Hday. cbn [default].
    change (Datatypes.id day) with day.
    rewrite Hslots. cbn [default List.filter Datatypes.id].
    rewrite String.eqb_refl. reflexivity. }
  assert (Hav1 : AdminPanel.availability this1
                 = delete d (AdminPanel.availability this)).
  { rewrite H1. by destruct (bool_decide _). }
  assert (Hs1 : AdminPanel.isSavingAvailability this1 = false).
  { rewrite H1. by destruct (bool_decide _). }
  assert (Hapi1 : AdminPanel.useAPI this1 = true).
  { rewrite H1. by destruct (bool_decide _). }
  assert (Hnone : AdminPanel.availability this1 !! d = None).
  { rewrite Hav1. apply lookup_delete_eq. }
  split; [exact Hnone|].
  subst result. unfold AdminPanel.saveDayAvailability.
  rewrite Hs1, Hnone.
  set (this2 := AdminPanel.with_availability this1
                  (delete d (AdminPanel.availability this1))).
  cbv iota.
  assert (Hs2 : AdminPanel.isSavingAvailability this2 = false) by exact Hs1.
  assert (Hapi2 : AdminPanel.useAPI this2 = true) by exact Hapi1.
  assert (Hnone2 : AdminPanel.availability this2 !! d = None).
  { subst this2. cbn. apply lookup_delete_eq. }
  destruct (saveAvailability_served drv now this2
              (AdminPanel.availability this2) db Hs2)
    as (_ & _ & _ & Hserved).
  destruct (Hserved Hapi2) as (Hdb & Hsome & Hno).
  destruct (post_availability_served drv now db (AdminPanel.availability this2))
    as (Hst & _).
  destruct (AdminPanel.saveAvailability (served drv now) this2
              (AdminPanel.availability this2) db) as [[success this3] db'] eqn:E.
  cbn [fst snd] in *.
  assert (Hdb' : Supabase.availability db' !! d = Some row).
  { rewrite Hdb, Hst, Hnone2. exact Hrow. }
  split; [|split; [exact Hdb'|]].
  - assert (Hcase : some_accepted drv (AdminPanel.availability this2)
                    \/ ~ some_accepted drv (AdminPanel.availability this2)).
    { destruct (List.filter (fun e => accepted drv e.1)
                  (map_to_list (AdminPanel.availability this2))) eqn:El.
      - right. intros H%filter_accepted_nonempty. by apply H.
      - left. apply filter_accepted_nonempty. by rewrite El. }
    destruct Hcase as [Hc|Hc].
    + destruct (Hsome Hc) as [_ Hl]. by rewrite Hl, Hnone2.
    + by rewrite (Hno Hc).
  - destruct (get_availability_lookup drv db' None None He) as (m & Hm & Hl).
    exists m. split; [exact Hm|]. rewrite Hl. cbn. by rewrite Hdb'.
Qed.

End SaveFlows.

Section SaveOutcomes.

Implicit Types (drv : Supabase.Driver) (db : Supabase.DB) (now : string)
  (a : gmap string DayInfo) (d : string) (this : AdminPanel.t).

(** X18: a partly failed save looks like a success.  When the server stores
    some date of the payload and refuses another one, [saveAvailability]
    reports success, the panel no longer holds the refused date, and the
    server's row for it (if any) is the old one. *)
Theorem saveAvailability_forgets_refused drv now this a db d (day : DayInfo) :
  AdminPanel.isSavingAvailability this = false ->
  AdminPanel.useAPI this = true ->
  some_accepted drv a ->
  a !! d = Some day -> accepted drv d = false ->
  let result := AdminPanel.saveAvailability (served drv now) this a db in
  result.1.1 = true
  /\ AdminPanel.availability result.1.2 !! d = None
  /\ Supabase.availability result.2 !! d = Supabase.availability db !! d.
Proof.
  intros Hs Hapi Hsome Hd Hacc result. subst result.
  destruct (saveAvailability_served drv now this a db Hs)
    as (_ & _ & _ & Hserved).
  destruct (Hserved Hapi) as (Hdb & Hok & _).
  destruct (Hok Hsome) as [Hsucc Hl].
  destruct (post_availability_served drv now db a) as (Hst & _).
  split; [exact Hsucc|]. split.
  - by rewrite Hl, Hd, Hacc.
  - by rewrite Hdb, Hst, Hd, Hacc.
Qed.

(** X19: whatever [fetch] gives, [saveAvailability] leaves the saving flag
    as it found it and the appointments untouched; while a save is in
    progress it changes nothing and sends nothing; and when it reports a
    failure the panel holds the data it was asked to save. *)
Theorem saveAvailability_resets_flag {S : Type}
    (fetch : gmap string DayInfo -> S -> FetchResult * S) this a (srv : S) :
  let result := AdminPanel.saveAvailability fetch this a srv in
  AdminPanel.isSavingAvailability result.1.2
  = AdminPanel.isSavingAvailability this
  /\ AdminPanel.appointments result.1.2 = AdminPanel.appointments this
  /\ (AdminPanel.isSavingAvailability this = true ->
      result = (false, this, srv))
  /\ (AdminPanel.isSavingAvailability this = false -> result.1.1 = false ->
      AdminPanel.availability result.1.2 = a).
Proof.
  intros result. subst result. unfold AdminPanel.saveAvailability.
  destruct (AdminPanel.isSavingAvailability this) eqn:Hs; [done|].
  destruct (AdminPanel.useAPI this); cbn [negb]; [|done].
  destruct (fetch a srv) as [response srv'].
  destruct (match response with
            | Reply r =>
                if response_ok r
                then match Server.json r with
                     | Server.AvailabilityJson a0 _ => Some a0
                     | _ => None
                     end
                else None
            | NetworkError _ => None
            end); cbn; done.
Qed.

End SaveOutcomes.

Section Frames.

Implicit Types (drv : Supabase.Driver) (db : Supabase.DB) (now : string).

(** X20: a status change through [PATCH /api/appointments/:id] (the body
    [{ status }] that the admin page sends) changes one row at most: the
    availability table and every other appointment are untouched, no
    appointment is created or deleted, a response outside 2xx means that
    nothing was changed, and an unknown id gets such a response.  The row
    itself keeps its customer, service, price, duration, date, time and
    creation stamp: it is either unchanged or carries the new status and the
    new update stamp. *)
Theorem patch_appointment_frame drv now db (i : Z) (st : string) :
  let result := Server.patch_appointment drv now db i (status_patch st) in
  Supabase.availability result.2 = Supabase.availability db
  /\ dom (Supabase.appointments result.2) = dom (Supabase.appointments db)
  /\ (forall j, j <> i ->
        Supabase.appointments result.2 !! j = Supabase.appointments db !! j)
  /\ (response_ok result.1 = false -> result.2 = db)
  /\ (Supabase.appointments db !! i = None -> response_ok result.1 = false)
  /\ (forall row, Supabase.appointments db !! i = Some row ->
        exists row',
          Supabase.appointments result.2 !! i = Some row'
          /\ Supabase.Appointments.customer_name row'
             = Supabase.Appointments.customer_name row
          /\ Supabase.Appointments.customer_email row'
             = Supabase.Appointments.customer_email row
          /\ Supabase.Appointments.customer_phone row'
             = Supabase.Appointments.customer_phone row
          /\ Supabase.Appointments.service row'
             = Supabase.Appointments.service row
          /\ Supabase.Appointments.price row'
             = Supabase.Appointments.price row
          /\ Supabase.Appointments.duration row'
             = Supabase.Appointments.duration row
          /\ Supabase.Appointments.date row' = Supabase.Appointments.date row
          /\ Supabase.Appointments.time row' = Supabase.Appointments.time row
          /\ Supabase.Appointments.include_in_analytics row'
             = Supabase.Appointments.include_in_analytics row
          /\ Supabase.Appointments.created_at row'
             = Supabase.Appointments.created_at row
          /\ (row' = row
              \/ (Supabase.Appointments.status row' = st
                  /\ Supabase.Appointments.updated_at row' = now))).
Proof.
  intros result. subst result.
  unfold Server.patch_appointment, Supabase.update_appointment.
  destruct (Supabase.appointments_update_error drv).
  { cbn. do 5 (split; [done|]).
    intros row Hrow. exists row. repeat split; [exact Hrow|by left]. }
  destruct (Supabase.appointments db !! i) as [r|] eqn:Er.
  - cbn [fst snd Supabase.single Supabase.ok Supabase.error Supabase.data
         Supabase.availability Supabase.appointments].
    split; [done|]. split; [|split; [|split; [done|split; [done|]]]].
    + rewrite dom_insert_L.
      assert (Hi : i ∈ dom (Supabase.appointments db))
        by (apply elem_of_dom; eauto).
      apply set_eq. intros x. rewrite elem_of_union, elem_of_singleton.
      split; [by intros [->|?]|by right].
    + intros j Hj. by rewrite lookup_insert_ne.
    + intros row [= <-]. eexists. rewrite lookup_insert_eq.
      split; [reflexivity|]. cbn. repeat split. by right.
  - unfold Supabase.single.
    destruct (Supabase.single_no_row drv); cbn [fst snd];
      (do 4 (split; [done|])); (split; [done|]); intros row Hrow; done.
Qed.

(** X21: [POST /api/appointments] only ever adds: the availability table
    and every stored appointment are untouched; without a 201 the tables are
    unchanged, and with a 201 exactly one row was added under an id that
    was free, pending, for the requested date and time, and the response
    carries that row. *)
Theorem post_appointments_frame drv now db (body : Server.Body.t) :
  let result := Server.post_appointments drv now db body in
  Supabase.availability result.2 = Supabase.availability db
  /\ (forall j r, Supabase.appointments db !! j = Some r ->
        Supabase.appointments result.2 !! j = Some r)
  /\ (Server.code result.1 <> 201 -> result.2 = db)
  /\ (Server.code result.1 = 201 ->
      exists i r,
        Supabase.appointments db !! i = None
        /\ Supabase.appointments result.2 = <[i := r]> (Supabase.appointments db)
        /\ Supabase.Appointments.status r = "pending"
        /\ Supabase.Appointments.date r = Server.Body.date body
        /\ Supabase.Appointments.time r = Server.Body.time body
        /\ Server.json result.1 = Server.AppointmentJson (Server.to_frontend (i, r))).
Proof.
  intros result. subst result.
  destruct (post_appointments_inv drv now db body)
    as [[Hdb Hcode]|(c & Hc & _ & _ & _ & E)].
  - rewrite Hdb. repeat split; try done.
  - rewrite E. cbn [fst snd Supabase.availability Supabase.appointments
                    Server.respond Server.code Server.json].
    assert (Hfresh : Supabase.appointments db
                     !! fresh (dom (Supabase.appointments db)) = None).
    { apply not_elem_of_dom, is_fresh. }
    split; [done|]. split; [|split; [done|]].
    + intros j r Hj. rewrite lookup_insert_ne; [done|].
      intros <-. congruence.
    + intros _. eexists _, _. repeat split; [exact Hfresh|..]; reflexivity.
Qed.

End Frames.


Section Lifecycle.

Implicit Types (drv : Supabase.Driver) (db : Supabase.DB)
  (body : Server.Body.t).

(** X22: the life of a slot on the server.  A complete request for a free
    slot of an open date is stored with 201; the same request again is
    refused with "This time slot is already booked" and changes nothing;
    and once the stored appointment is given any status other than pending
    and accepted (declined, cancelled), the request is accepted again. *)
Theorem booking_lifecycle drv (now1 now2 now3 now4 : string) db body
    (c : Customer) :
  Server.Body.customer body = Some c ->
  customer_given body -> fields_given body ->
  date_open db (Server.Body.date body) ->
  queries_succeed drv ->
  Supabase.appointments_update_error drv = None ->
  ~ slot_taken db (Server.Body.date body) (Server.Body.time body) ->
  let i := fresh (dom (Supabase.appointments db)) in
  let booked := Server.post_appointments drv now1 db body in
  Server.code booked.1 = 201
  /\ Server.post_appointments drv now2 booked.2 body
     = (Server.respond 400
          (Server.ErrorJson "This time slot is already booked" None), booked.2)
  /\ forall st, occupies st = false ->
       let released :=
         Server.patch_appointment drv now3 booked.2 i (status_patch st) in
       response_ok released.1 = true
       /\ Server.code (Server.post_appointments drv now4 released.2 body).1
          = 201.
Proof.
  intros Hc Hcg Hfg Hopen Hq Hupd Hfree i booked.
  assert (Eb : booked
               = (Server.respond 201
                    (Server.AppointmentJson
                       (Server.to_frontend (i, row_of now1 c body))),
                  {| Supabase.availability := Supabase.availability db;
                     Supabase.appointments :=
                       <[i := row_of now1 c body]>
                         (Supabase.appointments db) |}))
    by (by apply post_created).
  rewrite Eb. cbn [fst snd].
  set (db1 := {| Supabase.availability := Supabase.availability db;
                 Supabase.appointments :=
                   <[i := row_of now1 c body]> (Supabase.appointments db) |}).
  assert (Hopen1 : date_open db1 (Server.Body.date body)) by exact Hopen.
  destruct Hq as (Hq1 & Hq2 & Hq3).
  split; [done|]. split.
  - apply post_slot_taken; try done.
    exists i, (row_of now1 c body). cbn. rewrite lookup_insert_eq. auto.
  - intros st Hst.
    assert (Hi : Supabase.appointments db1 !! i = Some (row_of now1 c body)).
    { cbn. apply lookup_insert_eq. }
    rewrite (patch_status_stored drv now3 db1 i st _ Hupd Hi).
    cbn [fst snd]. split; [reflexivity|].
    set (db2 := {| Supabase.availability := _; Supabase.appointments := _ |}).
    assert (E2 : (Server.post_appointments drv now4 db2 body).1
                 = Server.respond 201
                     (Server.AppointmentJson
                        (Server.to_frontend
                           (fresh (dom (Supabase.appointments db2)),
                            row_of now4 c body)))).
    { rewrite (post_created drv now4 db2 body c); try done.
      intros (j & rj & Hj & Hd & Ht & Ho).
      subst db2. cbn [Supabase.appointments] in Hj.
      destruct (decide (j = i)) as [->|Hne].
      - rewrite lookup_insert_eq in Hj. injection Hj as <-.
        cbn in Ho. apply (proj2 (occupies_true st)) in Ho. congruence.
      - rewrite lookup_insert_ne in Hj by done.
        unfold db1 in Hj. cbn [Supabase.appointments] in Hj.
        rewrite lookup_insert_ne in Hj by done.
        apply Hfree. by exists j, rj. }
    by rewrite E2.
Qed.

End Lifecycle.

Section PageAndServer.

Implicit Types (drv : Supabase.Driver) (db : Supabase.DB)
  (this : BookingSystem.t) (d t : string).

Lemma order_insert_perm x l :
  Permutation (Server.order_insert x l) (x :: l).
Proof.
  induction l as [|y l IH]; cbn [Server.order_insert]; [done|].
  destruct (Server.earlier x y); [done|].
  rewrite IH. apply perm_swap.
Qed.

Lemma order_by_date_time_perm l :
  Permutation (Server.order_by_date_time l) l.
Proof.
  unfold Server.order_by_date_time.
  induction l as [|x l IH]; cbn [foldr]; [done|].
  rewrite order_insert_perm. by constructor.
Qed.

(** After loading the appointments from the server, the page takes a slot for
    booked exactly when a stored appointment holds it. *)
Lemma isTimeSlotBooked_loaded drv db this stored d t :
  Supabase.appointments_select_error drv = None ->
  BookingSystem.useAPI this = true ->
  BookingSystem.isTimeSlotBooked
    (BookingSystem.fetchExistingAppointments this
       (Some (Server.get_appointments drv db)) stored) d t = true
  <-> slot_taken db d t.
Proof.
  intros He Hapi.
  unfold BookingSystem.fetchExistingAppointments, Server.get_appointments.
  rewrite Hapi, He. cbn [negb].
  unfold BookingSystem.isTimeSlotBooked.
  cbn [BookingSystem.with_existingAppointments BookingSystem.existingAppointments].
  rewrite existsb_exists. split.
  - intros (apt & Hin & Hb).
    apply List.filter_In in Hin as [Hin _].
    apply in_map_iff in Hin as ([i r] & <- & Hin).
    apply list_elem_of_In in Hin.
    rewrite order_by_date_time_perm in Hin.
    apply elem_of_map_to_list in Hin.
    cbn in Hb.
    apply andb_true_iff in Hb as [[Hd Ht]%andb_true_iff Hs].
    apply String.eqb_eq in Hd, Ht.
    exists i, r. repeat split; try done.
    apply orb_true_iff in Hs. by rewrite !String.eqb_eq in Hs.
  - intros (i & r & Hl & Hd & Ht & Hs).
    exists (Server.to_frontend (i, r)).
    assert (Hocc : (String.eqb (Supabase.Appointments.status r) "pending"
                    || String.eqb (Supabase.Appointments.status r) "accepted")
                   = true).
    { apply orb_true_iff. by rewrite !String.eqb_eq. }
    split.
    + apply List.filter_In. split; [|exact Hocc].
      apply in_map. apply list_elem_of_In.
      rewrite order_by_date_time_perm. by apply elem_of_map_to_list.
    + cbn. rewrite Hd, Ht, !String.eqb_refl. exact Hocc.
Qed.

Lemma availability_loaded_lookup drv db this d :
  availability_loaded drv db this ->
  BookingSystem.availability this !! d
  = Server.day_to_frontend <$> Supabase.availability db !! d.
Proof.
  unfold availability_loaded. intros H.
  assert (He : Supabase.availability_select_error drv = None).
  { unfold Server.get_availability in H.
    by destruct (Supabase.availability_select_error drv). }
  destruct (get_availability_lookup drv db None None He) as (m & Hm & Hl).
  rewrite Hm in H. injection H as <-. apply Hl.
Qed.

(** X23: the booking page and the server agree.  Let the page hold the
    availability that [GET /api/availability] answers and load its
    appointments from [GET /api/appointments].  Then the request that the
    page posts for a slot it offers, with a complete customer, is stored with
    201; and for a slot the page takes for booked the server stores nothing
    and, when the date is open, answers "This time slot is already
    booked". *)
Theorem offered_slot_is_bookable drv (now : string) db this
    (stored : option (list Appointment)) d t (c : Customer) :
  queries_succeed drv ->
  BookingSystem.useAPI this = true ->
  availability_loaded drv db this ->
  d <> "" -> t <> "" -> (BookingSystem.serviceData this).1.1 <> "" ->
  name c <> "" -> email c <> "" -> phone c <> "" ->
  let page :=
    BookingSystem.fetchExistingAppointments this
      (Some (Server.get_appointments drv db)) stored in
  let answer :=
    Server.post_appointments drv now db (BookingSystem.bookingData page c d t)
  in
  (t ∈ BookingSystem.getAvailableTimeSlots page d -> Server.code answer.1 = 201)
  /\ (BookingSystem.isTimeSlotBooked page d t = true ->
      Server.code answer.1 <> 201 /\ answer.2 = db
      /\ (date_open db d ->
          answer.1
          = Server.respond 400
              (Server.ErrorJson "This time slot is already booked" None))).
Proof.
  intros (Hq1 & Hq2 & Hq3) Hapi Hload Hd Ht Hsvc Hn He Hp page answer.
  assert (Hav : BookingSystem.availability page = BookingSystem.availability this).
  { subst page. unfold BookingSystem.fetchExistingAppointments.
    rewrite Hapi. cbn [negb]. unfold Server.get_appointments. by rewrite Hq2. }
  assert (Hsd : BookingSystem.serviceData page = BookingSystem.serviceData this).
  { subst page. unfold BookingSystem.fetchExistingAppointments.
    rewrite Hapi. cbn [negb]. unfold Server.get_appointments. by rewrite Hq2. }
  pose proof (isTimeSlotBooked_loaded drv db this stored d t Hq2 Hapi) as Hbooked.
  fold page in Hbooked.
  set (body := BookingSystem.bookingData page c d t) in *.
  assert (Hcg : customer_given body).
  { exists {| name := name c; email := email c; phone := phone c |}.
    by repeat split. }
  assert (Hfg : fields_given body).
  { unfold fields_given, body. cbn. by rewrite Hsd. }
  split.
  - intros Hin. unfold BookingSystem.getAvailableTimeSlots in Hin.
    rewrite Hav, (availability_loaded_lookup drv db this d Hload) in Hin.
    destruct (Supabase.availability db !! d) as [row|] eqn:Erow;
      [|by apply elem_of_nil in Hin].
    cbn [fmap option_fmap option_map] in Hin.
    destruct (bool_decide (closed (Server.day_to_frontend row) = Some true))
      eqn:Ecl; [by apply elem_of_nil in Hin|].
    apply bool_decide_eq_false in Ecl.
    apply list_elem_of_In, List.filter_In in Hin as [_ Hfree].
    apply negb_true_iff in Hfree.
    assert (Hopen : date_open db (Server.Body.date body)).
    { exists row. split; [exact Erow|]. intros Hc. apply Ecl. cbn. by rewrite Hc. }
    assert (Hnt : ~ slot_taken db (Server.Body.date body) (Server.Body.time body)).
    { intros Htk. apply Hbooked in Htk. congruence. }
    subst answer.
    by rewrite (post_created drv now db body _ eq_refl Hcg Hfg Hopen
                  (conj Hq1 (conj Hq2 Hq3)) Hnt).
  - intros Hb. apply Hbooked in Hb.
    destruct (post_rejects_taken drv now db body Hb) as [Hcode Hdb].
    split; [exact Hcode|]. split; [exact Hdb|].
    intros Hopen. subst answer.
    by rewrite (post_slot_taken drv now db body Hcg Hfg Hopen Hq1 Hq2 Hb).
Qed.

Lemma offered_slot_is_bookable_witness :
  let this := page (<["2025-06-10" := open_day ["09:00"; "09:45"]]> ∅) [] in
  let page :=
    BookingSystem.fetchExistingAppointments this
      (Some (Server.get_appointments healthy db0)) None in
  let answer :=
    Server.post_appointments healthy "2025-06-02T08:00:00.000Z" db0
      (BookingSystem.bookingData page ada "2025-06-10" "09:45") in
  ("09:45" ∈ BookingSystem.getAvailableTimeSlots page "2025-06-10" ->
   Server.code answer.1 = 201)
  /\ (BookingSystem.isTimeSlotBooked page "2025-06-10" "09:45" = true ->
      Server.code answer.1 <> 201 /\ answer.2 = db0
      /\ (date_open db0 "2025-06-10" ->
          answer.1
          = Server.respond 400
              (Server.ErrorJson "This time slot is already booked" None))).
Proof.
  apply (offered_slot_is_bookable healthy "2025-06-02T08:00:00.000Z" db0
           (page (<["2025-06-10" := open_day ["09:00"; "09:45"]]> ∅) [])
           None "2025-06-10" "09:45" ada);
    try discriminate; try reflexivity.
  apply healthy_queries.
Defined.

End PageAndServer.


Section PastDates.

Lemma midnight_of (t : Z) :
  Z.abs t <= 8640000000000000 ->
  Js.setHours0 (Some t) = Some (t / Js.msPerDay * Js.msPerDay).
Proof.
  intros Ht. unfold Js.setHours0, Js.MakeDate, Js.MakeTime.
  rewrite Z.add_0_r.
  rewrite TimeClip_in_range; [done|].
  unfold Js.msPerDay in *.
  pose proof (Z.mod_pos_bound t 86400000 ltac:(lia)).
  pose proof (Z.div_mod t 86400000 ltac:(lia)).
  assert (-100000000 <= t / 86400000).
  { apply Z.div_le_lower_bound; lia. }
  lia.
Qed.

Lemma TimeClip_Some (x t : Z) :
  Js.TimeClip x = Some t -> x = t /\ Z.abs t <= 8640000000000000.
Proof.
  unfold Js.TimeClip. destruct (Z.abs x <=? 8640000000000000) eqn:E; [|done].
  intros [= <-]. split; [done|lia].
Qed.

(** X24: the two notions of past differ on today.  For a date, taken at its
    midnight, the copy dialog's test [isPastDate] holds exactly when the day
    lies before today, while [isPastAppointment] holds when the day is today
    or earlier: time slots can be copied to today although today's
    appointments count as past. *)
Theorem isPastDate_excludes_today (now : Z) (apt : Appointment) (t : Z) :
  clock_in_range now ->
  time apt = "00:00" ->
  AdminPanel.appointmentDate apt = Some t ->
  (AdminPanel.isPastDate now (date apt) = true
   <-> t / Js.msPerDay < now / Js.msPerDay)
  /\ (AdminPanel.isPastAppointment now apt = true
      <-> t / Js.msPerDay <= now / Js.msPerDay).
Proof.
  intros Hr Htime Ht. split.
  - unfold AdminPanel.appointmentDate in Ht. rewrite Htime in Ht.
    change (Js.nth_number (Js.split ":" "00:00") 0) with (Some 0) in Ht.
    change (Js.nth_number (Js.split ":" "00:00") 1) with (Some 0) in Ht.
    unfold AdminPanel.isPastDate. rewrite Ht.
    assert (Habs : Z.abs t <= 8640000000000000).
    { unfold Js.new_Date in Ht.
      repeat match type of Ht with
             | match ?x with _ => _ end = _ => destruct x; try discriminate Ht
             end.
      all: by apply TimeClip_Some in Ht as [_ ?]. }
    rewrite (midnight_of t Habs).
    rewrite midnight_of by (unfold clock_in_range, Js.msPerDay in Hr; lia).
    cbn [Js.date_lt]. rewrite Z.ltb_lt. unfold Js.msPerDay. lia.
  - rewrite (isPastAppointment_iff now apt Hr). split.
    + intros (t' & E & H). rewrite Ht in E. injection E as <-.
      by apply before_tomorrow_same_day.
    + intros H. exists t. split; [done|]. by apply same_day_before_tomorrow.
Qed.

Lemma isPastDate_excludes_today_witness :
  (AdminPanel.isPastDate morning "2025-06-10" = true
   <-> (20249 * Js.msPerDay) / Js.msPerDay < morning / Js.msPerDay)
  /\ (AdminPanel.isPastAppointment morning
        (appointment_at 7 "2025-06-10" "00:00" "pending") = true
      <-> (20249 * Js.msPerDay) / Js.msPerDay <= morning / Js.msPerDay).
Proof.
  apply (isPastDate_excludes_today morning
           (appointment_at 7 "2025-06-10" "00:00" "pending")
           (20249 * Js.msPerDay)).
  - unfold clock_in_range, morning, Js.msPerDay. lia.
  - reflexivity.
  - vm_compute. reflexivity.
Defined.

End PastDates.

Section SlotRoundTrip.

Lemma panel_slots_removeTimeSlot (this : AdminPanel.t) (d t : string) :
  panel_slots (AdminPanel.removeTimeSlot this d t) d
  = List.filter (fun slot => negb (String.eqb slot t)) (panel_slots this d).
Proof.
  unfold panel_slots at 1. rewrite removeTimeSlot_availability.
  assert (Hs : default [] (timeSlots
             (default {| available := Some true; timeSlots := Some [];
                         closed := None |}
                (AdminPanel.availability this !! d)))
          = panel_slots this d).
  { unfold panel_slots. by destruct (AdminPanel.availability this !! d). }
  rewrite Hs.
  destruct (List.filter _ _) as [|s rest].
  - by rewrite lookup_delete_eq.
  - by rewrite lookup_insert_eq.
Qed.

Lemma ascending_unique (l1 l2 : list string) :
  ascending l1 -> ascending l2 -> Permutation l1 l2 -> l1 = l2.
Proof.
  unfold ascending. intros H1 H2.
  apply Sorted_StronglySorted in H1; [|intros x y z; apply string_leb_trans].
  apply Sorted_StronglySorted in H2; [|intros x y z; apply string_leb_trans].
  revert l2 H2.
  induction H1 as [|a l1 Hl1 IH Ha]; intros l2 H2 Hp.
  - by apply Permutation_nil in Hp.
  - destruct H2 as [|b l2 Hl2 Hb].
    { symmetry in Hp. by apply Permutation_nil in Hp. }
    assert (a = b) as <-.
    { destruct (decide (a = b)) as [|Hne]; [done|].
      assert (Ha2 : a ∈ b :: l2) by (rewrite <- Hp; by left).
      assert (Hb1 : b ∈ a :: l1) by (rewrite Hp; by left).
      apply elem_of_cons in Ha2 as [|Ha2]; [done|].
      apply elem_of_cons in Hb1 as [|Hb1]; [done|].
      rewrite List.Forall_forall in Ha, Hb.
      apply String.leb_antisym.
      - apply Ha. by apply list_elem_of_In.
      - apply Hb. by apply list_elem_of_In. }
    f_equal. apply IH; [done|]. by apply Permutation_cons_inv in Hp.
Qed.

Lemma filter_absent (t : string) (l : list string) :
  t ∉ l -> List.filter (fun slot => negb (String.eqb slot t)) l = l.
Proof.
  induction l as [|x l IH]; [done|].
  intros [Hne Hl]%not_elem_of_cons. cbn [List.filter].
  destruct (String.eqb_spec x t) as [->|_]; [done|].
  cbn [negb]. by rewrite IH.
Qed.

Lemma filter_perm {A} (f : A -> bool) (l1 l2 : list A) :
  Permutation l1 l2 -> Permutation (List.filter f l1) (List.filter f l2).
Proof.
  induction 1 as [|x l1 l2 _ IH|x y l|l1 l2 l3 _ IH1 _ IH2];
    cbn [List.filter].
  - done.
  - destruct (f x); [by constructor|done].
  - destruct (f x), (f y); try done. apply perm_swap.
  - by rewrite IH1.
Qed.

(** X25: removing a slot that was just added gives the old slots back, when
    these were in ascending order and did not contain the new time. *)
Theorem confirmAddTimeSlot_removeTimeSlot (this : AdminPanel.t) (d : string)
    (hourValue minuteValue ampmValue : string) :
  d <> "" ->
  let time24 := AdminPanel.convertTo24Hour hourValue minuteValue ampmValue in
  time24 ∉ panel_slots this d ->
  ascending (panel_slots this d) ->
  panel_slots
    (AdminPanel.removeTimeSlot
       (AdminPanel.confirmAddTimeSlot this (Some d) hourValue minuteValue
          ampmValue).2 d time24) d
  = panel_slots this d.
Proof.
  intros Hd time24 Hnin Hasc.
  rewrite panel_slots_removeTimeSlot.
  assert (Hnew : panel_slots
                   (AdminPanel.confirmAddTimeSlot this (Some d) hourValue
                      minuteValue ampmValue).2 d
                 = Js.sort (panel_slots this d ++ [time24])).
  { unfold AdminPanel.confirmAddTimeSlot.
    assert (Ht : Js.truthy_str d = true) by (by apply truthy_str_true).
    rewrite Ht. cbn [negb].
    change (Js.padStart 2 "0" (Js.num_to_string _) +:+ ":" +:+ minuteValue)
      with time24.
    assert (Hs : default [] (timeSlots
               (default {| available := Some true; timeSlots := Some [];
                           closed := None |}
                  (AdminPanel.availability this !! d)))
            = panel_slots this d).
    { unfold panel_slots. by destruct (AdminPanel.availability this !! d). }
    rewrite Hs. rewrite bool_decide_eq_false_2 by done.
    unfold panel_slots at 1. cbn. by rewrite lookup_insert_eq. }
  rewrite Hnew.
  apply ascending_unique.
  - apply ascending_filter, sort_ascending.
  - exact Hasc.
  - rewrite (filter_perm _ _ _ (sort_perm _)).
    rewrite List.filter_app. cbn [List.filter].
    rewrite String.eqb_refl. cbn [negb].
    rewrite app_nil_r. by rewrite filter_absent.
Qed.

Lemma confirmAddTimeSlot_removeTimeSlot_witness :
  panel_slots
    (AdminPanel.removeTimeSlot
       (AdminPanel.confirmAddTimeSlot panel0 (Some "2025-06-10") "9" "15"
          "AM").2 "2025-06-10" "09:15") "2025-06-10"
  = panel_slots panel0 "2025-06-10".
Proof.
  apply (confirmAddTimeSlot_removeTimeSlot panel0 "2025-06-10" "9" "15" "AM").
  - discriminate.
  - vm_compute. intros H. 
    repeat (apply elem_of_cons in H as [H|H]; [discriminate H|]).
    by apply elem_of_nil in H.
  - vm_compute. repeat constructor.
Defined.

End SlotRoundTrip.

(** ** Examples of the further properties *)

Section FurtherExamples.

Lemma confirmAddTimeSlot_sorted_witness :
  let time24 := AdminPanel.convertTo24Hour "9" "15" "AM" in
  let result :=
    AdminPanel.confirmAddTimeSlot panel0 (Some "2025-06-12") "9" "15" "AM" in
  (time24 ∈ panel_slots panel0 "2025-06-12" ->
   result = (AdminPanel.SlotExists, panel0))
  /\ (time24 ∉ panel_slots panel0 "2025-06-12" ->
      result.1 = AdminPanel.SlotAdded
      /\ Permutation (panel_slots result.2 "2025-06-12")
           (time24 :: panel_slots panel0 "2025-06-12")
      /\ ascending (panel_slots result.2 "2025-06-12")
      /\ (closed <$> AdminPanel.availability result.2 !! "2025-06-12")
         = Some None
      /\ (forall d', d' <> "2025-06-12" ->
            AdminPanel.availability result.2 !! d'
            = AdminPanel.availability panel0 !! d')
      /\ AdminPanel.expandedDate result.2 = Some "2025-06-12"
      /\ AdminPanel.appointments result.2 = AdminPanel.appointments panel0).
Proof.
  apply (confirmAddTimeSlot_sorted panel0 "2025-06-12" "9" "15" "AM").
  discriminate.
Defined.

Lemma booking_lifecycle_witness :
  let body := request (Some ada) "2025-06-10" "09:45" None in
  let i := fresh (dom (Supabase.appointments db0)) in
  let booked := Server.post_appointments healthy "t1" db0 body in
  Server.code booked.1 = 201
  /\ Server.post_appointments healthy "t2" booked.2 body
     = (Server.respond 400
          (Server.ErrorJson "This time slot is already booked" None), booked.2)
  /\ forall st, occupies st = false ->
       let released :=
         Server.patch_appointment healthy "t3" booked.2 i (status_patch st) in
       response_ok released.1 = true
       /\ Server.code (Server.post_appointments healthy "t4" released.2 body).1
          = 201.
Proof.
  apply (booking_lifecycle healthy "t1" "t2" "t3" "t4" db0
           (request (Some ada) "2025-06-10" "09:45" None) ada).
  - reflexivity.
  - apply ada_given.
  - apply request_fields_given.
  - apply db0_open.
  - apply healthy_queries.
  - reflexivity.
  - apply slot_released_not_taken, db0_released.
Defined.

Lemma get_availability_after_post_witness :
  exists m,
    Server.get_availability healthy
      (Server.post_availability healthy "t1" db0
         (Some (<["2025-06-11" := closed_day ["10:00"]]> ∅))).2 None None
    = Server.respond 200 (Server.AvailabilityJson m [])
    /\ m !! "2025-06-11" = Some (sent_back (closed_day ["10:00"]))
    /\ forall d',
         (<["2025-06-11" := closed_day ["10:00"]]> ∅ : gmap string DayInfo)
           !! d' = None ->
         m !! d'
         = Server.day_to_frontend <$> Supabase.availability db0 !! d'.
Proof.
  apply (get_availability_after_post healthy "t1" db0
           (<["2025-06-11" := closed_day ["10:00"]]> ∅) "2025-06-11"
           (closed_day ["10:00"])); reflexivity.
Defined.

Lemma removed_day_stays_on_server_witness :
  let this := panel [] (<["2025-06-10" := open_day ["09:00"]]> ∅) in
  let db := database (<["2025-06-10" := day_row ["09:00"] false]> ∅) ∅ in
  let this1 := AdminPanel.removeTimeSlot this "2025-06-10" "09:00" in
  let result :=
    AdminPanel.saveDayAvailability (served healthy "t1") this1 "2025-06-10" db
  in
  AdminPanel.availability this1 !! "2025-06-10" = None
  /\ AdminPanel.availability result.1.2 !! "2025-06-10" = None
  /\ Supabase.availability result.2 !! "2025-06-10"
     = Some (day_row ["09:00"] false)
  /\ exists m,
       Server.get_availability healthy result.2 None None
       = Server.respond 200 (Server.AvailabilityJson m [])
       /\ m !! "2025-06-10"
          = Some (Server.day_to_frontend (day_row ["09:00"] false)).
Proof.
  apply (removed_day_stays_on_server healthy "t1"
           (panel [] (<["2025-06-10" := open_day ["09:00"]]> ∅))
           "2025-06-10" "09:00" (open_day ["09:00"])
           (database (<["2025-06-10" := day_row ["09:00"] false]> ∅) ∅)
           (day_row ["09:00"] false)); reflexivity.
Defined.

Lemma saveAvailability_forgets_refused_witness :
  let a : gmap string DayInfo :=
    <["2025-06-10" := open_day ["09:00"]]>
      (<["next Friday" := open_day ["10:00"]]> ∅) in
  let result :=
    AdminPanel.saveAvailability (served healthy "t1") (panel [] ∅) a db0 in
  result.1.1 = true
  /\ AdminPanel.availability result.1.2 !! "next Friday" = None
  /\ Supabase.availability result.2 !! "next Friday"
     = Supabase.availability db0 !! "next Friday".
Proof.
  apply (saveAvailability_forgets_refused healthy "t1" (panel [] ∅)
           (<["2025-06-10" := open_day ["09:00"]]>
              (<["next Friday" := open_day ["10:00"]]> ∅))
           db0 "next Friday" (open_day ["10:00"])); try reflexivity.
  exists "2025-06-10", (open_day ["09:00"]). split; reflexivity.
Defined.

End FurtherExamples.
